(** * yandex_gpt_bot.py: a shallow embedding and its checked properties

    The bot forwards a request text to a completion API, recovers JSON from
    the (markdown-wrapped) answer, optionally creates one remote task per
    entry of [epics[].tasks[]], and renders a text report.

    Python values are embedded as the type [json] (what [json.loads] can
    return), Python [str] as a list of code points, exceptions as a sum
    type, and the two REST collaborators, the JSON codec and the few
    interpreter builtins the program relies on as the fields of the class
    [Runtime].  The process state (environment, prompt cache, the record of
    HTTP requests sent) is threaded explicitly as a [World]. *)

From Stdlib Require Import String Ascii DecimalString.
From Stdlib Require Import ZArith NArith List Bool Lia Floats.
Import ListNotations.

Set Implicit Arguments.
Set Warnings "-inexact-float".

(** ** Python [str]: a sequence of Unicode code points *)

Definition char := N.
Definition pystr := list char.

(** Source literals are written as UTF-8 text; [u] decodes them into code
    points, so that one Cyrillic letter or one emoji is one [char], as in
    Python. *)
Fixpoint utf8_decode (bs : list N) : pystr :=
  match bs with
  | [] => []
  | b0 :: r0 =>
      if (b0 <? 128)%N then b0 :: utf8_decode r0
      else match r0 with
           | [] => [b0]
           | b1 :: r1 =>
               if (b0 <? 224)%N
               then ((b0 - 192) * 64 + (b1 - 128))%N :: utf8_decode r1
               else match r1 with
                    | [] => [b0; b1]
                    | b2 :: r2 =>
                        if (b0 <? 240)%N
                        then ((b0 - 224) * 4096 + (b1 - 128) * 64 + (b2 - 128))%N
                               :: utf8_decode r2
                        else match r2 with
                             | [] => [b0; b1; b2]
                             | b3 :: r3 =>
                                 ((b0 - 240) * 262144 + (b1 - 128) * 4096
                                  + (b2 - 128) * 64 + (b3 - 128))%N
                                   :: utf8_decode r3
                             end
                    end
           end
  end.

Definition u (s : string) : pystr :=
  utf8_decode (List.map N_of_ascii (list_ascii_of_string s)).
Arguments u s%_string.

(** The newline and the double quote, which a Rocq literal cannot escape. *)
Definition NL : pystr := [10%N].
Definition DQ : pystr := [34%N].

Fixpoint pystr_eqb (a b : pystr) : bool :=
  match a, b with
  | [], [] => true
  | x :: a', y :: b' => (x =? y)%N && pystr_eqb a' b'
  | _, _ => false
  end.

(** [c.isspace()], the characters [str.strip()] removes. *)
Definition is_space (c : char) : bool :=
  ((9 <=? c) && (c <=? 13) || (28 <=? c) && (c <=? 32)
   || (c =? 133) || (c =? 160) || (c =? 5760)
   || (8192 <=? c) && (c <=? 8202)
   || (c =? 8232) || (c =? 8233) || (c =? 8239) || (c =? 8287)
   || (c =? 12288))%N.

Fixpoint lstrip (s : pystr) : pystr :=
  match s with
  | [] => []
  | c :: r => if is_space c then lstrip r else s
  end.

Definition rstrip (s : pystr) : pystr := rev (lstrip (rev s)).

(** [s.strip()] *)
Definition strip (s : pystr) : pystr := rstrip (lstrip s).

(** [s.split(sep)] for a one-character separator: never the empty list. *)
Fixpoint split_on (sep : char) (s : pystr) : list pystr :=
  match s with
  | [] => [[]]
  | c :: r =>
      if (c =? sep)%N then [] :: split_on sep r
      else match split_on sep r with
           | l :: ls => (c :: l) :: ls
           | [] => [[c]]
           end
  end.

(** [sep.join(ls)] *)
Fixpoint join (sep : pystr) (ls : list pystr) : pystr :=
  match ls with
  | [] => []
  | [l] => l
  | l :: ls' => l ++ sep ++ join sep ls'
  end.

(** [s.startswith(p)] *)
Fixpoint startswith (p s : pystr) : bool :=
  match p, s with
  | [], _ => true
  | _ :: _, [] => false
  | x :: p', y :: s' => (x =? y)%N && startswith p' s'
  end.

(** [sub in s] *)
Fixpoint str_in (sub s : pystr) : bool :=
  startswith sub s
  || match s with
     | [] => false
     | _ :: r => str_in sub r
     end.

(** [s.find(sub)]: the lowest index where [sub] starts, or -1. *)
Fixpoint str_find (sub s : pystr) : Z :=
  if startswith sub s then 0%Z
  else match s with
       | [] => (-1)%Z
       | _ :: r =>
           let i := str_find sub r in
           if (i <? 0)%Z then (-1)%Z else (i + 1)%Z
       end.

(** [s[:n]], with Python's reading of a negative bound. *)
Definition slice_to {A : Type} (s : list A) (n : Z) : list A :=
  if (n <? 0)%Z
  then firstn (length s - Z.to_nat (- n)) s
  else firstn (Z.to_nat n) s.

(** ** extract_json_from_markdown (lines 57-86) *)

Definition FENCE : pystr := Eval vm_compute in u "```".
Definition COMMENT : pystr := Eval vm_compute in u "//".

(** [if lines and lines[0].strip().startswith('```'): lines = lines[1:]] *)
Definition drop_first_fence (lines : list pystr) : list pystr :=
  match lines with
  | l0 :: rest => if startswith FENCE (strip l0) then rest else lines
  | [] => lines
  end.

(** [if lines and lines[-1].strip() == '```': lines = lines[:-1]] *)
Definition drop_last_fence (lines : list pystr) : list pystr :=
  match lines with
  | [] => lines
  | _ :: _ =>
      if pystr_eqb (strip (last lines [])) FENCE then removelast lines
      else lines
  end.

(** The lines that remain once the fences are gone. *)
Definition unfenced_lines (text : pystr) : list pystr :=
  drop_last_fence (drop_first_fence (split_on 10%N (strip text))).

(** The body of the comment loop:
    [if '//' in line: line = line[:line.find('//')]]. *)
Definition cut_comment (line : pystr) : pystr :=
  if str_in COMMENT line then slice_to line (str_find COMMENT line)
  else line.

(** [sub] starts at index [n] of [line] and at no index before it. *)
Definition first_occurrence (sub line : pystr) (n : nat) : Prop :=
  startswith sub (skipn n line) = true
  /\ (n <= List.length line)%nat
  /\ forall k : nat, (k < n)%nat -> startswith sub (skipn k line) = false.

Definition extract_json_text (text : pystr) : pystr :=
  let text := strip text in
  let lines := split_on 10%N text in
  let lines := drop_first_fence lines in
  let lines := drop_last_fence lines in
  let text := join NL lines in
  let cleaned_lines := List.map cut_comment (split_on 10%N text) in
  let text := join NL cleaned_lines in
  strip text.

(** ** Python values, exceptions and the two effect layers *)

(** What [json.loads] returns: [None], [bool], [int], [float] (binary64),
    [str], [list] and [dict] (insertion-ordered, keys are [str]). *)
#[warnings="-register-all"]
Inductive json : Type :=
| JNull
| JBool (b : bool)
| JInt (z : Z)
| JFloat (f : float)
| JStr (s : pystr)
| JArr (items : list json)
| JObj (fields : list (pystr * json)).

(** The subclasses of [Exception] the program can meet.  [HTTPError] stands
    for every failure of [requests] (connection, timeout, status, body). *)
Inductive exn_class : Type :=
| JSONDecodeError | AttributeError | TypeError | ValueError | OverflowError
| KeyError | IndexError | HTTPError | OSError | RecursionError.

(** An exception: its class and [str(e)]. *)
Record exn : Type := mkExn { exn_kind : exn_class; exn_str : pystr }.

Inductive result (A : Type) : Type :=
| Return (a : A)
| Raise (e : exn).
Arguments Return {A} a.
Arguments Raise {A} e.

Definition bind {A B : Type} (m : result A) (k : A -> result B) : result B :=
  match m with
  | Return a => k a
  | Raise e => Raise e
  end.

Declare Scope py_scope.
Delimit Scope py_scope with py.
Notation "x <- m ;; k" := (bind m (fun x => k))
  (at level 61, m at next level, right associativity) : py_scope.
Notation "m ;;; k" := (bind m (fun _ => k))
  (at level 61, right associativity) : py_scope.
Open Scope py_scope.

(** [type(v).__name__] *)
Definition py_type_name (v : json) : pystr :=
  match v with
  | JNull => u "NoneType"
  | JBool _ => u "bool"
  | JInt _ => u "int"
  | JFloat _ => u "float"
  | JStr _ => u "str"
  | JArr _ => u "list"
  | JObj _ => u "dict"
  end.

Definition no_attribute {A : Type} (v : json) (name : pystr) : result A :=
  Raise (mkExn AttributeError
           (u "'" ++ py_type_name v ++ u "' object has no attribute '"
              ++ name ++ u "'")).

(** [bool(v)] *)
Definition py_truthy (v : json) : bool :=
  match v with
  | JNull => false
  | JBool b => b
  | JInt z => negb (z =? 0)%Z
  | JFloat f => negb (PrimFloat.eqb f 0%float)
  | JStr s => match s with [] => false | _ => true end
  | JArr l => match l with [] => false | _ => true end
  | JObj l => match l with [] => false | _ => true end
  end.

(** [d.get(key, default)] on a dict. *)
Fixpoint dict_get {V : Type} (fields : list (pystr * V)) (key : pystr)
  (default : V) : V :=
  match fields with
  | [] => default
  | (k, v) :: rest => if pystr_eqb k key then v else dict_get rest key default
  end.

(** [key in d] on a dict. *)
Fixpoint dict_has (fields : list (pystr * json)) (key : pystr) : bool :=
  match fields with
  | [] => false
  | (k, _) :: rest => pystr_eqb k key || dict_has rest key
  end.

(** [d[key] = v]: replaces in place, or appends a new key. *)
Fixpoint dict_set (fields : list (pystr * json)) (key : pystr) (v : json)
  : list (pystr * json) :=
  match fields with
  | [] => [(key, v)]
  | (k, w) :: rest =>
      if pystr_eqb k key then (k, v) :: rest
      else (k, w) :: dict_set rest key v
  end.

(** [v.get(key, default)]: only a dict has [get]. *)
Definition py_get_d (v : json) (key : pystr) (default : json) : result json :=
  match v with
  | JObj fields => Return (dict_get fields key default)
  | _ => no_attribute v (u "get")
  end.

(** [v.get(key)] *)
Definition py_get (v : json) (key : pystr) : result json :=
  py_get_d v key JNull.

(** [for x in v]: a list gives its items, a dict its keys, a str its
    characters; the other values are not iterable. *)
Definition py_iter (v : json) : result (list json) :=
  match v with
  | JArr items => Return items
  | JObj fields => Return (List.map (fun kv => JStr (fst kv)) fields)
  | JStr s => Return (List.map (fun c => JStr [c]) s)
  | _ => Raise (mkExn TypeError
                  (u "'" ++ py_type_name v ++ u "' object is not iterable"))
  end.

(** [v == s] for a str literal [s]. *)
Definition py_eq_str (v : json) (s : pystr) : bool :=
  match v with
  | JStr t => pystr_eqb t s
  | _ => false
  end.

(** [v.upper()] exists on str only; the case mapping itself is the
    interpreter's. *)
Definition py_upper (upper : pystr -> pystr) (v : json) : result json :=
  match v with
  | JStr s => Return (JStr (upper s))
  | _ => no_attribute v (u "upper")
  end.

(** ** Numbers: [int((load_ratio - 1) * 100)] *)

(** A finite binary64 value as an exact fraction [num / den], [den > 0]. *)
Definition float_fraction (x : float) : option (Z * Z) :=
  match Prim2SF x with
  | S754_zero _ => Some (0, 1)%Z
  | S754_finite s m e =>
      let mag := if (0 <=? e)%Z then (Z.pos m * 2 ^ e)%Z else Z.pos m in
      let den := if (0 <=? e)%Z then 1%Z else (2 ^ (- e))%Z in
      Some (if s then (- mag)%Z else mag, den)
  | S754_infinity _ => None
  | S754_nan => None
  end.

(** [int(x)] for a float: truncation toward zero; infinities and NaN raise. *)
Definition py_int_of_float (x : float) : result Z :=
  match Prim2SF x with
  | S754_infinity _ =>
      Raise (mkExn OverflowError (u "cannot convert float infinity to integer"))
  | S754_nan =>
      Raise (mkExn ValueError (u "cannot convert float NaN to integer"))
  | _ =>
      match float_fraction x with
      | Some (num, den) => Return (Z.quot num den)
      | None => Return 0%Z
      end
  end.

Definition unsupported_minus {A : Type} (v : json) : result A :=
  Raise (mkExn TypeError
           (u "unsupported operand type(s) for -: '" ++ py_type_name v
              ++ u "' and 'int'")).

(** [int((load_ratio - 1) * 100)] (line 167).  On an [int] (or [bool]) the
    arithmetic is exact; on a [float] both operations are binary64 and
    [int] truncates the product. *)
Definition overload_percent (load_ratio : json) : result Z :=
  match load_ratio with
  | JInt z => Return ((z - 1) * 100)%Z
  | JBool b => Return ((Z.b2z b - 1) * 100)%Z
  | JFloat f => py_int_of_float (PrimFloat.mul (PrimFloat.sub f 1%float) 100%float)
  | v => unsupported_minus v
  end.

(** Follows the spec's words, for comparison with [overload_percent]:
    [round(x)], the integer nearest to a float, ties to the even one. *)
Definition spec_round_float (x : float) : result Z :=
  match float_fraction x with
  | Some (num, den) =>
      let q := Z.quot num den in
      let r := Z.abs (Z.rem num den) in
      let away := if (num <? 0)%Z then (q - 1)%Z else (q + 1)%Z in
      Return (if (den <? 2 * r)%Z then away
              else if (2 * r =? den)%Z then (if Z.even q then q else away)
              else q)
  | None => Raise (mkExn OverflowError (u "cannot convert float to integer"))
  end.

(** Follows the spec's words: overload percentage
    [round((load_ratio - 1) * 100)]. *)
Definition spec_overload_percent (load_ratio : json) : result Z :=
  match load_ratio with
  | JInt z => Return ((z - 1) * 100)%Z
  | JBool b => Return ((Z.b2z b - 1) * 100)%Z
  | JFloat f => spec_round_float (PrimFloat.mul (PrimFloat.sub f 1%float) 100%float)
  | v => unsupported_minus v
  end.

(** ** The interpreter and the outside world *)

(** One HTTP request, as [requests.post(url, headers, json)] sends it. *)
Record request : Type := mkRequest {
  req_url : pystr;
  req_bearer : pystr;
  req_json : json
}.

(** What the program takes from its runtime: the [json] codec, the text of
    a value in an f-string and the exception its conversion raises, if it
    raises, [str.upper], the prompt file, and the network.
    [requests_post] stands for [requests.post] followed by
    [raise_for_status()] and [response.json()]; its answer may depend on
    every request sent before. *)
Class Runtime : Type := {
  json_loads : pystr -> result json;
  json_dumps : json -> pystr;
  json_dumps_indent : json -> pystr;
  py_repr : json -> pystr;
  str_error : json -> option exn;
  str_upper : pystr -> pystr;
  read_prompts_file : result json;
  requests_post : list request -> request -> result json
}.

(** The process state: [os.environ], the class attribute
    [PromptManager.PROMPTS], and the HTTP requests sent so far. *)
Record World : Type := mkWorld {
  environ : pystr -> option pystr;
  PROMPTS : json;
  sent : list request
}.

(** [os.environ.get(name)] *)
Definition environ_get (w : World) (name : pystr) : json :=
  match environ w name with
  | Some s => JStr s
  | None => JNull
  end.

(** ** Report text as the sequence of appended pieces

    Every [report += ...] (and the initial [report = ...]) contributes one
    [chunk]; inside a chunk the literal text and the interpolated values of
    the f-string alternate.  The returned [str] is [report_text]. *)

Inductive part : Type :=
| Lit (s : pystr)
| Fmt (v : json).

Definition chunk := list part.
Definition report := list chunk.

Section Text.
Context {rt : Runtime}.

(** [format(v, '')]: a str as it is, any other value by [str(v)]. *)
Definition py_format (v : json) : pystr :=
  match v with
  | JStr s => s
  | _ => py_repr v
  end.

(** [format(v, '')] where the code interpolates a value it was handed by
    its caller: the conversion can raise.  A str is taken as it is;
    [None], a bool, a float and an empty list or dict always convert; an
    int (beyond the digit limit of the interpreter) and a non-empty list
    or dict (for an int it holds, or for its depth) convert unless the
    interpreter raises, with [str_error]. *)
Definition py_str (v : json) : result pystr :=
  match v with
  | JStr s => Return s
  | JNull | JBool _ | JFloat _ | JArr [] | JObj [] => Return (py_repr v)
  | _ =>
      match str_error v with
      | Some e => Raise e
      | None => Return (py_repr v)
      end
  end.

Definition part_text (p : part) : pystr :=
  match p with
  | Lit s => s
  | Fmt v => py_format v
  end.

Definition chunk_text (c : chunk) : pystr := concat (List.map part_text c).

Definition report_text (r : report) : pystr := concat (List.map chunk_text r).
End Text.

(** A chunk made of the single literal [s]. *)
Definition chunk_is_lit (s : pystr) (c : chunk) : bool :=
  match c with
  | [Lit t] => pystr_eqb t s
  | _ => false
  end.

(** How many times the literal chunk [s] was appended to the report. *)
Definition emitted (s : pystr) (r : report) : nat :=
  List.length (List.filter (chunk_is_lit s) r).

(** [for x in items: body], collecting what each round appends. *)
Fixpoint for_each {A : Type} (body : json -> result (list A))
  (items : list json) : result (list A) :=
  match items with
  | [] => Return []
  | x :: rest =>
      c <- body x ;;
      cs <- for_each body rest ;;
      Return (c ++ cs)
  end.

(** [for i, x in enumerate(items, start): body] *)
Fixpoint for_each_from {A : Type} (start : Z)
  (body : Z -> json -> result (list A)) (items : list json)
  : result (list A) :=
  match items with
  | [] => Return []
  | x :: rest =>
      c <- body start x ;;
      cs <- for_each_from (start + 1) body rest ;;
      Return (c ++ cs)
  end.

Definition RULE : pystr := Eval vm_compute in
    (u "━━━━━━━━━━━━━━━━━━━━━━━━━━━━━━━━━━━━━━━━━━━━━━━━━━━━━━━━━━━━").
Definition BOX_TOP : pystr := Eval vm_compute in
    (u "╔══════════════════════════════════════════════════════════════╗").
Definition BOX_BOTTOM : pystr := Eval vm_compute in
    (u "╚══════════════════════════════════════════════════════════════╝").

(** ** format_sprint_report (lines 105-234) *)

Definition SPRINT_RISKS_TITLE : pystr := Eval vm_compute in
    (NL ++ RULE ++ NL ++ u "⚠️  КРИТИЧЕСКИЕ РИСКИ" ++ NL ++ RULE ++ NL).
Definition SPRINT_OVERLOADED_TITLE : pystr := Eval vm_compute in
    (NL ++ u "  🔴 ПЕРЕГРУЖЕНЫ:" ++ NL).
Definition SPRINT_UNDERUSED_TITLE : pystr := Eval vm_compute in
    (NL ++ u "  🟢 ОПТИМАЛЬНАЯ НАГРУЗКА:" ++ NL).
Definition SPRINT_BOTTLENECKS_TITLE : pystr := Eval vm_compute in
    (NL ++ RULE ++ NL ++ u "🚧 УЗКИЕ МЕСТА В ПРОЦЕССЕ" ++ NL ++ RULE ++ NL).
Definition SPRINT_ACTIONS_TITLE : pystr := Eval vm_compute in
    (NL ++ RULE ++ NL ++ u "🎯 СРОЧНЫЕ ДЕЙСТВИЯ (СДЕЛАТЬ СЕГОДНЯ)" ++ NL ++ RULE ++ NL).
Definition SPRINT_IMPROVEMENTS_TITLE : pystr := Eval vm_compute in
    (NL ++ RULE ++ NL ++ u "💡 УЛУЧШЕНИЯ НА БЛИЖАЙШИЕ ДНИ" ++ NL ++ RULE ++ NL).
Definition SPRINT_RETRO_TITLE : pystr := Eval vm_compute in
    (NL ++ RULE ++ NL ++ u "🗣️  ТЕМЫ ДЛЯ РЕТРОСПЕКТИВЫ" ++ NL ++ RULE ++ NL).
Definition SPRINT_FOOTER : pystr := Eval vm_compute in
    (NL ++ BOX_TOP ++ NL
  ++ u "║                    КОНЕЦ ОТЧЁТА                             ║"
  ++ NL ++ BOX_BOTTOM ++ NL).

(** The title line of the tasks section of the analysis report (line 255). *)
Definition ANALYSIS_TASKS_TITLE : pystr := Eval vm_compute in
    (u "📝 СОЗДАННЫЕ ЗАДАЧИ" ++ NL).

(** The line [Перегрузка: {...}%] of one overloaded member (line 167). *)
Definition overload_line (percent : Z) : chunk :=
  [Lit (u "      Перегрузка: "); Fmt (JInt percent); Lit (u "%" ++ NL)].

(** The shape of the sections of the sprint report that are guarded by the
    list they iterate: [if v: report += title; for ... in v: report += ...]. *)
Definition titled_section (title : pystr) (v : json)
  (lines_of : list json -> result report) : result report :=
  if py_truthy v then
    items <- py_iter v ;;
    lines <- lines_of items ;;
    Return ([Lit title] :: lines)
  else Return [].

Section Renderers.
Context {rt : Runtime}.

(** Lines 114-126: the banner and the executive summary. *)
Definition sprint_head (data summary : json) : result report :=
  meta <- py_get_d data (u "analysis_metadata") (JObj []) ;;
  date <- py_get_d meta (u "analysis_date") (JStr (u "не указана")) ;;
  score <- py_get_d summary (u "sprint_health_score") (JStr (u "N/A")) ;;
  st <- py_get_d summary (u "overall_status") (JStr (u "не определён")) ;;
  status <- py_upper str_upper st ;;
  Return
    [[Lit (NL ++ BOX_TOP ++ NL
           ++ u "║          📊 ОТЧЁТ ПО СПРИНТУ - ФИТОGUIDE                    ║"
           ++ NL ++ BOX_BOTTOM ++ NL ++ NL ++ u "📅 Дата анализа: ");
      Fmt date;
      Lit (NL ++ u "🎯 Здоровье спринта: ");
      Fmt score;
      Lit (u "/100" ++ NL ++ u "📈 Статус: ");
      Fmt status;
      Lit (NL ++ NL ++ RULE ++ NL ++ u "🎉 ДОСТИЖЕНИЯ" ++ NL ++ RULE ++ NL)]].

(** Lines 128-129. *)
Definition sprint_achievements (summary : json) : result report :=
  l <- py_get_d summary (u "key_achievements") (JArr []) ;;
  items <- py_iter l ;;
  for_each (fun achievement =>
              Return [[Lit (u "  ✓ "); Fmt achievement; Lit NL]]) items.

(** Lines 131-138. *)
Definition sprint_risks (summary : json) : result report :=
  l <- py_get_d summary (u "critical_risks") (JArr []) ;;
  items <- py_iter l ;;
  lines <- for_each (fun risk =>
                       Return [[Lit (u "  ⚡ "); Fmt risk; Lit NL]]) items ;;
  Return ([Lit SPRINT_RISKS_TITLE] :: lines).

(** Lines 141-158. *)
Definition sprint_metrics (flow team : json) : result report :=
  burn_down <- py_get_d flow (u "burn_down") (JObj []) ;;
  planned <- py_get_d burn_down (u "planned_sp") (JStr (u "N/A")) ;;
  actual <- py_get_d burn_down (u "actual_sp") (JStr (u "N/A")) ;;
  remaining <- py_get_d burn_down (u "remaining_sp") (JStr (u "N/A")) ;;
  percentage <- py_get_d burn_down (u "completion_percentage") (JStr (u "N/A")) ;;
  va <- py_get_d team (u "velocity_analysis") (JObj []) ;;
  velocity <- py_get_d va (u "current_velocity") (JStr (u "N/A")) ;;
  cf <- py_get_d flow (u "cumulative_flow") (JObj []) ;;
  throughput <- py_get_d cf (u "throughput") (JStr (u "N/A")) ;;
  ct <- py_get_d flow (u "cycle_time_analysis") (JObj []) ;;
  cycle <- py_get_d ct (u "average_cycle_time") (JStr (u "N/A")) ;;
  Return
    [[Lit (NL ++ RULE ++ NL ++ u "📊 МЕТРИКИ ВЫПОЛНЕНИЯ" ++ NL ++ RULE ++ NL
           ++ u "  Запланировано:  ");
      Fmt planned;
      Lit (u " Story Points" ++ NL ++ u "  Выполнено:      ");
      Fmt actual;
      Lit (u " Story Points" ++ NL ++ u "  Осталось:       ");
      Fmt remaining;
      Lit (u " Story Points" ++ NL ++ u "  Процент:        ");
      Fmt percentage;
      Lit (u "%" ++ NL ++ NL ++ u "  Производительность команды: ");
      Fmt velocity;
      Lit (u " SP" ++ NL ++ u "  Скорость потока: ");
      Fmt throughput;
      Lit (u " задач/день" ++ NL ++ u "  Среднее время выполнения: ");
      Fmt cycle;
      Lit (u " дней" ++ NL ++ NL ++ RULE ++ NL
           ++ u "👥 АНАЛИЗ НАГРУЗКИ КОМАНДЫ" ++ NL ++ RULE ++ NL)]].

(** Lines 165-167: the three lines of one overloaded member. *)
Definition overloaded_member (member : json) : result report :=
  name <- py_get member (u "member") ;;
  role <- py_get member (u "role") ;;
  current <- py_get member (u "current_load_sp") ;;
  recommended <- py_get member (u "recommended_load_sp") ;;
  load_ratio <- py_get_d member (u "load_ratio") (JInt 1) ;;
  percent <- overload_percent load_ratio ;;
  Return
    [[Lit (u "    • "); Fmt name; Lit (u " ("); Fmt role; Lit (u ")" ++ NL)];
     [Lit (u "      Нагрузка: "); Fmt current; Lit (u " SP (норма: ");
      Fmt recommended; Lit (u " SP)" ++ NL)];
     overload_line percent].

(** Line 172. *)
Definition underutilized_member (member : json) : result report :=
  name <- py_get member (u "member") ;;
  role <- py_get member (u "role") ;;
  current <- py_get member (u "current_load_sp") ;;
  Return
    [[Lit (u "    • "); Fmt name; Lit (u " ("); Fmt role; Lit (u ") - ");
      Fmt current; Lit (u " SP" ++ NL)]].

(** Lines 162-167. *)
Definition sprint_overloaded (workload : json) : result report :=
  guard <- py_get workload (u "overloaded_members") ;;
  if py_truthy guard then
    members <- py_get_d workload (u "overloaded_members") (JArr []) ;;
    items <- py_iter members ;;
    lines <- for_each overloaded_member items ;;
    Return ([Lit SPRINT_OVERLOADED_TITLE] :: lines)
  else Return [].

(** Lines 169-172. *)
Definition sprint_underutilized (workload : json) : result report :=
  guard <- py_get workload (u "underutilized_members") ;;
  if py_truthy guard then
    members <- py_get_d workload (u "underutilized_members") (JArr []) ;;
    items <- py_iter members ;;
    lines <- for_each underutilized_member items ;;
    Return ([Lit SPRINT_UNDERUSED_TITLE] :: lines)
  else Return [].

(** Lines 183-186. *)
Definition bottleneck_lines (bottleneck : json) : result report :=
  stage <- py_get bottleneck (u "stage") ;;
  wait <- py_get bottleneck (u "avg_wait_time_days") ;;
  wip <- py_get bottleneck (u "wip_count") ;;
  evidence <- py_get bottleneck (u "evidence") ;;
  Return
    [[Lit (u "  • Этап: "); Fmt stage; Lit NL];
     [Lit (u "    Среднее время ожидания: "); Fmt wait; Lit (u " дней" ++ NL)];
     [Lit (u "    Задач в работе: "); Fmt wip; Lit NL];
     [Lit (u "    Причина: "); Fmt evidence; Lit (NL ++ NL)]].

(** Lines 175-186. *)
Definition sprint_bottlenecks (flow : json) : result report :=
  cf <- py_get_d flow (u "cumulative_flow") (JObj []) ;;
  bottlenecks <- py_get_d cf (u "bottlenecks") (JArr []) ;;
  titled_section SPRINT_BOTTLENECKS_TITLE bottlenecks
    (for_each bottleneck_lines).

(** Lines 197-200. *)
Definition action_lines (i : Z) (action : json) : result report :=
  what <- py_get action (u "action") ;;
  owner <- py_get action (u "owner") ;;
  deadline <- py_get action (u "deadline") ;;
  impact <- py_get action (u "expected_impact") ;;
  Return
    [[Lit (u "  "); Fmt (JInt i); Lit (u ". "); Fmt what; Lit NL];
     [Lit (u "     👤 Ответственный: "); Fmt owner; Lit NL];
     [Lit (u "     📅 Дедлайн: "); Fmt deadline; Lit NL];
     [Lit (u "     💡 Эффект: "); Fmt impact; Lit (NL ++ NL)]].

(** Lines 189-200. *)
Definition sprint_immediate (actions : json) : result report :=
  immediate <- py_get_d actions (u "immediate_actions") (JArr []) ;;
  titled_section SPRINT_ACTIONS_TITLE immediate
    (for_each_from 1 action_lines).

(** Lines 210-213. *)
Definition improvement_lines (i : Z) (improvement : json) : result report :=
  what <- py_get improvement (u "improvement") ;;
  time <- py_get improvement (u "implementation_time") ;;
  impact <- py_get improvement (u "impact") ;;
  rationale <- py_get improvement (u "rationale") ;;
  Return
    [[Lit (u "  "); Fmt (JInt i); Lit (u ". "); Fmt what; Lit NL];
     [Lit (u "     ⏱️  Время внедрения: "); Fmt time; Lit NL];
     [Lit (u "     📈 Эффект: "); Fmt impact; Lit NL];
     [Lit (u "     💬 Зачем: "); Fmt rationale; Lit (NL ++ NL)]].

(** Lines 202-213. *)
Definition sprint_short_term (actions : json) : result report :=
  short_term <- py_get_d actions (u "short_term_improvements") (JArr []) ;;
  titled_section SPRINT_IMPROVEMENTS_TITLE short_term
    (for_each_from 1 improvement_lines).

(** Lines 224-226. *)
Definition topic_lines (i : Z) (topic : json) : result report :=
  what <- py_get topic (u "topic") ;;
  why <- py_get topic (u "why_important") ;;
  outcome <- py_get topic (u "expected_outcome") ;;
  Return
    [[Lit (u "  "); Fmt (JInt i); Lit (u ". "); Fmt what; Lit NL];
     [Lit (u "     ❓ Почему важно: "); Fmt why; Lit NL];
     [Lit (u "     🎯 Ожидаемый результат: "); Fmt outcome; Lit (NL ++ NL)]].

(** Lines 216-226. *)
Definition sprint_retro (data : json) : result report :=
  retro <- py_get_d data (u "retrospective_topics") (JArr []) ;;
  titled_section SPRINT_RETRO_TITLE retro (for_each_from 1 topic_lines).

(** The chunks of [format_sprint_report], in the order the source appends
    them; an exception anywhere abandons the report. *)
Definition format_sprint_chunks (data : json) : result report :=
  summary <- py_get_d data (u "executive_summary") (JObj []) ;;
  flow <- py_get_d data (u "flow_metrics") (JObj []) ;;
  team <- py_get_d data (u "team_performance") (JObj []) ;;
  actions <- py_get_d data (u "actionable_recommendations") (JObj []) ;;
  head <- sprint_head data summary ;;
  achievements <- sprint_achievements summary ;;
  risks <- sprint_risks summary ;;
  metrics <- sprint_metrics flow team ;;
  workload <- py_get_d team (u "workload_distribution") (JObj []) ;;
  overloaded <- sprint_overloaded workload ;;
  underutilized <- sprint_underutilized workload ;;
  bottlenecks <- sprint_bottlenecks flow ;;
  immediate <- sprint_immediate actions ;;
  short_term <- sprint_short_term actions ;;
  retro <- sprint_retro data ;;
  Return (head ++ achievements ++ risks ++ metrics ++ overloaded
            ++ underutilized ++ bottlenecks ++ immediate ++ short_term
            ++ retro ++ [[Lit SPRINT_FOOTER]]).

Definition format_sprint_report (data : json) : result pystr :=
  chunks <- format_sprint_chunks data ;;
  Return (report_text chunks).

(** ** format_analysis_report (lines 237-268) *)

(** Lines 258-265: the lines of one task record. *)
Definition analysis_task_lines (i : Z) (task : json) : result report :=
  st <- py_get task (u "status") ;;
  let status_icon := if py_eq_str st (u "created") then u "✅" else u "❌" in
  title <- py_get_d task (u "title") (JStr (u "Без названия")) ;;
  let first := [Fmt (JInt i); Lit (u ". "); Fmt (JStr status_icon);
                Lit (u " "); Fmt title; Lit NL] in
  st' <- py_get task (u "status") ;;
  second <-
    (if py_eq_str st' (u "created") then
       yougile_id <- py_get task (u "yougile_id") ;;
       Return [Lit (u "   🆔 YouGile ID: "); Fmt yougile_id; Lit NL]
     else
       error <- py_get_d task (u "error") (JStr (u "не указана")) ;;
       Return [Lit (u "   ⚠️  Ошибка: "); Fmt error; Lit NL]) ;;
  Return [first; second; [Lit NL]].

Definition format_analysis_chunks (data : json) : result report :=
  st <- py_get_d data (u "status") (JStr (u "не определён")) ;;
  status <- py_upper str_upper st ;;
  created <- py_get_d data (u "tasks_created") (JInt 0) ;;
  failed <- py_get_d data (u "tasks_failed") (JInt 0) ;;
  let head :=
    [Lit (NL ++ BOX_TOP ++ NL
          ++ u "║          ✅ ЗАДАЧИ СОЗДАНЫ В YOUGILE                        ║"
          ++ NL ++ BOX_BOTTOM ++ NL ++ NL ++ u "📊 Статус: ");
     Fmt status;
     Lit (NL ++ u "✅ Создано задач: ");
     Fmt created;
     Lit (NL ++ u "❌ Ошибок: ");
     Fmt failed;
     Lit (NL ++ NL)] in
  tasks <- py_get_d data (u "tasks") (JArr []) ;;
  section <-
    (if py_truthy tasks then
       items <- py_iter tasks ;;
       lines <- for_each_from 1 analysis_task_lines items ;;
       Return ([Lit (RULE ++ NL)]
                 :: [Lit ANALYSIS_TASKS_TITLE]
                 :: [Lit (RULE ++ NL ++ NL)]
                 :: lines)
     else Return []) ;;
  Return (head :: section ++ [[Lit (NL ++ BOX_BOTTOM ++ NL)]]).

Definition format_analysis_report (data : json) : result pystr :=
  chunks <- format_analysis_chunks data ;;
  Return (report_text chunks).

(** ** format_governance_report, format_calendar_report (lines 271-302) *)

Definition format_governance_report (data : json) : result pystr :=
  Return
    (chunk_text
       [Lit (NL ++ BOX_TOP ++ NL
             ++ u "║          🔍 ПРОВЕРКА СООТВЕТСТВИЯ ПРАВИЛАМ                  ║"
             ++ NL ++ BOX_BOTTOM ++ NL ++ NL
             ++ u "Статус проверки: ВЫПОЛНЕНА" ++ NL ++ NL);
        Fmt (JStr (json_dumps_indent data));
        Lit (NL ++ NL ++ BOX_BOTTOM ++ NL)]).

Definition format_calendar_report (data : json) : result pystr :=
  Return
    (chunk_text
       [Lit (NL ++ BOX_TOP ++ NL
             ++ u "║          📅 СИНХРОНИЗАЦИЯ С КАЛЕНДАРЁМ                      ║"
             ++ NL ++ BOX_BOTTOM ++ NL ++ NL ++ u "Статус: ВЫПОЛНЕНА" ++ NL ++ NL);
        Fmt (JStr (json_dumps_indent data));
        Lit (NL ++ NL ++ BOX_BOTTOM ++ NL)]).

(** ** format_human_readable_report (lines 89-102) *)

Definition format_human_readable_report (analysis_data request_type : json)
  : result pystr :=
  if py_eq_str request_type (u "sprint_analytics")
     || py_eq_str request_type (u "sprint")
  then format_sprint_report analysis_data
  else if py_eq_str request_type (u "analysis")
  then format_analysis_report analysis_data
  else if py_eq_str request_type (u "governance")
  then format_governance_report analysis_data
  else if py_eq_str request_type (u "calendar_sync")
  then format_calendar_report analysis_data
  else Return (json_dumps_indent analysis_data).

End Renderers.

(** ** Stateful code: a state-and-exception monad over [World] *)

Definition io (A : Type) : Type := World -> World * result A.

Definition io_ret {A : Type} (a : A) : io A := fun w => (w, Return a).

Definition io_raise {A : Type} (e : exn) : io A := fun w => (w, Raise e).

Definition io_bind {A B : Type} (m : io A) (k : A -> io B) : io B :=
  fun w =>
    match m w with
    | (w', Return a) => k a w'
    | (w', Raise e) => (w', Raise e)
    end.

(** A pure, possibly raising computation inside stateful code. *)
Definition lift {A : Type} (m : result A) : io A := fun w => (w, m).

(** [try: body / except Exception as e: handler(e)] *)
Definition try_except {A : Type} (body : io A) (handler : exn -> io A) : io A :=
  fun w =>
    match body w with
    | (w', Return a) => (w', Return a)
    | (w', Raise e) => handler e w'
    end.

Definition exn_class_eqb (a b : exn_class) : bool :=
  match a, b with
  | JSONDecodeError, JSONDecodeError
  | AttributeError, AttributeError
  | TypeError, TypeError
  | ValueError, ValueError
  | OverflowError, OverflowError
  | KeyError, KeyError
  | IndexError, IndexError
  | HTTPError, HTTPError
  | OSError, OSError
  | RecursionError, RecursionError => true
  | _, _ => false
  end.

(** [try: body / except json.JSONDecodeError as e: handler(e)]: any other
    exception passes through. *)
Definition try_except_decode {A : Type} (body : io A) (handler : exn -> io A)
  : io A :=
  fun w =>
    match body w with
    | (w', Return a) => (w', Return a)
    | (w', Raise e) =>
        if exn_class_eqb (exn_kind e) JSONDecodeError then handler e w'
        else (w', Raise e)
    end.

Notation "x <~ m ;; k" := (io_bind m (fun x => k))
  (at level 61, m at next level, right associativity) : py_scope.

(** [v[:n]] for a non-negative [n]. *)
Definition py_slice_to (v : json) (n : nat) : result json :=
  match v with
  | JStr s => Return (JStr (firstn n s))
  | JArr l => Return (JArr (firstn n l))
  | _ => Raise (mkExn TypeError
                  (u "'" ++ py_type_name v ++ u "' object is not subscriptable"))
  end.

(** [len(v)] *)
Definition py_len (v : json) : result Z :=
  match v with
  | JStr s => Return (Z.of_nat (List.length s))
  | JArr l => Return (Z.of_nat (List.length l))
  | JObj l => Return (Z.of_nat (List.length l))
  | _ => Raise (mkExn TypeError
                  (u "object of type '" ++ py_type_name v ++ u "' has no len()"))
  end.

(** [v[0]] *)
Definition py_first (v : json) : result json :=
  match v with
  | JArr (x :: _) => Return x
  | JArr [] => Raise (mkExn IndexError (u "list index out of range"))
  | JStr (c :: _) => Return (JStr [c])
  | JStr [] => Raise (mkExn IndexError (u "string index out of range"))
  | JObj _ => Raise (mkExn KeyError (u "0"))
  | _ => Raise (mkExn TypeError
                  (u "'" ++ py_type_name v ++ u "' object is not subscriptable"))
  end.

(** [d[key]] for a str key. *)
Definition py_item (v : json) (key : pystr) : result json :=
  match v with
  | JObj fields =>
      if dict_has fields key then Return (dict_get fields key JNull)
      else Raise (mkExn KeyError (u "'" ++ key ++ u "'"))
  | _ => Raise (mkExn TypeError
                  (u "'" ++ py_type_name v ++ u "' object is not subscriptable"))
  end.

(** Whether [v] can be a dict key: lists and dicts are unhashable. *)
Definition py_hashable (v : json) : bool :=
  match v with
  | JArr _ | JObj _ => false
  | _ => true
  end.

(** [table.get(key, default)] on a dict literal whose keys are str, for an
    arbitrary key value. *)
Definition table_get {V : Type} (table : list (pystr * V)) (key : json)
  (default : V) : result V :=
  match key with
  | JStr s => Return (dict_get table s default)
  | JArr _ | JObj _ =>
      Raise (mkExn TypeError (u "unhashable type: '" ++ py_type_name key ++ u "'"))
  | _ => Return default
  end.

Definition YANDEX_GPT_URL : pystr :=
  u "https://llm.api.cloud.yandex.net/foundationModels/v1/completion".
Definition YOUGILE_API_BASE : pystr := u "https://ru.yougile.com/api-v2".

Section Bot.
Context {rt : Runtime}.

(** [requests.post(...)], [raise_for_status()], [response.json()]: the
    request is recorded whatever the outcome. *)
Definition http_post (req : request) : io json :=
  fun w =>
    (mkWorld (environ w) (PROMPTS w) (sent w ++ [req]),
     requests_post (sent w) req).

(** ** PromptManager (lines 37-54) *)

Definition load_prompts : io unit :=
  fun w =>
    match read_prompts_file with
    | Return p => (mkWorld (environ w) p (sent w), Return tt)
    | Raise e => (w, Raise e)
    end.

Definition get_prompt (prompt_type : pystr) : io json :=
  fun w =>
    (_ <~ (if py_truthy (PROMPTS w) then io_ret tt else load_prompts) ;;
     fun w' => (w', py_get_d (PROMPTS w') prompt_type (JStr []))) w.

(** ** extract_json_from_markdown on a Python value: [strip] exists on
    str only. *)
Definition extract_json_from_markdown (text : json) : result pystr :=
  match text with
  | JStr s => Return (extract_json_text s)
  | _ => no_attribute text (u "strip")
  end.

(** ** call_yandex_gpt (lines 305-372) *)

Definition gpt_request (api_key folder_id prompt : pystr) : request :=
  mkRequest YANDEX_GPT_URL api_key
    (JObj
       [(u "modelUri",
         JStr (u "gpt://" ++ folder_id ++ u "/yandexgpt-lite/latest"));
        (u "completionOptions",
         JObj [(u "stream", JBool false);
               (u "temperature", JFloat 0.1%float);
               (u "maxTokens", JStr (u "4000"))]);
        (u "messages",
         JArr [JObj [(u "role", JStr (u "user")); (u "text", JStr prompt)]])]).

(** Lines 350-357: [result.alternatives[0].message.text], or the empty
    text when there is no alternative. *)
Definition gpt_result_text (data : json) : result json :=
  res <- py_get_d data (u "result") (JObj []) ;;
  alternatives <- py_get_d res (u "alternatives") (JArr []) ;;
  if py_truthy alternatives then
    n <- py_len alternatives ;;
    if (0 <? n)%Z then
      first <- py_first alternatives ;;
      message <- py_get_d first (u "message") (JObj []) ;;
      py_get_d message (u "text") (JStr [])
    else Return (JStr [])
  else Return (JStr []).

(** Every handler of [call_yandex_gpt] logs and re-raises. *)
Definition call_yandex_gpt (prompt : pystr) : io json :=
  fun w =>
    let api_key := environ_get w (u "YANDEX_API_KEY") in
    let folder_id := environ_get w (u "YANDEX_FOLDER_ID") in
    match api_key, folder_id with
    | JStr ((_ :: _) as key), JStr ((_ :: _) as folder) =>
        (data <~ http_post (gpt_request key folder prompt) ;;
         lift (gpt_result_text data)) w
    | JStr (_ :: _), _ =>
        (w, Raise (mkExn ValueError (u "Отсутствует YANDEX_FOLDER_ID")))
    | _, _ =>
        (w, Raise (mkExn ValueError (u "Отсутствует YANDEX_API_KEY")))
    end.

(** ** create_yougile_task (lines 375-416) *)

(** Lines 389-399: the payload; [task_data] must be a dict. *)
Definition task_payload (task_data : json) (column_id : pystr) : result json :=
  title <- py_get_d task_data (u "title") (JStr (u "Новая задача")) ;;
  description <- py_get_d task_data (u "description") (JStr []) ;;
  assignees <- py_get task_data (u "assignees") ;;
  tags <- py_get task_data (u "tags") ;;
  let base := [(u "title", title); (u "description", description);
               (u "columnId", JStr column_id)] in
  let with_assigned :=
    if py_truthy assignees then base ++ [(u "assigned", assignees)]
    else base in
  Return (JObj (if py_truthy tags then with_assigned ++ [(u "tags", tags)]
                else with_assigned)).

Definition create_yougile_task (task_data : json) (column_id : pystr)
  : io json :=
  fun w =>
    match environ_get w (u "YOUGILE_API_KEY") with
    | JStr ((_ :: _) as api_key) =>
        (payload <~ lift (task_payload task_data column_id) ;;
         created <~ http_post
                      (mkRequest (YOUGILE_API_BASE ++ u "/tasks") api_key payload) ;;
         _ <~ lift (py_get created (u "id")) ;;
         io_ret created) w
    | _ => (w, Raise (mkExn ValueError (u "Отсутствует YOUGILE_API_KEY")))
    end.

(** ** process_analysis_request (lines 419-486) *)

(** Lines 451-457, the body of the inner [try]: the remote call, then the
    record of a created task. *)
Definition try_create (task : json) (column_id : pystr) : io json :=
  yougile_result <~ create_yougile_task task column_id ;;
  lift (task_id <- py_get task (u "task_id") ;;
        yougile_id <- py_get yougile_result (u "id") ;;
        title <- py_get task (u "title") ;;
        Return (JObj [(u "task_id", task_id);
                      (u "yougile_id", yougile_id);
                      (u "title", title);
                      (u "status", JStr (u "created"))])).

(** Lines 458-465, the handler: the log line reads [task.get('title')]
    before the record of the failure is built. *)
Definition failed_record (task : json) (e : exn) : result json :=
  _ <- py_get task (u "title") ;;
  task_id <- py_get task (u "task_id") ;;
  title <- py_get task (u "title") ;;
  Return (JObj [(u "task_id", task_id);
                (u "title", title);
                (u "status", JStr (u "failed"));
                (u "error", JStr (exn_str e))]).

(** One round of the loop over [tasks]: the record appended to
    [created_tasks]. *)
Definition create_one (column_id : pystr) (task : json) : io json :=
  try_except (try_create task column_id)
             (fun e => lift (failed_record task e)).

(** [for task in tasks: ...] (lines 449-465) *)
Fixpoint tasks_loop (column_id : pystr) (tasks : list json)
  (created_tasks : list json) : io (list json) :=
  match tasks with
  | [] => io_ret created_tasks
  | task :: rest =>
      record <~ create_one column_id task ;;
      tasks_loop column_id rest (created_tasks ++ [record])
  end.

(** [for epic in epics: tasks = epic.get("tasks", []); ...]
    (lines 447-465) *)
Fixpoint epics_loop (column_id : pystr) (epics : list json)
  (created_tasks : list json) : io (list json) :=
  match epics with
  | [] => io_ret created_tasks
  | epic :: rest =>
      tasks <~ lift (l <- py_get_d epic (u "tasks") (JArr []) ;; py_iter l) ;;
      created_tasks' <~ tasks_loop column_id tasks created_tasks ;;
      epics_loop column_id rest created_tasks'
  end.

(** [len([t for t in created_tasks if t["status"] == status])] *)
Fixpoint count_status (status : pystr) (created_tasks : list json) : result Z :=
  match created_tasks with
  | [] => Return 0%Z
  | t :: rest =>
      s <- py_item t (u "status") ;;
      n <- count_status status rest ;;
      Return (if py_eq_str s status then (n + 1)%Z else n)
  end.

(** [result["human_readable_report"] = format_human_readable_report(result,
    "analysis")] *)
Definition with_report (envelope : list (pystr * json)) : result json :=
  text <- format_human_readable_report (JObj envelope) (JStr (u "analysis")) ;;
  Return (JObj (dict_set envelope (u "human_readable_report") (JStr text))).

(** Lines 432-442. *)
Definition warning_envelope (parsed_response : json) : result json :=
  with_report
    [(u "status", JStr (u "warning"));
     (u "request_type", JStr (u "analysis"));
     (u "message",
      JStr (u "Задачи проанализированы, но не созданы (не указан YOUGILE_COLUMN_ID)"));
     (u "gpt_analysis", parsed_response);
     (u "tasks_created", JInt 0);
     (u "tasks_failed", JInt 0);
     (u "tasks", JArr [])].

(** Lines 467-477. *)
Definition success_envelope (parsed_response : json)
  (created_tasks : list json) : result json :=
  n_created <- count_status (u "created") created_tasks ;;
  n_failed <- count_status (u "failed") created_tasks ;;
  with_report
    [(u "status", JStr (u "success"));
     (u "request_type", JStr (u "analysis"));
     (u "tasks_created", JInt n_created);
     (u "tasks_failed", JInt n_failed);
     (u "tasks", JArr created_tasks);
     (u "gpt_analysis", parsed_response)].

(** Lines 481-486 and 518-523. *)
Definition decode_error_envelope (request_type gpt_response : json) (e : exn)
  : result json :=
  raw <- py_slice_to gpt_response 500 ;;
  Return (JObj [(u "status", JStr (u "error"));
                (u "request_type", request_type);
                (u "message", JStr (u "Ошибка парсинга: " ++ exn_str e));
                (u "raw_response", raw)]).

Definition process_analysis_request (gpt_response : json) : io json :=
  fun w =>
    let column_id := environ_get w (u "YOUGILE_COLUMN_ID") in
    try_except_decode
      (clean_json <~ lift (extract_json_from_markdown gpt_response) ;;
       parsed_response <~ lift (json_loads clean_json) ;;
       match column_id with
       | JStr ((_ :: _) as column) =>
           epics <~ lift (l <- py_get_d parsed_response (u "epics") (JArr []) ;;
                          py_iter l) ;;
           created_tasks <~ epics_loop column epics [] ;;
           lift (success_envelope parsed_response created_tasks)
       | _ => lift (warning_envelope parsed_response)
       end)
      (fun e => lift (decode_error_envelope (JStr (u "analysis")) gpt_response e))
      w.

(** ** process_other_request (lines 489-523) *)

Definition OTHER_MESSAGES : list (pystr * json) :=
  [(u "calendar_sync", JStr (u "Анализ календарной синхронизации выполнен"));
   (u "governance", JStr (u "Проверка governance правил выполнена"));
   (u "sprint_analytics", JStr (u "Аналитика спринта выполнена"));
   (u "sprint", JStr (u "Аналитика спринта выполнена"))].

Definition process_other_request (gpt_response request_type : json) : io json :=
  try_except_decode
    (lift (clean_json <- extract_json_from_markdown gpt_response ;;
           parsed_response <- json_loads clean_json ;;
           human_readable <-
             format_human_readable_report parsed_response request_type ;;
           message <- table_get OTHER_MESSAGES request_type
                        (JStr (u "Запрос обработан")) ;;
           Return (JObj [(u "status", JStr (u "success"));
                         (u "request_type", request_type);
                         (u "message", message);
                         (u "analysis", parsed_response);
                         (u "human_readable_report", JStr human_readable)])))
    (fun e => lift (decode_error_envelope request_type gpt_response e)).

(** ** main (lines 526-571) *)

Definition PROMPT_TYPES : list (pystr * pystr) :=
  [(u "analysis", u "analysis");
   (u "calendar", u "calendar_sync");
   (u "governance", u "governance");
   (u "sprint", u "sprint_analytics")].

(** [prompt_types.get(request_type, "analysis")] (line 547) *)
Definition resolve_prompt_key (request_type : json) : result pystr :=
  table_get PROMPT_TYPES request_type (u "analysis").

(** What [main] hands to [json.dumps]: with [ensure_ascii=False] only, or
    with [indent=2] as well. *)
Inductive reply : Type :=
| Compact (envelope : json)
| Indented (envelope : json).

Definition reply_envelope (r : reply) : json :=
  match r with
  | Compact v => v
  | Indented v => v
  end.

Definition dumps_reply (r : reply) : pystr :=
  match r with
  | Compact v => json_dumps v
  | Indented v => json_dumps_indent v
  end.

Definition error_envelope (message : pystr) : json :=
  JObj [(u "status", JStr (u "error")); (u "message", JStr message)].

(** Line 556: [f"{prompt}\n\nЗапрос:\n{input_text}\nОтвет:"] *)
Definition full_prompt (prompt input_text : json) : result pystr :=
  p <- py_str prompt ;;
  t <- py_str input_text ;;
  Return (p ++ NL ++ NL ++ u "Запрос:" ++ NL ++ t ++ NL ++ u "Ответ:").

(** Lines 559-562: the choice of the flow, on the request type as the
    caller gave it. *)
Definition route (request_type gpt_response : json) : io json :=
  if py_eq_str request_type (u "analysis")
  then process_analysis_request gpt_response
  else process_other_request gpt_response request_type.

(** Lines 531-564, the body of the [try]. *)
Definition main_body (input_data : json) : io reply :=
  request_type <~ lift (py_get_d input_data (u "type") (JStr (u "analysis"))) ;;
  input_text <~ lift (py_get_d input_data (u "text") (JStr [])) ;;
  if negb (py_truthy input_text) then
    io_ret (Compact (error_envelope (u "Отсутствует текст запроса")))
  else
    prompt_key <~ lift (resolve_prompt_key request_type) ;;
    prompt <~ get_prompt prompt_key ;;
    if negb (py_truthy prompt) then
      io_ret (Compact (error_envelope
                         (u "Промпт '" ++ prompt_key ++ u "' не найден")))
    else
      composed <~ lift (full_prompt prompt input_text) ;;
      gpt_response <~ call_yandex_gpt composed ;;
      envelope <~ route request_type gpt_response ;;
      io_ret (Indented envelope).

(** Lines 566-571: [except Exception as e]. *)
Definition main_reply (input_data : json) : io reply :=
  try_except (main_body input_data)
    (fun e => io_ret (Compact (error_envelope (u "Ошибка: " ++ exn_str e)))).

Definition main (input_data : json) : io pystr :=
  r <~ main_reply input_data ;;
  io_ret (dumps_reply r).

(** ** handler (lines 574-615) *)

(** [try: json.loads(s) / except: {"text": s}] *)
Definition loads_or_text (s : pystr) : json :=
  match json_loads s with
  | Return v => v
  | Raise _ => JObj [(u "text", JStr s)]
  end.

(** Lines 579-596: the event, normalised to the input of [main]. *)
Definition event_input (event : json) : json :=
  match event with
  | JObj fields =>
      if dict_has fields (u "body") then
        match dict_get fields (u "body") JNull with
        | JStr s => loads_or_text s
        | body => body
        end
      else event
  | JStr s => loads_or_text s
  | _ => JObj []
  end.

Definition http_response (status_code : Z) (body : pystr) : json :=
  JObj [(u "statusCode", JInt status_code); (u "body", JStr body)].

(** Line 598, [logger.info(f"...{input_data}")], formats the request
    inside the [try], before [main] is called. *)
Definition handler (event : json) : io json :=
  try_except
    (_ <~ lift (py_str (event_input event)) ;;
     response_text <~ main (event_input event) ;;
     io_ret (http_response 200 response_text))
    (fun e =>
       io_ret (http_response 500 (json_dumps (error_envelope (exn_str e))))).

End Bot.

(** ** Vocabulary of the statements *)

(** The envelope carries [status], with the value [s]. *)
Definition has_status (envelope : json) (s : pystr) : Prop :=
  py_get envelope (u "status") = Return (JStr s).

Definition valid_status (envelope : json) : Prop :=
  has_status envelope (u "success")
  \/ has_status envelope (u "warning")
  \/ has_status envelope (u "error").

(** The three lists whose sections the sprint report guards, as
    [format_sprint_report] reaches them. *)
Definition sprint_bottleneck_list (data : json) : result json :=
  flow <- py_get_d data (u "flow_metrics") (JObj []) ;;
  cf <- py_get_d flow (u "cumulative_flow") (JObj []) ;;
  py_get_d cf (u "bottlenecks") (JArr []).

Definition sprint_action_list (data : json) : result json :=
  actions <- py_get_d data (u "actionable_recommendations") (JObj []) ;;
  py_get_d actions (u "immediate_actions") (JArr []).

Definition sprint_retro_list (data : json) : result json :=
  py_get_d data (u "retrospective_topics") (JArr []).

(** [overloaded_members] of the workload distribution. *)
Definition sprint_overloaded_list (data : json) : result json :=
  team <- py_get_d data (u "team_performance") (JObj []) ;;
  workload <- py_get_d team (u "workload_distribution") (JObj []) ;;
  py_get workload (u "overloaded_members").

(** The percentages of the [Перегрузка] lines of a report, in order. *)
Fixpoint percent_lines (r : report) : list Z :=
  match r with
  | [] => []
  | [Lit t; Fmt (JInt p); Lit _] :: rest =>
      if pystr_eqb t (u "      Перегрузка: ") then p :: percent_lines rest
      else percent_lines rest
  | _ :: rest => percent_lines rest
  end.

(** [q] is [num / den] truncated toward zero. *)
Definition is_truncation (num den q : Z) : Prop :=
  (0 < den
   /\ Z.abs q * den <= Z.abs num < (Z.abs q + 1) * den
   /\ 0 <= q * num)%Z.

(** [percent] is [(load_ratio - 1) * 100] cut to an integer: exact on an
    int, the truncation of the binary64 product on a float. *)
Definition truncated_percent (load_ratio : json) (percent : Z) : Prop :=
  match load_ratio with
  | JInt z => percent = ((z - 1) * 100)%Z
  | JBool b => percent = ((Z.b2z b - 1) * 100)%Z
  | JFloat f =>
      exists num den : Z,
        float_fraction (PrimFloat.mul (PrimFloat.sub f 1%float) 100%float)
        = Some (num, den)
        /\ is_truncation num den percent
  | _ => False
  end.

Definition is_dict (v : json) : bool :=
  match v with
  | JObj _ => true
  | _ => false
  end.

(** The task entries of a parsed analysis, in the order the loops of
    [process_analysis_request] visit them ([epics[].tasks[]]). *)
Definition task_entries (parsed_response : json) : result (list json) :=
  l <- py_get_d parsed_response (u "epics") (JArr []) ;;
  epics <- py_iter l ;;
  for_each (fun epic => l <- py_get_d epic (u "tasks") (JArr []) ;; py_iter l)
           epics.

(** A record of [created_tasks]: a dict whose [status] is [created] or
    [failed]. *)
Definition is_task_record (t : json) : Prop :=
  py_item t (u "status") = Return (JStr (u "created"))
  \/ py_item t (u "status") = Return (JStr (u "failed")).

Section Batch.
Context {rt : Runtime}.

(** The world after [create_yougile_task] was called on each entry in
    turn. *)
Fixpoint creations_world (column_id : pystr) (entries : list json)
  (w : World) : World :=
  match entries with
  | [] => w
  | task :: rest =>
      creations_world column_id rest
        (fst (create_yougile_task task column_id w))
  end.

(** How many of these calls raise. *)
Fixpoint creation_failures (column_id : pystr) (entries : list json)
  (w : World) : nat :=
  match entries with
  | [] => 0
  | task :: rest =>
      match create_yougile_task task column_id w with
      | (w', Return _) => creation_failures column_id rest w'
      | (w', Raise _) => S (creation_failures column_id rest w')
      end
  end.

(** [records] is what the batch over [entries], started in [w], leaves in
    [created_tasks]: one record per entry, of which as many are [failed]
    as remote calls raised, and the others [created]. *)
Definition batch_records (column_id : pystr) (entries : list json)
  (w : World) (records : list json) : Prop :=
  List.length records = List.length entries
  /\ forallb is_dict records = true
  /\ count_status (u "failed") records
     = Return (Z.of_nat (creation_failures column_id entries w))
  /\ count_status (u "created") records
     = Return (Z.of_nat (List.length entries)
               - Z.of_nat (creation_failures column_id entries w))%Z
  /\ (creation_failures column_id entries w <= List.length entries)%nat.
End Batch.

(** ** A small runtime to run the model on concrete requests

    Enough of the interpreter for the examples of this file: a [json.loads]
    that knows a few documents and rejects every other text, a [json.dumps]
    that is exact on values without floats and without characters to
    escape, ASCII and Cyrillic upper-casing, a prompt file, and a network
    whose answers are fixed in advance. *)

Definition decimal (z : Z) : pystr :=
  u (DecimalString.NilZero.string_of_int (Z.to_int z)).

Fixpoint demo_dumps (v : json) : pystr :=
  match v with
  | JNull => u "null"
  | JBool true => u "true"
  | JBool false => u "false"
  | JInt z => decimal z
  | JFloat _ => u "?"
  | JStr s => DQ ++ s ++ DQ
  | JArr items => u "[" ++ join (u ", ") (List.map demo_dumps items) ++ u "]"
  | JObj fields =>
      u "{"
        ++ join (u ", ")
             (List.map (fun kv => let (k, x) := kv : pystr * json in
                                  DQ ++ k ++ DQ ++ u ": " ++ demo_dumps x) fields)
        ++ u "}"
  end.

Definition spaces (n : nat) : pystr := repeat 32%N n.

Fixpoint demo_dumps_indent (level : nat) (v : json) : pystr :=
  match v with
  | JArr ((_ :: _) as items) =>
      u "[" ++ NL ++ spaces (2 * S level)
        ++ join (u "," ++ NL ++ spaces (2 * S level))
             (List.map (demo_dumps_indent (S level)) items)
        ++ NL ++ spaces (2 * level) ++ u "]"
  | JObj ((_ :: _) as fields) =>
      u "{" ++ NL ++ spaces (2 * S level)
        ++ join (u "," ++ NL ++ spaces (2 * S level))
             (List.map (fun kv => let (k, x) := kv : pystr * json in
                                  DQ ++ k ++ DQ ++ u ": "
                                    ++ demo_dumps_indent (S level) x) fields)
        ++ NL ++ spaces (2 * level) ++ u "}"
  | _ => demo_dumps v
  end.

(** [repr] of a value, Python style. *)
Fixpoint demo_repr (v : json) : pystr :=
  match v with
  | JNull => u "None"
  | JBool true => u "True"
  | JBool false => u "False"
  | JInt z => decimal z
  | JFloat _ => u "?"
  | JStr s => u "'" ++ s ++ u "'"
  | JArr items => u "[" ++ join (u ", ") (List.map demo_repr items) ++ u "]"
  | JObj fields =>
      u "{"
        ++ join (u ", ")
             (List.map (fun kv => let (k, x) := kv : pystr * json in
                                  u "'" ++ k ++ u "': " ++ demo_repr x) fields)
        ++ u "}"
  end.

(** [str] of an int of more than 4300 digits raises, alone or inside a
    list or a dict (the default [sys.int_max_str_digits]). *)
Definition INT_TOO_LONG : exn :=
  mkExn ValueError
    (u "Exceeds the limit (4300 digits) for integer string conversion; use sys.set_int_max_str_digits() to increase the limit").

(** The smallest integer of 4301 digits, 10^4300. *)
Definition INT_STR_LIMIT : Z := Eval vm_compute in (10 ^ 4300)%Z.

Fixpoint demo_str_error (v : json) : option exn :=
  match v with
  | JInt z => if (Z.abs z <? INT_STR_LIMIT)%Z then None else Some INT_TOO_LONG
  | JArr items =>
      fold_right (fun x rest =>
                    match demo_str_error x with
                    | Some e => Some e
                    | None => rest
                    end) None items
  | JObj fields =>
      fold_right (fun kv rest =>
                    let (_, x) := kv : pystr * json in
                    match demo_str_error x with
                    | Some e => Some e
                    | None => rest
                    end) None fields
  | _ => None
  end.

Definition demo_upper_char (c : char) : char :=
  if ((97 <=? c) && (c <=? 122))%N then (c - 32)%N
  else if ((1072 <=? c) && (c <=? 1103))%N then (c - 32)%N
  else if (c =? 1105)%N then 1025%N
  else c.

Definition demo_upper (s : pystr) : pystr := List.map demo_upper_char s.

(** The documents [demo_loads] knows, with their values. *)
Definition DOC_EMPTY : pystr := u "{}".
Definition DOC_A1 : pystr := u "{" ++ DQ ++ u "a" ++ DQ ++ u ":1}".
Definition DOC_EPICS : pystr :=
  u "{" ++ DQ ++ u "epics" ++ DQ ++ u ": [{" ++ DQ ++ u "tasks" ++ DQ ++ u ": [{"
    ++ DQ ++ u "task_id" ++ DQ ++ u ": 1, " ++ DQ ++ u "title" ++ DQ ++ u ": "
    ++ DQ ++ u "ok" ++ DQ ++ u "}, {" ++ DQ ++ u "task_id" ++ DQ ++ u ": 2, "
    ++ DQ ++ u "title" ++ DQ ++ u ": " ++ DQ ++ u "bad" ++ DQ ++ u "}]}]}".

Definition TASK_OK : json := JObj [(u "task_id", JInt 1); (u "title", JStr (u "ok"))].
Definition TASK_BAD : json := JObj [(u "task_id", JInt 2); (u "title", JStr (u "bad"))].

Definition demo_documents : list (pystr * json) :=
  [(DOC_EMPTY, JObj []);
   (DOC_A1, JObj [(u "a", JInt 1)]);
   (DOC_EPICS, JObj [(u "epics", JArr [JObj [(u "tasks", JArr [TASK_OK; TASK_BAD])]])])].

Definition demo_loads (s : pystr) : result json :=
  match dict_get (List.map (fun kv => (fst kv, Some (snd kv))) demo_documents) s None with
  | Some v => Return v
  | None =>
      Raise (mkExn JSONDecodeError (u "Expecting value: line 1 column 1 (char 0)"))
  end.

Definition demo_prompts : json :=
  JObj [(u "analysis", JStr (u "Разбей запрос на задачи."));
        (u "sprint_analytics", JStr (u "Проанализируй спринт."))].

(** The completion API wraps [text] as its only alternative. *)
Definition completion (text : pystr) : json :=
  JObj [(u "result",
         JObj [(u "alternatives",
                JArr [JObj [(u "message", JObj [(u "text", JStr text)])]])])].

(** A network that answers every completion request with [gpt], and creates
    every task but the ones titled "bad". *)
Definition demo_post (gpt : result json) (history : list request)
  (req : request) : result json :=
  if pystr_eqb (req_url req) YANDEX_GPT_URL then gpt
  else
    match req_json req with
    | JObj fields =>
        if py_eq_str (dict_get fields (u "title") JNull) (u "bad")
        then Raise (mkExn HTTPError (u "400 Client Error: Bad Request"))
        else Return (JObj [(u "id", JInt (Z.of_nat (List.length history)))])
    | _ => Raise (mkExn HTTPError (u "400 Client Error: Bad Request"))
    end.

Definition demo_runtime (gpt : result json) : Runtime := {|
  json_loads := demo_loads;
  json_dumps := demo_dumps;
  json_dumps_indent := demo_dumps_indent 0;
  py_repr := demo_repr;
  str_error := demo_str_error;
  str_upper := demo_upper;
  read_prompts_file := Return demo_prompts;
  requests_post := demo_post gpt
|}.

Definition demo_environ (column : option pystr) (name : pystr) : option pystr :=
  if pystr_eqb name (u "YANDEX_API_KEY") then Some (u "key")
  else if pystr_eqb name (u "YANDEX_FOLDER_ID") then Some (u "folder")
  else if pystr_eqb name (u "YOUGILE_API_KEY") then Some (u "ykey")
  else if pystr_eqb name (u "YOUGILE_COLUMN_ID") then column
  else None.

(** A fresh process: nothing loaded, nothing sent. *)
Definition demo_world (column : option pystr) : World :=
  mkWorld (demo_environ column) (JObj []) [].

(** The texts of the extractor examples: a fenced [{"a":1}], and a line
    whose string value holds a URL. *)
Definition FENCED_A1 : pystr := u "```json" ++ NL ++ DOC_A1 ++ NL ++ u "```".
Definition URL_LINE : pystr :=
  u "{" ++ DQ ++ u "url" ++ DQ ++ u ": " ++ DQ ++ u "http://x.com" ++ DQ ++ u "}".
Definition URL_LINE_CUT : pystr :=
  u "{" ++ DQ ++ u "url" ++ DQ ++ u ": " ++ DQ ++ u "http:".

(** The request [{"type": t, "text": "x"}]. *)
Definition demo_request (t : pystr) : json :=
  JObj [(u "type", JStr t); (u "text", JStr (u "x"))].

(** A completion API that is down. *)
Definition GPT_DOWN : exn :=
  mkExn HTTPError
    (u "500 Server Error: Internal Server Error for url: " ++ YANDEX_GPT_URL).

(** A sprint analysis with one overloaded member, and one with the
    bottleneck of the end-to-end scenario. *)
Definition MEMBER_ANNA : json :=
  JObj [(u "member", JStr (u "Anna"));
        (u "role", JStr (u "backend"));
        (u "current_load_sp", JInt 25);
        (u "recommended_load_sp", JInt 20);
        (u "load_ratio", JFloat 1.256%float)].

Definition SPRINT_OVERLOAD : json :=
  JObj [(u "team_performance",
         JObj [(u "workload_distribution",
                JObj [(u "overloaded_members", JArr [MEMBER_ANNA])])])].

Definition SPRINT_REVIEW : json :=
  JObj [(u "flow_metrics",
         JObj [(u "cumulative_flow",
                JObj [(u "bottlenecks",
                       JArr [JObj [(u "stage", JStr (u "Review"));
                                   (u "avg_wait_time_days", JInt 3);
                                   (u "wip_count", JInt 5);
                                   (u "evidence",
                                    JStr (u "reviewer overloaded"))]])])])].

(** The envelope of the warning path, as the analysis renderer gets it. *)
Definition WARNING_FIELDS : json :=
  JObj [(u "status", JStr (u "warning"));
        (u "request_type", JStr (u "analysis"));
        (u "tasks_created", JInt 0);
        (u "tasks_failed", JInt 0);
        (u "tasks", JArr [])].

(** ** Vocabulary of the further properties *)

(** [sub] occurs in [s] as a contiguous piece. *)
Definition infix (sub s : pystr) : Prop :=
  exists a b : pystr, s = a ++ sub ++ b.

(** A fenced block: the fence with its language tag, the body and the
    closing fence, each on a line of its own. *)
Definition fenced (tag body : pystr) : pystr :=
  FENCE ++ tag ++ NL ++ body ++ NL ++ FENCE.

(** The first character of [s], if any, is no whitespace. *)
Definition no_leading_space (s : pystr) : Prop :=
  match s with
  | [] => True
  | c :: _ => is_space c = false
  end.

(** Where the tasks are posted: [f"{YOUGILE_API_BASE}/tasks"]. *)
Definition TASKS_URL : pystr := YOUGILE_API_BASE ++ u "/tasks".

Definition is_task_request (q : request) : Prop := req_url q = TASKS_URL.

Definition is_gpt_request (q : request) : Prop := req_url q = YANDEX_GPT_URL.

(** From [w] to [w'] the environment and the prompt cache are the same and
    the requests sent in between all satisfy [P]. *)
Definition sends (P : request -> Prop) (w w' : World) : Prop :=
  environ w' = environ w
  /\ PROMPTS w' = PROMPTS w
  /\ exists more : list request, sent w' = sent w ++ more /\ Forall P more.

(** Whatever its outcome, [m] only sends requests that satisfy [P]. *)
Definition only_sends {A : Type} (P : request -> Prop) (m : io A) : Prop :=
  forall (w w' : World) (r : result A), m w = (w', r) -> sends P w w'.

(** Between [w] and [w'] the program sent the completion requests [gpt]
    and then the task requests [tasks]: at most one completion request, no
    task request without one, the environment untouched and a loaded
    prompt cache untouched. *)
Definition request_history (w w' : World) (gpt tasks : list request) : Prop :=
  environ w' = environ w
  /\ (py_truthy (PROMPTS w) = true -> PROMPTS w' = PROMPTS w)
  /\ sent w' = sent w ++ gpt ++ tasks
  /\ (List.length gpt <= 1)%nat
  /\ Forall is_gpt_request gpt
  /\ Forall is_task_request tasks
  /\ (gpt = [] -> tasks = []).

Definition NO_YOUGILE_KEY : exn :=
  mkExn ValueError (u "Отсутствует YOUGILE_API_KEY").

(** [record] stands for [task] in [created_tasks]: it carries the
    [task_id] and the [title] of the entry. *)
Definition record_of_entry (task record : json) : Prop :=
  py_get record (u "task_id") = py_get task (u "task_id")
  /\ py_get record (u "title") = py_get task (u "title").

(** The status icon of a chunk that is the first line of a task in the
    analysis report (line 260): [f"{i}. {status_icon} {title}\n"]. *)
Definition task_line_icon (c : chunk) : option pystr :=
  match c with
  | [Fmt (JInt _); Lit _; Fmt (JStr icon); Lit _; Fmt _; Lit _] => Some icon
  | _ => None
  end.

Definition has_icon (icon : pystr) (c : chunk) : bool :=
  match task_line_icon c with
  | Some i => pystr_eqb i icon
  | None => false
  end.

(** How many task lines of the report carry [icon]. *)
Definition icon_lines (icon : pystr) (r : report) : nat :=
  List.length (List.filter (has_icon icon) r).

Definition ICON_CREATED : pystr := Eval vm_compute in (u "✅").
Definition ICON_FAILED : pystr := Eval vm_compute in (u "❌").

(** ** Further runtimes and worlds for the examples *)

Definition loads_from (docs : list (pystr * json)) (s : pystr) : result json :=
  match dict_get (List.map (fun kv => (fst kv, Some (snd kv))) docs) s None with
  | Some v => Return v
  | None =>
      Raise (mkExn JSONDecodeError (u "Expecting value: line 1 column 1 (char 0)"))
  end.

(** The demo interpreter with the decoder, the prompt file and the
    network given. *)
Definition runtime_of (loads : pystr -> result json) (prompts : result json)
  (post : list request -> request -> result json) : Runtime := {|
  json_loads := loads;
  json_dumps := demo_dumps;
  json_dumps_indent := demo_dumps_indent 0;
  py_repr := demo_repr;
  str_error := demo_str_error;
  str_upper := demo_upper;
  read_prompts_file := prompts;
  requests_post := post
|}.

(** The same over the documents [docs]. *)
Definition runtime_with (docs : list (pystr * json)) (prompts : result json)
  (post : list request -> request -> result json) : Runtime :=
  runtime_of (loads_from docs) prompts post.

Definition environ_of (vars : list (pystr * pystr)) (name : pystr)
  : option pystr :=
  dict_get (List.map (fun kv => (fst kv, Some (snd kv))) vars) name None.

(** A fresh process with the environment [vars]. *)
Definition world_of (vars : list (pystr * pystr)) : World :=
  mkWorld (environ_of vars) (JObj []) [].

(** A column, but no YouGile key. *)
Definition COLUMN_ONLY : list (pystr * pystr) :=
  [(u "YOUGILE_COLUMN_ID", u "col")].

(** The prompts can be looked up, but the completion key is missing. *)
Definition FOLDER_ONLY : list (pystr * pystr) :=
  [(u "YANDEX_FOLDER_ID", u "folder")].

Definition DOC_LIST : pystr := u "[1]".

(** An analysis whose second task entry is a string. *)
Definition DOC_MIXED : pystr := u "mixed".
Definition MIXED : json :=
  JObj [(u "epics",
         JArr [JObj [(u "tasks", JArr [TASK_OK; JStr (u "oops"); TASK_BAD])]])].

Definition more_documents : list (pystr * json) :=
  [(DOC_LIST, JArr [JInt 1]); (DOC_MIXED, MIXED)].

Definition EPICS : json :=
  JObj [(u "epics", JArr [JObj [(u "tasks", JArr [TASK_OK; TASK_BAD])]])].

(** A prompt file that cannot be opened. *)
Definition NO_PROMPT_FILE : exn :=
  mkExn OSError (u "[Errno 2] No such file or directory: 'prompts.json'").

(** A task service that answers every request with an empty list. *)
Definition list_post (history : list request) (req : request) : result json :=
  Return (JArr []).

(** A sprint summary whose status is [null]. *)
Definition SPRINT_NULL_STATUS : list (pystr * json) :=
  [(u "executive_summary", JObj [(u "overall_status", JNull)])].





(** A request that holds an integer of 4301 digits beside an empty
    text. *)
Definition HUGE_EVENT : json :=
  JObj [(u "text", JStr []); (u "n", JInt INT_STR_LIMIT)].


(** ** Proof automation for the result monad *)

(** Splits a chain of binds that returns, one bind after the other. *)
Ltac bind_inv H :=
  repeat match type of H with
    | bind ?m _ = Return _ =>
        let E := fresh "E" in
        destruct m eqn:E; cbn [bind] in H; [|discriminate H]
    end.

(** The first bind of [H] returned [x]: [E] records it. *)
Tactic Notation "step" hyp(H) "as" ident(x) "eqn" ident(E) :=
  cbv beta zeta in H;
  match type of H with
  | bind ?m _ = Return _ =>
      destruct m as [x|] eqn:E;
      [unfold bind at 1 in H; cbv beta iota in H|discriminate H]
  end.

(** The lines of one item hold no chunk made of a single literal. *)
Ltac lines_emitted :=
  let H := fresh "H" in
  intros H; bind_inv H; inversion H; reflexivity.

(** An item whose lines were rendered has [get]: it is a dict. *)
Ltac lines_dict :=
  let H := fresh "H" in
  intros H;
  match type of H with
  | bind (py_get ?x ?k) _ = Return _ =>
      destruct x; try discriminate H; reflexivity
  end.

(** * Properties *)

(** ** Strings *)

Lemma split_on_no_sep (sep : char) (s : pystr) :
  Forall (fun l => ~ In sep l) (split_on sep s).
Proof.
  induction s as [|c r IH]; simpl.
  - constructor; [intros []|constructor].
  - destruct (N.eqb_spec c sep) as [->|Hne].
    + constructor; [intros []|exact IH].
    + destruct (split_on sep r) as [|l ls]; inversion IH; subst.
      * constructor; [|constructor]. intros [H|[]]; congruence.
      * constructor; [|assumption]. intros [H|H]; [congruence|auto].
Qed.

Lemma split_on_line (sep : char) (l : pystr) :
  ~ In sep l -> split_on sep l = [l].
Proof.
  induction l as [|c r IH]; simpl; intros H; [reflexivity|].
  destruct (N.eqb_spec c sep) as [->|Hne]; [exfalso; auto|].
  rewrite IH by auto. reflexivity.
Qed.

Lemma split_on_app (sep : char) (l rest : pystr) :
  ~ In sep l ->
  split_on sep (l ++ sep :: rest) = l :: split_on sep rest.
Proof.
  induction l as [|c r IH]; simpl; intros H.
  - rewrite N.eqb_refl. reflexivity.
  - destruct (N.eqb_spec c sep) as [->|Hne]; [exfalso; auto|].
    rewrite IH by auto. reflexivity.
Qed.

(** Splitting what was joined gives the lines back. *)
Lemma split_on_join (sep : char) (ls : list pystr) :
  ls <> [] -> Forall (fun l => ~ In sep l) ls ->
  split_on sep (join [sep] ls) = ls.
Proof.
  induction ls as [|l ls IH]; intros Hne Hall; [congruence|].
  inversion Hall as [|? ? Hl Hls]; subst.
  destruct ls as [|l' ls'].
  - simpl. apply split_on_line; assumption.
  - change (join [sep] (l :: l' :: ls')) with (l ++ sep :: join [sep] (l' :: ls')).
    rewrite split_on_app by assumption.
    rewrite IH; [reflexivity|discriminate|assumption].
Qed.

Lemma Forall_removelast {A : Type} (P : A -> Prop) (l : list A) :
  Forall P l -> Forall P (removelast l).
Proof.
  induction 1 as [|x l Hx Hl IH]; simpl; [constructor|].
  destruct l; [constructor|]. constructor; assumption.
Qed.

Lemma drop_first_fence_Forall (P : pystr -> Prop) (ls : list pystr) :
  Forall P ls -> Forall P (drop_first_fence ls).
Proof.
  intros H. destruct ls as [|l0 rest]; [assumption|].
  unfold drop_first_fence.
  destruct (startswith FENCE (strip l0)); [inversion H|]; assumption.
Qed.

Lemma drop_last_fence_Forall (P : pystr -> Prop) (ls : list pystr) :
  Forall P ls -> Forall P (drop_last_fence ls).
Proof.
  intros H. destruct ls as [|l0 rest]; [assumption|].
  unfold drop_last_fence.
  destruct (pystr_eqb (strip (last (l0 :: rest) [])) FENCE);
    [apply Forall_removelast|]; assumption.
Qed.

Lemma unfenced_lines_no_newline (text : pystr) :
  Forall (fun l => ~ In 10%N l) (unfenced_lines text).
Proof.
  unfold unfenced_lines.
  apply drop_last_fence_Forall, drop_first_fence_Forall, split_on_no_sep.
Qed.


(** The extractor, read through the lines that remain after the fences. *)
Lemma extract_json_text_lines (text : pystr) :
  extract_json_text text
  = strip (join NL (List.map cut_comment
                      (match unfenced_lines text with
                       | [] => [[]]
                       | ls => ls
                       end))).
Proof.
  unfold extract_json_text. fold (unfenced_lines text).
  pose proof (unfenced_lines_no_newline text) as H.
  destruct (unfenced_lines text) as [|l ls] eqn:E.
  - reflexivity.
  - unfold NL at 2. rewrite split_on_join; [reflexivity|discriminate|assumption].
Qed.

Lemma str_find_spec (sub s : pystr) :
  str_in sub s = true ->
  exists n : nat,
    str_find sub s = Z.of_nat n /\ first_occurrence sub s n.
Proof.
  induction s as [|c r IH]; simpl.
  - destruct (startswith sub []) eqn:E; simpl; [|discriminate].
    intros _. exists 0%nat. split; [reflexivity|].
    split; [exact E|]. split; [simpl; lia|]. intros k Hk; lia.
  - destruct (startswith sub (c :: r)) eqn:E; simpl.
    + intros _. exists 0%nat. split; [reflexivity|].
      split; [exact E|]. split; [simpl; lia|]. intros k Hk; lia.
    + intros Hin. destruct (IH Hin) as (n & Hn & Hs & Hle & Hmin).
      exists (S n). rewrite Hn.
      destruct (Z.ltb_spec (Z.of_nat n) 0); [lia|].
      split; [lia|]. split; [exact Hs|]. split; [simpl; lia|].
      intros [|k] Hk; [exact E|]. simpl. apply Hmin. lia.
Qed.

Lemma str_in_false (sub s : pystr) :
  (forall k : nat, startswith sub (skipn k s) = false) -> str_in sub s = false.
Proof.
  induction s as [|c r IH]; intros H; simpl.
  - pose proof (H 0%nat) as H0. simpl in H0. rewrite H0. reflexivity.
  - pose proof (H 0%nat) as H0. simpl in H0. rewrite H0. simpl.
    apply IH. intros k. exact (H (S k)).
Qed.

Lemma cut_comment_first (line : pystr) :
  str_in COMMENT line = true ->
  exists n : nat,
    first_occurrence COMMENT line n /\ cut_comment line = firstn n line.
Proof.
  intros Hin. unfold cut_comment. rewrite Hin.
  destruct (str_find_spec _ _ Hin) as (n & Hn & Hocc).
  exists n. split; [exact Hocc|].
  rewrite Hn. unfold slice_to.
  destruct (Z.ltb_spec (Z.of_nat n) 0); [lia|].
  rewrite Nat2Z.id. reflexivity.
Qed.

Lemma first_occurrence_find (sub s : pystr) (n : nat) :
  first_occurrence sub s n ->
  str_in sub s = true /\ str_find sub s = Z.of_nat n.
Proof.
  revert n. induction s as [|c r IH]; intros n (Hs & Hle & Hmin).
  - simpl in Hle. assert (n = 0)%nat as -> by lia. simpl in Hs.
    simpl. rewrite Hs. split; reflexivity.
  - destruct n as [|n].
    + simpl in Hs. simpl. rewrite Hs. split; reflexivity.
    + pose proof (Hmin 0%nat ltac:(lia)) as H0. simpl in H0.
      destruct (IH n) as [Hin Hfind].
      { split; [exact Hs|]. split; [simpl in Hle; lia|].
        intros k Hk. apply (Hmin (S k)). lia. }
      simpl. rewrite H0, Hin, Hfind. split; [reflexivity|].
      destruct (Z.ltb_spec (Z.of_nat n) 0); lia.
Qed.

(** C6: once the fences are removed, every remaining line is cut at its
    first [//] and only the text before it is kept, string literal or not:
    a line without [//] is unchanged, a line whose first [//] is at index
    [n] becomes its first [n] characters, and every line is one or the
    other.  The fenced [{"a":1}] comes out
    as the JSON text [{"a":1}], and the line [{"url": "http://x.com"}] is
    cut inside its URL. *)
Theorem extract_cuts_each_line_at_first_comment :
  (forall text : pystr,
      extract_json_text text
      = strip (join NL (List.map cut_comment
                          (match unfenced_lines text with
                           | [] => [[]]
                           | ls => ls
                           end))))
  /\ (forall line : pystr,
         (forall k : nat, startswith COMMENT (skipn k line) = false) ->
         cut_comment line = line)
  /\ (forall (line : pystr) (n : nat),
         first_occurrence COMMENT line n -> cut_comment line = firstn n line)
  /\ (forall line : pystr,
         cut_comment line = line
         \/ exists n : nat,
              first_occurrence COMMENT line n /\ cut_comment line = firstn n line)
  /\ extract_json_text FENCED_A1 = DOC_A1
  /\ json_loads (Runtime := demo_runtime (Raise (mkExn HTTPError [])))
       (extract_json_text FENCED_A1) = Return (JObj [(u "a", JInt 1)])
  /\ first_occurrence COMMENT URL_LINE 14
  /\ extract_json_text URL_LINE = URL_LINE_CUT.
Proof.
  split; [exact extract_json_text_lines|].
  split.
  { intros line H. unfold cut_comment. rewrite (str_in_false _ _ H). reflexivity. }
  split.
  { intros line n H. destruct (first_occurrence_find H) as [Hin Hfind].
    unfold cut_comment, slice_to. rewrite Hin, Hfind.
    destruct (Z.ltb_spec (Z.of_nat n) 0); [lia|].
    rewrite Nat2Z.id. reflexivity. }
  split.
  { intros line. destruct (str_in COMMENT line) eqn:E.
    - right. apply cut_comment_first. exact E.
    - left. unfold cut_comment. rewrite E. reflexivity. }
  split; [vm_compute; reflexivity|].
  split; [vm_compute; reflexivity|].
  split; [|vm_compute; reflexivity].
  split; [vm_compute; reflexivity|].
  split; [vm_compute; lia|].
  intros k Hk.
  do 14 (destruct k as [|k]; [vm_compute; reflexivity|]). lia.
Qed.

(** The same cut, run on the URL line through the theorem. *)
Lemma extract_cuts_url_line : cut_comment URL_LINE = firstn 14 URL_LINE.
Proof.
  apply (proj1 (proj2 (proj2 extract_cuts_each_line_at_first_comment))).
  apply (proj1 (proj2 (proj2 (proj2 (proj2 (proj2 (proj2
           extract_cuts_each_line_at_first_comment))))))).
Defined.

(** ** The two flows on a response that is not JSON, and the analysis flow
    without a destination column *)

Section Flows.
Context {rt : Runtime}.



(** C8: when the text parses and no destination column is configured
    ([YOUGILE_COLUMN_ID] unset or empty), the analysis flow returns a
    [warning] envelope with the parsed analysis, zero created and failed
    tasks and an empty task list; the world, hence the list of requests
    sent, is unchanged. *)
Theorem no_column_is_a_warning_without_task_calls
  (w : World) (raw : pystr) (parsed : json) :
  json_loads (extract_json_text raw) = Return parsed ->
  py_truthy (environ_get w (u "YOUGILE_COLUMN_ID")) = false ->
  exists text : pystr,
    process_analysis_request (JStr raw) w
    = (w, Return (JObj [(u "status", JStr (u "warning"));
                        (u "request_type", JStr (u "analysis"));
                        (u "message",
                         JStr (u "Задачи проанализированы, но не созданы (не указан YOUGILE_COLUMN_ID)"));
                        (u "gpt_analysis", parsed);
                        (u "tasks_created", JInt 0);
                        (u "tasks_failed", JInt 0);
                        (u "tasks", JArr []);
                        (u "human_readable_report", JStr text)])).
Proof.
  intros H Hc. eexists.
  unfold process_analysis_request, try_except_decode, io_bind, lift,
    extract_json_from_markdown.
  rewrite H.
  unfold environ_get in *.
  destruct (environ w (u "YOUGILE_COLUMN_ID")) as [[|c s]|];
    try discriminate Hc; reflexivity.
Qed.

(** A request whose text is falsy ([not input_text]) is answered at once. *)
Lemma main_without_text (w : World) (fields : list (pystr * json)) :
  py_truthy (dict_get fields (u "text") (JStr [])) = false ->
  main (JObj fields) w
  = (w, Return (json_dumps (error_envelope (u "Отсутствует текст запроса")))).
Proof.
  intros H.
  unfold main, main_reply, try_except, main_body, io_bind, lift.
  cbn [py_get_d]. rewrite H. reflexivity.
Qed.

(** C9: a request whose text is empty or absent gets the [error]
    envelope, and the world is unchanged: no prompt is loaded and no
    request is sent, to the completion API or elsewhere. *)
Theorem empty_text_is_rejected_without_remote_call
  (w : World) (fields : list (pystr * json)) :
  dict_get fields (u "text") (JStr []) = JStr [] ->
  main (JObj fields) w
  = (w, Return (json_dumps (error_envelope (u "Отсутствует текст запроса"))))
  /\ py_get (error_envelope (u "Отсутствует текст запроса")) (u "status")
     = Return (JStr (u "error")).
Proof.
  intros H. split; [|reflexivity].
  apply main_without_text. rewrite H. reflexivity.
Qed.

End Flows.


(** C8 on the parsed document [{}] in a process without a column. *)
Lemma no_column_on_empty_document :
  exists text : pystr,
    process_analysis_request (rt := demo_runtime (Return (completion DOC_EMPTY)))
      (JStr DOC_EMPTY) (demo_world None)
    = (demo_world None,
       Return (JObj [(u "status", JStr (u "warning"));
                     (u "request_type", JStr (u "analysis"));
                     (u "message",
                      JStr (u "Задачи проанализированы, но не созданы (не указан YOUGILE_COLUMN_ID)"));
                     (u "gpt_analysis", JObj []);
                     (u "tasks_created", JInt 0);
                     (u "tasks_failed", JInt 0);
                     (u "tasks", JArr []);
                     (u "human_readable_report", JStr text)])).
Proof.
  apply (no_column_is_a_warning_without_task_calls
           (rt := demo_runtime (Return (completion DOC_EMPTY)))
           (demo_world None) DOC_EMPTY).
  - vm_compute. reflexivity.
  - vm_compute. reflexivity.
Defined.

(** C9 on the request [{"type": "sprint", "text": ""}]. *)
Lemma empty_text_on_sprint_request :
  main (rt := demo_runtime (Return (completion DOC_EMPTY)))
    (JObj [(u "type", JStr (u "sprint")); (u "text", JStr [])])
    (demo_world (Some (u "col")))
  = (demo_world (Some (u "col")),
     Return (demo_dumps (error_envelope (u "Отсутствует текст запроса")))).
Proof.
  apply (empty_text_is_rejected_without_remote_call
           (rt := demo_runtime (Return (completion DOC_EMPTY)))
           (demo_world (Some (u "col")))
           [(u "type", JStr (u "sprint")); (u "text", JStr [])]).
  vm_compute. reflexivity.
Defined.

(** ** Inversion of the two monads *)

Lemma bind_Return {A B : Type} (m : result A) (k : A -> result B) (b : B) :
  bind m k = Return b -> exists a : A, m = Return a /\ k a = Return b.
Proof. destruct m as [a|e]; simpl; [eauto|discriminate]. Qed.

Lemma io_bind_Return {A B : Type} (m : io A) (k : A -> io B)
  (w w' : World) (b : B) :
  io_bind m k w = (w', Return b) ->
  exists (w1 : World) (a : A), m w = (w1, Return a) /\ k a w1 = (w', Return b).
Proof.
  unfold io_bind. destruct (m w) as [w1 [a|e]]; [eauto|discriminate].
Qed.

Lemma lift_Return {A : Type} (m : result A) (w w' : World) (a : A) :
  lift m w = (w', Return a) -> w' = w /\ m = Return a.
Proof. unfold lift. intros H. inversion H. auto. Qed.



(** ** The dispatcher *)

Section Dispatcher.
Context {rt : Runtime}.

Lemma with_report_Return (fields : list (pystr * json)) (envelope : json) :
  with_report fields = Return envelope ->
  exists text : pystr,
    envelope = JObj (dict_set fields (u "human_readable_report") (JStr text)).
Proof.
  unfold with_report. intros H. bind_inv H. inversion H. eauto.
Qed.

Lemma decode_error_envelope_status (t g : json) (e : exn) (envelope : json) :
  decode_error_envelope t g e = Return envelope ->
  has_status envelope (u "error").
Proof.
  unfold decode_error_envelope. intros H. bind_inv H. inversion H. reflexivity.
Qed.

Lemma process_analysis_request_status (g : json) (w w' : World) (envelope : json) :
  process_analysis_request g w = (w', Return envelope) -> valid_status envelope.
Proof.
  unfold process_analysis_request, try_except_decode. intros H.
  match type of H with
  | context [match ?b w with _ => _ end] => destruct b as [w1 [env|e]] eqn:Hb
  end.
  - inversion H; subst. clear H.
    apply io_bind_Return in Hb. destruct Hb as (w2 & clean & _ & Hb).
    apply io_bind_Return in Hb. destruct Hb as (w3 & parsed & _ & Hb).
    destruct (environ_get w (u "YOUGILE_COLUMN_ID")) as [| | | |[|c s]| |].
    all: try (apply lift_Return in Hb; destruct Hb as [_ Hb];
              apply with_report_Return in Hb; destruct Hb as [text ->];
              right; left; reflexivity).
    apply io_bind_Return in Hb. destruct Hb as (w4 & epics & _ & Hb).
    apply io_bind_Return in Hb. destruct Hb as (w5 & created & _ & Hb).
    apply lift_Return in Hb; destruct Hb as [_ Hb].
    unfold success_envelope in Hb. bind_inv Hb.
    apply with_report_Return in Hb; destruct Hb as [text ->].
    left. reflexivity.
  - destruct (exn_class_eqb (exn_kind e) JSONDecodeError); [|discriminate H].
    apply lift_Return in H. destruct H as [_ H].
    right; right. eapply decode_error_envelope_status; eassumption.
Qed.

Lemma process_other_request_status (g t : json) (w w' : World) (envelope : json) :
  process_other_request g t w = (w', Return envelope) -> valid_status envelope.
Proof.
  unfold process_other_request, try_except_decode. intros H.
  match type of H with
  | context [match ?b w with _ => _ end] => destruct b as [w1 [env|e]] eqn:Hb
  end.
  - inversion H; subst. clear H.
    apply lift_Return in Hb; destruct Hb as [_ Hb].
    bind_inv Hb. inversion Hb. left. reflexivity.
  - destruct (exn_class_eqb (exn_kind e) JSONDecodeError); [|discriminate H].
    apply lift_Return in H. destruct H as [_ H].
    right; right. eapply decode_error_envelope_status; eassumption.
Qed.

Lemma main_body_status (input_data : json) (w w' : World) (r : reply) :
  main_body input_data w = (w', Return r) -> valid_status (reply_envelope r).
Proof.
  unfold main_body. intros H.
  apply io_bind_Return in H. destruct H as (w1 & request_type & _ & H).
  apply io_bind_Return in H. destruct H as (w2 & input_text & _ & H).
  destruct (negb (py_truthy input_text)).
  { inversion H. right; right. reflexivity. }
  apply io_bind_Return in H. destruct H as (w3 & prompt_key & _ & H).
  apply io_bind_Return in H. destruct H as (w4 & prompt & _ & H).
  destruct (negb (py_truthy prompt)).
  { inversion H. right; right. reflexivity. }
  apply io_bind_Return in H. destruct H as (w5 & composed & _ & H).
  apply io_bind_Return in H. destruct H as (w6 & g & _ & H).
  apply io_bind_Return in H. destruct H as (w7 & envelope & Hr & H).
  inversion H; subst. simpl.
  unfold route in Hr. destruct (py_eq_str request_type (u "analysis")).
  - eapply process_analysis_request_status; eassumption.
  - eapply process_other_request_status; eassumption.
Qed.

(** [main] returns on every input value, dict or not. *)
Lemma main_returns (input_data : json) (w : World) :
  exists (w' : World) (r : reply),
    main input_data w = (w', Return (dumps_reply r))
    /\ valid_status (reply_envelope r).
Proof.
  unfold main, main_reply, io_bind, try_except.
  destruct (main_body input_data w) as [w' [r|e]] eqn:E.
  - exists w', r. split; [reflexivity|]. eapply main_body_status; eassumption.
  - eexists _, _. split; [reflexivity|]. right; right. reflexivity.
Qed.

(** C10: on every dict, [main] returns (it never raises, whatever the
    completion and task-creation calls do): its value is [json.dumps] of
    an envelope whose [status] is [success], [warning] or [error]. *)
Theorem main_never_raises (w : World) (fields : list (pystr * json)) :
  exists (w' : World) (r : reply),
    main (JObj fields) w = (w', Return (dumps_reply r))
    /\ (has_status (reply_envelope r) (u "success")
        \/ has_status (reply_envelope r) (u "warning")
        \/ has_status (reply_envelope r) (u "error")).
Proof. exact (main_returns (JObj fields) w). Qed.

(** The entry point once its log line has formatted the request: 200,
    with what [main] returns. *)
Lemma handler_after_log (event : json) (logged body : pystr) (w w' : World) :
  py_str (event_input event) = Return logged ->
  main (event_input event) w = (w', Return body) ->
  handler event w = (w', Return (http_response 200 body)).
Proof.
  intros Hl Hm. unfold handler, try_except, io_bind, lift.
  rewrite Hl, Hm. reflexivity.
Qed.

(** The entry point when its log line cannot format the request: [main]
    is not called, the answer is 500. *)
Lemma handler_log_raises (event : json) (e : exn) (w : World) :
  py_str (event_input event) = Raise e ->
  handler event w
  = (w, Return (http_response 500 (json_dumps (error_envelope (exn_str e))))).
Proof.
  intros Hl. unfold handler, try_except, io_bind, lift.
  rewrite Hl. reflexivity.
Qed.


(** [main] up to the completion call, for a request with a text and a
    prompt. *)
Lemma main_body_after_completion
  (w w1 w2 : World) (fields : list (pystr * json)) (prompt_key composed : pystr)
  (prompt : json) (g : result json) :
  py_truthy (dict_get fields (u "text") (JStr [])) = true ->
  resolve_prompt_key (dict_get fields (u "type") (JStr (u "analysis")))
  = Return prompt_key ->
  get_prompt prompt_key w = (w1, Return prompt) ->
  py_truthy prompt = true ->
  full_prompt prompt (dict_get fields (u "text") (JStr [])) = Return composed ->
  call_yandex_gpt composed w1 = (w2, g) ->
  main_body (JObj fields) w
  = match g with
    | Return gpt_response =>
        (envelope <~ route (dict_get fields (u "type") (JStr (u "analysis")))
                       gpt_response ;;
         io_ret (Indented envelope)) w2
    | Raise e => (w2, Raise e)
    end.
Proof.
  intros Ht Hk Hp Hpt Hf Hg.
  unfold main_body, io_bind, lift. cbn [py_get_d].
  rewrite Ht, Hk. cbn [negb]. rewrite Hp, Hpt. cbn [negb]. rewrite Hf, Hg.
  destruct g; reflexivity.
Qed.

(** [main] when the prompt cannot be composed: the f-string of line 556
    raises inside the [try], nothing has been sent. *)
Lemma main_body_without_prompt_text
  (w w1 : World) (fields : list (pystr * json)) (prompt_key : pystr)
  (prompt : json) (e : exn) :
  py_truthy (dict_get fields (u "text") (JStr [])) = true ->
  resolve_prompt_key (dict_get fields (u "type") (JStr (u "analysis")))
  = Return prompt_key ->
  get_prompt prompt_key w = (w1, Return prompt) ->
  py_truthy prompt = true ->
  full_prompt prompt (dict_get fields (u "text") (JStr [])) = Raise e ->
  main (JObj fields) w
  = (w1, Return (json_dumps (error_envelope (u "Ошибка: " ++ exn_str e)))).
Proof.
  intros Ht Hk Hp Hpt Hf.
  unfold main, main_reply, try_except, main_body, io_bind, lift.
  cbn [py_get_d].
  rewrite Ht, Hk. cbn [negb]. rewrite Hp, Hpt. cbn [negb]. rewrite Hf.
  reflexivity.
Qed.

(** C3, as the code has it: an exception raised by the completion call is
    caught inside [main], which returns the [error] envelope carrying its
    text; the entry point passes that envelope on with status code 200.
    It answers 200 on every event whose log line can be formatted, so
    also after a JSON decode failure or a failed task; it answers 500
    only when that log line, which runs before [main], raises. *)
Theorem completion_failure_is_answered_with_200
  (w w1 w2 : World) (event : json) (fields : list (pystr * json))
  (prompt_key logged composed : pystr) (prompt : json) (e : exn) :
  event_input event = JObj fields ->
  py_str (JObj fields) = Return logged ->
  py_truthy (dict_get fields (u "text") (JStr [])) = true ->
  resolve_prompt_key (dict_get fields (u "type") (JStr (u "analysis")))
  = Return prompt_key ->
  get_prompt prompt_key w = (w1, Return prompt) ->
  py_truthy prompt = true ->
  full_prompt prompt (dict_get fields (u "text") (JStr [])) = Return composed ->
  call_yandex_gpt composed w1 = (w2, Raise e) ->
  main (JObj fields) w
  = (w2, Return (json_dumps (error_envelope (u "Ошибка: " ++ exn_str e))))
  /\ handler event w
     = (w2, Return (http_response 200
                      (json_dumps (error_envelope (u "Ошибка: " ++ exn_str e)))))
  /\ (forall (event' : json) (logged' : pystr) (w0 : World),
         py_str (event_input event') = Return logged' ->
         exists (w' : World) (body : pystr),
           handler event' w0 = (w', Return (http_response 200 body)))
  /\ (forall (event' : json) (w0 w' : World) (body : pystr),
         handler event' w0 = (w', Return (http_response 500 body)) ->
         exists e' : exn, py_str (event_input event') = Raise e').
Proof.
  intros He Hl Ht Hk Hp Hpt Hf Hg.
  assert (main (JObj fields) w
          = (w2, Return (json_dumps
                           (error_envelope (u "Ошибка: " ++ exn_str e))))) as Hm.
  { unfold main, main_reply, try_except, io_bind at 1.
    rewrite (@main_body_after_completion w w1 w2 fields prompt_key composed
               prompt _ Ht Hk Hp Hpt Hf Hg).
    reflexivity. }
  split; [exact Hm|]. split; [|split].
  - rewrite <- He in Hl, Hm. exact (handler_after_log event w Hl Hm).
  - intros event' logged' w0 Hl'.
    destruct (main_returns (event_input event') w0) as (w' & r & Hm' & _).
    exists w', (dumps_reply r). exact (handler_after_log event' w0 Hl' Hm').
  - intros event' w0 w' body H.
    destruct (py_str (event_input event')) as [logged'|e'] eqn:Hl';
      [|exists e'; reflexivity].
    destruct (main_returns (event_input event') w0) as (w'' & r & Hm' & _).
    rewrite (handler_after_log event' w0 Hl' Hm') in H.
    unfold http_response in H. inversion H.
Qed.

Lemma pystr_eqb_sym (a b : pystr) : pystr_eqb a b = pystr_eqb b a.
Proof.
  revert b. induction a as [|x a IH]; intros [|y b]; simpl; try reflexivity.
  rewrite N.eqb_sym, IH. reflexivity.
Qed.

(** C2, as the code has it: a request type outside the table (and
    hashable) resolves to the prompt key [analysis], but the answer is
    routed on the type as given, so it goes through the generic report
    flow with that type, not through the task-creation flow: [main]
    returns what [process_other_request] makes of it, and the envelope
    carries the request type unchanged. *)
Theorem unknown_type_takes_analysis_prompt_and_generic_flow
  (w w1 w2 : World) (fields : list (pystr * json)) (request_type prompt g : json)
  (composed : pystr) :
  dict_get fields (u "type") (JStr (u "analysis")) = request_type ->
  py_hashable request_type = true ->
  py_eq_str request_type (u "analysis") = false ->
  py_eq_str request_type (u "calendar") = false ->
  py_eq_str request_type (u "governance") = false ->
  py_eq_str request_type (u "sprint") = false ->
  py_truthy (dict_get fields (u "text") (JStr [])) = true ->
  get_prompt (u "analysis") w = (w1, Return prompt) ->
  py_truthy prompt = true ->
  full_prompt prompt (dict_get fields (u "text") (JStr [])) = Return composed ->
  call_yandex_gpt composed w1 = (w2, Return g) ->
  resolve_prompt_key request_type = Return (u "analysis")
  /\ main (JObj fields) w
     = match process_other_request g request_type w2 with
       | (w3, Return envelope) => (w3, Return (json_dumps_indent envelope))
       | (w3, Raise e) =>
           (w3, Return (json_dumps (error_envelope (u "Ошибка: " ++ exn_str e))))
       end
  /\ (forall (w3 : World) (envelope : json),
         process_other_request g request_type w2 = (w3, Return envelope) ->
         py_get envelope (u "request_type") = Return request_type).
Proof.
  intros Hty Hh Ha Hc Hg Hs Ht Hp Hpt Hfull Hcall.
  assert (resolve_prompt_key request_type = Return (u "analysis")) as Hk.
  { unfold resolve_prompt_key, table_get.
    destruct request_type as [| | | |s| |]; try reflexivity; try discriminate Hh.
    unfold py_eq_str in Ha, Hc, Hg, Hs.
    unfold PROMPT_TYPES. cbn [dict_get].
    rewrite (pystr_eqb_sym _ s), Ha, (pystr_eqb_sym _ s), Hc,
      (pystr_eqb_sym _ s), Hg, (pystr_eqb_sym _ s), Hs.
    reflexivity. }
  split; [exact Hk|]. split.
  - unfold main, main_reply, try_except, io_bind at 1.
    rewrite <- Hty in Hk.
    rewrite (@main_body_after_completion w w1 w2 fields _ composed prompt _
               Ht Hk Hp Hpt Hfull Hcall).
    rewrite Hty. unfold route. rewrite Ha. unfold io_bind.
    destruct (process_other_request g request_type w2) as [w3 [envelope|e]];
      reflexivity.
  - intros w3 envelope H.
    unfold process_other_request, try_except_decode in H.
    match type of H with
    | context [match ?b w2 with _ => _ end] => destruct b as [w4 [env|e]] eqn:Hb
    end.
    + inversion H; subst. clear H.
      apply lift_Return in Hb; destruct Hb as [_ Hb].
      bind_inv Hb. inversion Hb. reflexivity.
    + destruct (exn_class_eqb (exn_kind e) JSONDecodeError); [|discriminate H].
      apply lift_Return in H. destruct H as [_ H].
      unfold decode_error_envelope in H. bind_inv H. inversion H. reflexivity.
Qed.

End Dispatcher.

(** C3 (as amended) with the completion API down. *)
Lemma completion_down_is_answered_with_200 :
  exists w2 : World,
    handler (rt := demo_runtime (Raise GPT_DOWN))
      (demo_request (u "analysis")) (demo_world None)
    = (w2, Return (http_response 200
                     (demo_dumps (error_envelope (u "Ошибка: " ++ exn_str GPT_DOWN))))).
Proof.
  eexists.
  refine (proj1 (proj2 (@completion_failure_is_answered_with_200
                          (demo_runtime (Raise GPT_DOWN)) (demo_world None) _ _
                          (demo_request (u "analysis")) _ _ _ _ _ GPT_DOWN
                          _ _ _ _ _ _ _ _))).
  - vm_compute. reflexivity.
  - vm_compute. reflexivity.
  - vm_compute. reflexivity.
  - vm_compute. reflexivity.
  - vm_compute. reflexivity.
  - vm_compute. reflexivity.
  - vm_compute. reflexivity.
  - vm_compute. reflexivity.
Defined.

(** C3 as stated fails: the completion call raises, yet [main] returns an
    envelope instead of letting the exception through, and the entry
    point answers 200, not 500. *)
Lemma completion_failure_does_not_reach_the_entry_point :
  exists (w1 w2 w3 : World) (prompt : json) (composed : pystr),
    get_prompt (rt := demo_runtime (Raise GPT_DOWN)) (u "analysis") (demo_world None)
    = (w1, Return prompt)
    /\ full_prompt (rt := demo_runtime (Raise GPT_DOWN)) prompt (JStr (u "x"))
       = Return composed
    /\ call_yandex_gpt (rt := demo_runtime (Raise GPT_DOWN)) composed w1
       = (w2, Raise GPT_DOWN)
    /\ main (rt := demo_runtime (Raise GPT_DOWN))
         (demo_request (u "analysis")) (demo_world None)
       = (w2, Return (demo_dumps (error_envelope (u "Ошибка: " ++ exn_str GPT_DOWN))))
    /\ handler (rt := demo_runtime (Raise GPT_DOWN))
         (demo_request (u "analysis")) (demo_world None)
       = (w3, Return (JObj [(u "statusCode", JInt 200);
                            (u "body",
                             JStr (demo_dumps
                                     (error_envelope (u "Ошибка: " ++ exn_str GPT_DOWN))))])).
Proof.
  do 5 eexists.
  split; [vm_compute; reflexivity|].
  split; [vm_compute; reflexivity|].
  split; [vm_compute; reflexivity|].
  split; [vm_compute; reflexivity|].
  vm_compute; reflexivity.
Qed.

(** C2 (as amended) on the request type [foo], the completion answering
    [{}]. *)
Lemma unknown_type_foo_takes_generic_flow :
  resolve_prompt_key (JStr (u "foo")) = Return (u "analysis")
  /\ exists w3 : World,
       main (rt := demo_runtime (Return (completion DOC_EMPTY)))
         (demo_request (u "foo")) (demo_world (Some (u "col")))
       = (w3,
          Return (demo_dumps_indent 0
                    (JObj [(u "status", JStr (u "success"));
                           (u "request_type", JStr (u "foo"));
                           (u "message", JStr (u "Запрос обработан"));
                           (u "analysis", JObj []);
                           (u "human_readable_report", JStr (u "{}"))]))).
Proof.
  assert (exists composed : pystr,
             full_prompt (rt := demo_runtime (Return (completion DOC_EMPTY)))
               (JStr (u "Разбей запрос на задачи.")) (JStr (u "x"))
             = Return composed) as [composed Hc]
    by (eexists; reflexivity).
  pose proof (@unknown_type_takes_analysis_prompt_and_generic_flow
                (demo_runtime (Return (completion DOC_EMPTY)))
                (demo_world (Some (u "col")))
                (mkWorld (demo_environ (Some (u "col"))) demo_prompts [])
                (fst (call_yandex_gpt
                        (rt := demo_runtime (Return (completion DOC_EMPTY)))
                        composed
                        (mkWorld (demo_environ (Some (u "col"))) demo_prompts [])))
                [(u "type", JStr (u "foo")); (u "text", JStr (u "x"))]
                (JStr (u "foo")) (JStr (u "Разбей запрос на задачи."))
                (JStr DOC_EMPTY) composed
                eq_refl eq_refl eq_refl eq_refl eq_refl eq_refl eq_refl
                eq_refl eq_refl Hc eq_refl) as (Hk & Hm & _).
  split; [exact Hk|].
  eexists. etransitivity; [exact Hm|]. vm_compute. reflexivity.
Defined.

(** C2 as stated fails: on the same completion answer (two task entries), a
    request of type [foo] resolves to the prompt key [analysis] but comes
    back from the generic flow, with no task record and one request sent,
    where the same request of type [analysis] comes back from the
    task-creation flow, with two task records and three requests sent. *)
Lemma unknown_type_is_not_routed_like_analysis :
  exists (w_foo w_analysis : World) (e_foo e_analysis : json),
    resolve_prompt_key (JStr (u "foo")) = Return (u "analysis")
    /\ main_reply (rt := demo_runtime (Return (completion DOC_EPICS)))
         (demo_request (u "foo")) (demo_world (Some (u "col")))
       = (w_foo, Return (Indented e_foo))
    /\ main_reply (rt := demo_runtime (Return (completion DOC_EPICS)))
         (demo_request (u "analysis")) (demo_world (Some (u "col")))
       = (w_analysis, Return (Indented e_analysis))
    /\ py_get e_foo (u "request_type") = Return (JStr (u "foo"))
    /\ py_get e_foo (u "tasks") = Return JNull
    /\ List.length (sent w_foo) = 1%nat
    /\ py_get e_analysis (u "request_type") = Return (JStr (u "analysis"))
    /\ py_get e_analysis (u "tasks_created") = Return (JInt 1)
    /\ py_get e_analysis (u "tasks_failed") = Return (JInt 1)
    /\ List.length (sent w_analysis) = 3%nat.
Proof.
  do 4 eexists.
  split; [vm_compute; reflexivity|].
  split; [vm_compute; reflexivity|].
  split; [vm_compute; reflexivity|].
  repeat split; vm_compute; reflexivity.
Qed.

(** ** The task-creation batch *)

Section BatchLoop.
Context {rt : Runtime}.
Variable column : pystr.

Lemma create_yougile_task_dict (task : json) (w w' : World) (y : json) :
  create_yougile_task task column w = (w', Return y) ->
  is_dict task = true /\ is_dict y = true.
Proof.
  unfold create_yougile_task.
  destruct (environ_get w (u "YOUGILE_API_KEY")) as [| | | |[|c s]| |];
    try discriminate.
  intros H.
  apply io_bind_Return in H. destruct H as (w1 & payload & Hp & H).
  apply io_bind_Return in H. destruct H as (w2 & created & _ & H).
  apply io_bind_Return in H. destruct H as (w3 & i & Hi & H).
  inversion H; subst. clear H.
  apply lift_Return in Hp. destruct Hp as [_ Hp].
  apply lift_Return in Hi. destruct Hi as [_ Hi].
  split.
  - destruct task; try reflexivity; discriminate Hp.
  - destruct y; try reflexivity; discriminate Hi.
Qed.

(** One round of the loop on a dict entry: a [created] record when the
    remote call returns, a [failed] one when it raises. *)
Lemma create_one_dict (fields : list (pystr * json)) (w : World) :
  create_one column (JObj fields) w
  = (fst (create_yougile_task (JObj fields) column w),
     Return
       match snd (create_yougile_task (JObj fields) column w) with
       | Return y =>
           JObj [(u "task_id", dict_get fields (u "task_id") JNull);
                 (u "yougile_id",
                  match y with
                  | JObj yf => dict_get yf (u "id") JNull
                  | _ => JNull
                  end);
                 (u "title", dict_get fields (u "title") JNull);
                 (u "status", JStr (u "created"))]
       | Raise e =>
           JObj [(u "task_id", dict_get fields (u "task_id") JNull);
                 (u "title", dict_get fields (u "title") JNull);
                 (u "status", JStr (u "failed"));
                 (u "error", JStr (exn_str e))]
       end).
Proof.
  unfold create_one, try_except, try_create, io_bind at 1.
  destruct (create_yougile_task (JObj fields) column w) as [w1 [y|e]] eqn:E.
  - destruct (@create_yougile_task_dict _ _ _ _ E) as [_ Hy].
    destruct y; try discriminate Hy. reflexivity.
  - reflexivity.
Qed.

Lemma count_status_app (s : pystr) (a b : list json) (x y : Z) :
  count_status s a = Return x -> count_status s b = Return y ->
  count_status s (a ++ b) = Return (x + y)%Z.
Proof.
  revert x. induction a as [|t a IH]; intros x Ha Hb; simpl in *.
  - inversion Ha. exact Hb.
  - destruct (py_item t (u "status")) as [st|]; [|discriminate Ha].
    cbn [bind] in *.
    destruct (count_status s a) as [n|]; [|discriminate Ha].
    cbn [bind] in *. rewrite (IH n eq_refl Hb). cbn [bind].
    inversion Ha. destruct (py_eq_str st s); f_equal; lia.
Qed.

Lemma creations_world_app (a b : list json) (w : World) :
  creations_world column (a ++ b) w
  = creations_world column b (creations_world column a w).
Proof.
  revert w. induction a as [|t a IH]; intros w; simpl; [reflexivity|].
  apply IH.
Qed.

Lemma creation_failures_app (a b : list json) (w : World) :
  creation_failures column (a ++ b) w
  = (creation_failures column a w
     + creation_failures column b (creations_world column a w))%nat.
Proof.
  revert w. induction a as [|t a IH]; intros w; simpl; [reflexivity|].
  destruct (create_yougile_task t column w) as [w1 [y|e]]; simpl;
    rewrite IH; reflexivity.
Qed.

Lemma batch_records_app (a b : list json) (w : World) (ra rb : list json) :
  batch_records column a w ra ->
  batch_records column b (creations_world column a w) rb ->
  batch_records column (a ++ b) w (ra ++ rb).
Proof.
  intros (La & Da & Fa & Ca & Ka) (Lb & Db & Fb & Cb & Kb).
  unfold batch_records.
  rewrite !length_app, forallb_app, creation_failures_app, La, Lb, Da, Db.
  split; [reflexivity|]. split; [reflexivity|].
  split; [rewrite (@count_status_app _ _ _ _ _ Fa Fb); f_equal; lia|].
  split; [rewrite (@count_status_app _ _ _ _ _ Ca Cb); f_equal; lia|lia].
Qed.

Lemma batch_records_nil (w : World) : batch_records column [] w [].
Proof. repeat split; simpl; lia. Qed.

(** The record of one dict entry is a batch of one. *)
Lemma batch_records_one (fields : list (pystr * json)) (w : World) (r : json) :
  create_one column (JObj fields) w
  = (fst (create_yougile_task (JObj fields) column w), Return r) ->
  batch_records column [JObj fields] w [r].
Proof.
  rewrite create_one_dict. intros H. inversion H as [Hr]. clear H.
  unfold batch_records. cbn [creation_failures List.length forallb].
  destruct (create_yougile_task (JObj fields) column w) as [w1 [y|e]];
    cbn [snd]; repeat split; try reflexivity; lia.
Qed.

Lemma tasks_loop_dicts (tasks : list json) :
  forall (acc : list json) (w : World),
    forallb is_dict tasks = true ->
    exists records : list json,
      tasks_loop column tasks acc w
      = (creations_world column tasks w, Return (acc ++ records))
      /\ batch_records column tasks w records.
Proof.
  induction tasks as [|task rest IH]; intros acc w Hd.
  - exists []. rewrite app_nil_r. split; [reflexivity|apply batch_records_nil].
  - simpl in Hd. apply andb_true_iff in Hd. destruct Hd as [Ht Hrest].
    destruct task as [| | | | | |fields]; try discriminate Ht.
    pose proof (create_one_dict fields w) as Hone.
    destruct (IH (acc ++ [match snd (create_yougile_task (JObj fields) column w) with
                          | Return y =>
                              JObj [(u "task_id", dict_get fields (u "task_id") JNull);
                                    (u "yougile_id",
                                     match y with
                                     | JObj yf => dict_get yf (u "id") JNull
                                     | _ => JNull
                                     end);
                                    (u "title", dict_get fields (u "title") JNull);
                                    (u "status", JStr (u "created"))]
                          | Raise e =>
                              JObj [(u "task_id", dict_get fields (u "task_id") JNull);
                                    (u "title", dict_get fields (u "title") JNull);
                                    (u "status", JStr (u "failed"));
                                    (u "error", JStr (exn_str e))]
                          end])
                 (fst (create_yougile_task (JObj fields) column w)) Hrest)
      as (records & Hloop & Hbatch).
    eexists (_ :: records). split.
    + cbn [tasks_loop]. unfold io_bind at 1. rewrite Hone.
      rewrite Hloop. rewrite <- app_assoc. reflexivity.
    + change (JObj fields :: rest) with ([JObj fields] ++ rest).
      match goal with
      | |- batch_records _ _ _ (?r :: records) =>
          change (r :: records) with ([r] ++ records)
      end.
      apply batch_records_app; [apply batch_records_one; exact Hone|exact Hbatch].
Qed.

Lemma epics_loop_dicts (epics : list json) :
  forall (acc entries : list json) (w : World),
    for_each (fun epic => l <- py_get_d epic (u "tasks") (JArr []) ;; py_iter l)
             epics = Return entries ->
    forallb is_dict entries = true ->
    exists records : list json,
      epics_loop column epics acc w
      = (creations_world column entries w, Return (acc ++ records))
      /\ batch_records column entries w records.
Proof.
  induction epics as [|epic rest IH]; intros acc entries w He Hd.
  - inversion He; subst. exists []. rewrite app_nil_r.
    split; [reflexivity|apply batch_records_nil].
  - cbn [for_each] in He.
    destruct (l <- py_get_d epic (u "tasks") (JArr []) ;; py_iter l)
      as [tasks|] eqn:Et; [|discriminate He].
    cbn [bind] in He.
    destruct (for_each _ rest) as [more|] eqn:Er; [|discriminate He].
    cbn [bind] in He. inversion He; subst. clear He.
    rewrite forallb_app in Hd. apply andb_true_iff in Hd.
    destruct Hd as [Hd1 Hd2].
    destruct (tasks_loop_dicts tasks acc w Hd1) as (r1 & Hl1 & Hb1).
    destruct (IH (acc ++ r1) more (creations_world column tasks w) eq_refl Hd2)
      as (r2 & Hl2 & Hb2).
    exists (r1 ++ r2). split.
    + cbn [epics_loop]. unfold io_bind at 1, lift at 1. rewrite Et.
      unfold io_bind at 1. rewrite Hl1, Hl2.
      rewrite creations_world_app, app_assoc. reflexivity.
    + apply batch_records_app; assumption.
Qed.
End BatchLoop.

Section AnalysisEnvelope.
Context {rt : Runtime}.

Lemma analysis_task_lines_return (items : list json) :
  forall i : Z,
    forallb is_dict items = true ->
    exists lines : report,
      for_each_from i analysis_task_lines items = Return lines.
Proof.
  induction items as [|t rest IH]; intros i Hd; [eexists; reflexivity|].
  simpl in Hd. apply andb_true_iff in Hd. destruct Hd as [Ht Hrest].
  destruct t as [| | | | | |fields]; try discriminate Ht.
  destruct (IH (i + 1)%Z Hrest) as [lines Hl].
  cbn [for_each_from]. rewrite Hl.
  unfold analysis_task_lines. cbn [py_get py_get_d bind].
  destruct (py_eq_str (dict_get fields (u "status") JNull) (u "created"));
    cbn [bind]; eexists; reflexivity.
Qed.

(** The analysis report of an envelope with a str [status] and a list
    of dict records is rendered without an exception. *)
Lemma format_analysis_chunks_returns
  (fields : list (pystr * json)) (s : pystr) (items : list json) :
  dict_get fields (u "status") (JStr (u "не определён")) = JStr s ->
  dict_get fields (u "tasks") (JArr []) = JArr items ->
  forallb is_dict items = true ->
  exists chunks : report, format_analysis_chunks (JObj fields) = Return chunks.
Proof.
  intros Hs Ht Hd. unfold format_analysis_chunks.
  cbn [py_get_d bind]. rewrite Hs, Ht. cbn [py_upper bind].
  destruct items as [|t rest].
  - eexists. reflexivity.
  - destruct (@analysis_task_lines_return (t :: rest) 1%Z Hd) as [lines Hl].
    cbn [py_truthy py_iter bind]. rewrite Hl. eexists. reflexivity.
Qed.

Lemma with_report_returns
  (fields : list (pystr * json)) (s : pystr) (items : list json) :
  dict_get fields (u "status") (JStr (u "не определён")) = JStr s ->
  dict_get fields (u "tasks") (JArr []) = JArr items ->
  forallb is_dict items = true ->
  exists text : pystr,
    with_report fields
    = Return (JObj (dict_set fields (u "human_readable_report") (JStr text))).
Proof.
  intros Hs Ht Hd.
  destruct (@format_analysis_chunks_returns fields s items Hs Ht Hd)
    as [chunks Hc].
  unfold with_report.
  change (format_human_readable_report (JObj fields) (JStr (u "analysis")))
    with (format_analysis_report (JObj fields)).
  unfold format_analysis_report. rewrite Hc. eexists. reflexivity.
Qed.

Lemma success_envelope_returns
  (parsed : json) (records : list json) (c f : Z) :
  count_status (u "created") records = Return c ->
  count_status (u "failed") records = Return f ->
  forallb is_dict records = true ->
  exists text : pystr,
    success_envelope parsed records
    = Return (JObj [(u "status", JStr (u "success"));
                    (u "request_type", JStr (u "analysis"));
                    (u "tasks_created", JInt c);
                    (u "tasks_failed", JInt f);
                    (u "tasks", JArr records);
                    (u "gpt_analysis", parsed);
                    (u "human_readable_report", JStr text)]).
Proof.
  intros Hc Hf Hd. unfold success_envelope. rewrite Hc, Hf. cbn [bind].
  match goal with
  | |- context [with_report ?fields] =>
      destruct (@with_report_returns fields (u "success") records
                  eq_refl eq_refl Hd) as [text Ht]
  end.
  exists text. rewrite Ht. reflexivity.
Qed.
End AnalysisEnvelope.

Section BatchCounts.
Context {rt : Runtime}.

Lemma create_one_record (column : pystr) (task : json) (w w' : World) (r : json) :
  create_one column task w = (w', Return r) -> is_task_record r.
Proof.
  unfold create_one, try_except. intros H.
  destruct (try_create task column w) as [w1 [y|e]] eqn:E.
  - inversion H; subst. clear H. unfold try_create in E.
    apply io_bind_Return in E. destruct E as (w2 & yr & _ & E).
    apply lift_Return in E. destruct E as [_ E].
    bind_inv E. inversion E. left. reflexivity.
  - apply lift_Return in H. destruct H as [_ H].
    unfold failed_record in H. bind_inv H. inversion H. right. reflexivity.
Qed.

Lemma tasks_loop_records (column : pystr) (tasks : list json) :
  forall (acc out : list json) (w w' : World),
    tasks_loop column tasks acc w = (w', Return out) ->
    Forall is_task_record acc -> Forall is_task_record out.
Proof.
  induction tasks as [|task rest IH]; intros acc out w w' H Hacc.
  - inversion H; subst. exact Hacc.
  - cbn [tasks_loop] in H.
    apply io_bind_Return in H. destruct H as (w1 & r & Hone & H).
    apply (IH _ _ _ _ H). apply Forall_app. split; [exact Hacc|].
    constructor; [|constructor]. eapply create_one_record; eassumption.
Qed.

Lemma epics_loop_records (column : pystr) (epics : list json) :
  forall (acc out : list json) (w w' : World),
    epics_loop column epics acc w = (w', Return out) ->
    Forall is_task_record acc -> Forall is_task_record out.
Proof.
  induction epics as [|epic rest IH]; intros acc out w w' H Hacc.
  - inversion H; subst. exact Hacc.
  - cbn [epics_loop] in H.
    apply io_bind_Return in H. destruct H as (w1 & tasks & _ & H).
    apply io_bind_Return in H. destruct H as (w2 & mid & Hl & H).
    apply (IH _ _ _ _ H). eapply tasks_loop_records; eassumption.
Qed.

(** Over records, the two counts add up to the length of the list. *)
Lemma count_status_sum (records : list json) :
  Forall is_task_record records ->
  exists c f : Z,
    count_status (u "created") records = Return c
    /\ count_status (u "failed") records = Return f
    /\ (c + f = Z.of_nat (List.length records))%Z.
Proof.
  induction 1 as [|t rest Ht _ IH].
  - exists 0%Z, 0%Z. repeat split.
  - destruct IH as (c & f & Hc & Hf & Hsum).
    cbn [count_status List.length]. rewrite Hc, Hf.
    destruct Ht as [Ht|Ht]; rewrite Ht; cbn [bind].
    + exists (c + 1)%Z, f. repeat split. lia.
    + exists c, (f + 1)%Z. repeat split. lia.
Qed.

(** C1: when the analysis parses, a column is configured and the N task
    entries of [epics[].tasks[]] are dicts, the flow returns a [success]
    envelope with [tasks_created = N - K], [tasks_failed = K] and
    [len(tasks) = N], where K of the N calls of [create_yougile_task],
    made in order, raise.  And whenever the flow returns an envelope that
    is not the parse-error one, [tasks_created + tasks_failed =
    len(tasks)]. *)
Theorem task_batch_counts :
  (forall (w : World) (raw column : pystr) (parsed : json) (entries : list json),
      json_loads (extract_json_text raw) = Return parsed ->
      environ w (u "YOUGILE_COLUMN_ID") = Some column ->
      column <> [] ->
      task_entries parsed = Return entries ->
      forallb is_dict entries = true ->
      exists (tasks : list json) (text : pystr),
        process_analysis_request (JStr raw) w
        = (creations_world column entries w,
           Return
             (JObj [(u "status", JStr (u "success"));
                    (u "request_type", JStr (u "analysis"));
                    (u "tasks_created",
                     JInt (Z.of_nat (List.length entries)
                           - Z.of_nat (creation_failures column entries w)));
                    (u "tasks_failed",
                     JInt (Z.of_nat (creation_failures column entries w)));
                    (u "tasks", JArr tasks);
                    (u "gpt_analysis", parsed);
                    (u "human_readable_report", JStr text)]))
        /\ List.length tasks = List.length entries
        /\ (creation_failures column entries w <= List.length entries)%nat)
  /\ (forall (gpt_response : json) (w w' : World) (envelope : json),
         process_analysis_request gpt_response w = (w', Return envelope) ->
         ~ has_status envelope (u "error") ->
         exists (created failed : Z) (tasks : list json),
           py_get envelope (u "tasks_created") = Return (JInt created)
           /\ py_get envelope (u "tasks_failed") = Return (JInt failed)
           /\ py_get envelope (u "tasks") = Return (JArr tasks)
           /\ (created + failed = Z.of_nat (List.length tasks))%Z).
Proof.
  split.
  - intros w raw column parsed entries Hl Henv Hcol He Hd.
    unfold task_entries in He.
    destruct (py_get_d parsed (u "epics") (JArr [])) as [l|] eqn:E;
      [|discriminate He].
    cbn [bind] in He.
    destruct (py_iter l) as [epics|] eqn:E0; [|discriminate He].
    cbn [bind] in He.
    destruct (@epics_loop_dicts rt column epics [] entries w He Hd)
      as (records & Hloop & Hb).
    pose proof Hb as (Hlen & Hdict & Hf & Hc & Hk).
    destruct (@success_envelope_returns rt parsed records _ _ Hc Hf Hdict)
      as [text Ht].
    exists records, text. split; [|split; assumption].
    unfold process_analysis_request, try_except_decode, io_bind, lift,
      extract_json_from_markdown, environ_get.
    rewrite Hl, Henv. destruct column as [|c s]; [congruence|].
    rewrite E. cbn [bind]. rewrite E0, Hloop. cbn [app]. rewrite Ht.
    reflexivity.
  - intros g w w' envelope H Hne.
    unfold process_analysis_request, try_except_decode in H.
    match type of H with
    | context [match ?b w with _ => _ end] => destruct b as [w1 [env|e]] eqn:Hb
    end.
    + inversion H; subst. clear H.
      apply io_bind_Return in Hb. destruct Hb as (w2 & clean & _ & Hb).
      apply io_bind_Return in Hb. destruct Hb as (w3 & parsed & _ & Hb).
      destruct (environ_get w (u "YOUGILE_COLUMN_ID")) as [| | | |[|c s]| |].
      all: try (apply lift_Return in Hb; destruct Hb as [_ Hb];
                apply with_report_Return in Hb; destruct Hb as [text ->];
                exists 0%Z, 0%Z, []; repeat split).
      apply io_bind_Return in Hb. destruct Hb as (w4 & epics & _ & Hb).
      apply io_bind_Return in Hb. destruct Hb as (w5 & created & Hloop & Hb).
      apply lift_Return in Hb; destruct Hb as [_ Hb].
      assert (Forall is_task_record created) as Hrec.
      { eapply epics_loop_records; [eassumption|constructor]. }
      destruct (count_status_sum Hrec) as (c' & f' & Hc & Hf & Hsum).
      unfold success_envelope in Hb. rewrite Hc, Hf in Hb. cbn [bind] in Hb.
      apply with_report_Return in Hb; destruct Hb as [text ->].
      exists c', f', created. repeat split. exact Hsum.
    + destruct (exn_class_eqb (exn_kind e) JSONDecodeError); [|discriminate H].
      apply lift_Return in H. destruct H as [_ H].
      exfalso. apply Hne. eapply decode_error_envelope_status; eassumption.
Qed.
End BatchCounts.

(** C1 on a completion with two task entries, of which the second is
    refused by the task API: one created, one failed, two records. *)
Lemma task_batch_counts_on_two_entries :
  exists (w' : World) (tasks : list json) (text : pystr),
    process_analysis_request (rt := demo_runtime (Return (completion DOC_EPICS)))
      (JStr DOC_EPICS) (demo_world (Some (u "col")))
    = (w',
       Return (JObj [(u "status", JStr (u "success"));
                     (u "request_type", JStr (u "analysis"));
                     (u "tasks_created", JInt 1);
                     (u "tasks_failed", JInt 1);
                     (u "tasks", JArr tasks);
                     (u "gpt_analysis",
                      JObj [(u "epics",
                             JArr [JObj [(u "tasks", JArr [TASK_OK; TASK_BAD])]])]);
                     (u "human_readable_report", JStr text)]))
    /\ List.length tasks = 2%nat.
Proof.
  destruct (proj1 (task_batch_counts
                     (rt := demo_runtime (Return (completion DOC_EPICS))))
              (demo_world (Some (u "col"))) DOC_EPICS (u "col")
              (JObj [(u "epics",
                      JArr [JObj [(u "tasks", JArr [TASK_OK; TASK_BAD])]])])
              [TASK_OK; TASK_BAD]
              eq_refl eq_refl ltac:(discriminate) eq_refl eq_refl)
    as (tasks & text & Heq & Hlen & _).
  exists (creations_world (rt := demo_runtime (Return (completion DOC_EPICS)))
            (u "col") [TASK_OK; TASK_BAD] (demo_world (Some (u "col")))),
    tasks, text.
  split; [exact Heq|exact Hlen].
Defined.

(** C1 as stated fails: of three task entries the second is a string;
    the first is submitted, then the flow raises, so there is no envelope
    and no counter for these N = 3 entries. *)
Lemma str_entry_leaves_no_envelope :
  @json_loads (runtime_with more_documents (Return demo_prompts)
                 (demo_post (Return (completion DOC_MIXED))))
    (extract_json_text DOC_MIXED) = Return MIXED
  /\ task_entries MIXED = Return [TASK_OK; JStr (u "oops"); TASK_BAD]
  /\ exists (w' : World) (e : exn),
       process_analysis_request
         (rt := runtime_with more_documents (Return demo_prompts)
                  (demo_post (Return (completion DOC_MIXED))))
         (JStr DOC_MIXED) (demo_world (Some (u "col")))
       = (w', Raise e)
       /\ exn_kind e = AttributeError
       /\ List.length (sent w') = 1%nat.
Proof.
  split; [vm_compute; reflexivity|].
  split; [vm_compute; reflexivity|].
  do 2 eexists.
  split; [vm_compute; reflexivity|].
  split; vm_compute; reflexivity.
Qed.

(** ** Counting the literal chunks of a report *)

Lemma emitted_app (s : pystr) (a b : report) :
  emitted s (a ++ b) = (emitted s a + emitted s b)%nat.
Proof. unfold emitted. rewrite filter_app, length_app. reflexivity. Qed.

Lemma emitted_cons (s : pystr) (c : chunk) (r : report) :
  emitted s (c :: r) = ((if chunk_is_lit s c then 1 else 0) + emitted s r)%nat.
Proof. unfold emitted. simpl. destruct (chunk_is_lit s c); reflexivity. Qed.

Lemma for_each_emitted (s : pystr) (body : json -> result report) (items : list json) :
  (forall (x : json) (c : report), body x = Return c -> emitted s c = 0%nat) ->
  forall r : report, for_each body items = Return r -> emitted s r = 0%nat.
Proof.
  intros Hb. induction items as [|x rest IH]; intros r H; cbn [for_each] in H.
  - inversion H. reflexivity.
  - destruct (body x) as [c|] eqn:Ec; [|discriminate H]. cbn [bind] in H.
    destruct (for_each body rest) as [cs|]; [|discriminate H]. cbn [bind] in H.
    inversion H. rewrite emitted_app, (Hb _ _ Ec), (IH _ eq_refl). reflexivity.
Qed.

Lemma for_each_from_emitted (s : pystr) (body : Z -> json -> result report)
  (items : list json) :
  (forall (i : Z) (x : json) (c : report),
      body i x = Return c -> emitted s c = 0%nat) ->
  forall (i : Z) (r : report),
    for_each_from i body items = Return r -> emitted s r = 0%nat.
Proof.
  intros Hb. induction items as [|x rest IH]; intros i r H;
    cbn [for_each_from] in H.
  - inversion H. reflexivity.
  - destruct (body i x) as [c|] eqn:Ec; [|discriminate H]. cbn [bind] in H.
    destruct (for_each_from (i + 1) body rest) as [cs|] eqn:Er;
      [|discriminate H].
    cbn [bind] in H.
    inversion H. rewrite emitted_app, (Hb _ _ _ Ec), (IH _ _ Er). reflexivity.
Qed.

Lemma for_each_In {A : Type} (body : json -> result (list A)) (items : list json) :
  forall r : list A,
    for_each body items = Return r ->
    forall x : json,
      In x items ->
      exists c : list A, body x = Return c /\ (forall y : A, In y c -> In y r).
Proof.
  induction items as [|x0 rest IH]; intros r H x Hx; [destruct Hx|].
  cbn [for_each] in H.
  destruct (body x0) as [c0|] eqn:Ec; [|discriminate H]. cbn [bind] in H.
  destruct (for_each body rest) as [cs|] eqn:Er; [|discriminate H].
  cbn [bind] in H. inversion H; subst. destruct Hx as [->|Hx].
  - exists c0. split; [exact Ec|]. intros y Hy. apply in_or_app. auto.
  - destruct (IH _ eq_refl x Hx) as (c & Hc & Hin). exists c.
    split; [exact Hc|]. intros y Hy. apply in_or_app. auto.
Qed.

Lemma for_each_from_In {A : Type} (body : Z -> json -> result (list A))
  (items : list json) :
  forall (i : Z) (r : list A),
    for_each_from i body items = Return r ->
    forall x : json,
      In x items -> exists (j : Z) (c : list A), body j x = Return c.
Proof.
  induction items as [|x0 rest IH]; intros i r H x Hx; [destruct Hx|].
  cbn [for_each_from] in H.
  destruct (body i x0) as [c0|] eqn:Ec; [|discriminate H]. cbn [bind] in H.
  destruct (for_each_from (i + 1) body rest) as [cs|] eqn:Er; [|discriminate H].
  destruct Hx as [->|Hx]; [eauto|]. eapply IH; eassumption.
Qed.

(** A truthy value whose iteration yields only values with [get] is a
    non-empty list. *)
Lemma truthy_iterable_of_dicts (v : json) (items : list json) :
  py_truthy v = true ->
  py_iter v = Return items ->
  (forall x : json, In x items -> is_dict x = true) ->
  exists (x : json) (xs : list json), v = JArr (x :: xs).
Proof.
  intros Ht Hi Hd.
  destruct v as [| | | |s|l|fields]; try discriminate Hi.
  - destruct s as [|c s]; [discriminate Ht|]. inversion Hi; subst.
    specialize (Hd (JStr [c]) (or_introl eq_refl)). discriminate Hd.
  - destruct l as [|x xs]; [discriminate Ht|]. eauto.
  - destruct fields as [|[k v] fields]; [discriminate Ht|]. inversion Hi; subst.
    specialize (Hd (JStr k) (or_introl eq_refl)). discriminate Hd.
Qed.

Lemma titled_section_emitted (s title : pystr) (v : json)
  (lines_of : list json -> result report) (r : report) :
  (forall (items : list json) (lines : report),
      lines_of items = Return lines -> emitted s lines = 0%nat) ->
  titled_section title v lines_of = Return r ->
  emitted s r
  = (if py_truthy v then (if pystr_eqb title s then 1 else 0) else 0)%nat.
Proof.
  intros Hl. unfold titled_section. destruct (py_truthy v).
  - intros H.
    destruct (py_iter v) as [items|]; [|discriminate H]. cbn [bind] in H.
    destruct (lines_of items) as [lines|] eqn:E; [|discriminate H].
    cbn [bind] in H. inversion H.
    rewrite emitted_cons, (Hl _ _ E). unfold chunk_is_lit.
    rewrite Nat.add_0_r. reflexivity.
  - intros H. inversion H. reflexivity.
Qed.

Lemma titled_section_other (s title : pystr) (v : json)
  (lines_of : list json -> result report) (r : report) :
  (forall (items : list json) (lines : report),
      lines_of items = Return lines -> emitted s lines = 0%nat) ->
  pystr_eqb title s = false ->
  titled_section title v lines_of = Return r ->
  emitted s r = 0%nat.
Proof.
  intros Hl Hne H. rewrite (@titled_section_emitted s title v lines_of r Hl H), Hne.
  destruct (py_truthy v); reflexivity.
Qed.

(** A guarded section that was rendered over a truthy value was rendered
    over a non-empty list. *)
Lemma titled_section_list (title : pystr) (v : json)
  (lines_of : list json -> result report) (r : report) :
  (forall (items : list json) (lines : report),
      lines_of items = Return lines ->
      forall x : json, In x items -> is_dict x = true) ->
  titled_section title v lines_of = Return r ->
  py_truthy v = true ->
  exists (x : json) (xs : list json), v = JArr (x :: xs).
Proof.
  intros Hd H Ht. unfold titled_section in H. rewrite Ht in H.
  destruct (py_iter v) as [items|] eqn:Ei; [|discriminate H]. cbn [bind] in H.
  destruct (lines_of items) as [lines|] eqn:E; [|discriminate H].
  apply (truthy_iterable_of_dicts _ Ht Ei). exact (Hd _ _ E).
Qed.

Lemma dict_get_default (fields : list (pystr * json)) (key : pystr) (d v : json) :
  dict_get fields key JNull = v -> v <> JNull -> dict_get fields key d = v.
Proof.
  induction fields as [|[k x] rest IH]; simpl; intros H Hv; [congruence|].
  destruct (pystr_eqb k key); auto.
Qed.

(** ** The renderers *)



Section SprintReport.
Context {rt : Runtime}.

Lemma bottleneck_lines_emitted (s : pystr) (x : json) (c : report) :
  bottleneck_lines x = Return c -> emitted s c = 0%nat.
Proof. unfold bottleneck_lines. lines_emitted. Qed.

Lemma action_lines_emitted (s : pystr) (i : Z) (x : json) (c : report) :
  action_lines i x = Return c -> emitted s c = 0%nat.
Proof. unfold action_lines. lines_emitted. Qed.

Lemma improvement_lines_emitted (s : pystr) (i : Z) (x : json) (c : report) :
  improvement_lines i x = Return c -> emitted s c = 0%nat.
Proof. unfold improvement_lines. lines_emitted. Qed.

Lemma topic_lines_emitted (s : pystr) (i : Z) (x : json) (c : report) :
  topic_lines i x = Return c -> emitted s c = 0%nat.
Proof. unfold topic_lines. lines_emitted. Qed.

Lemma overloaded_member_emitted (s : pystr) (x : json) (c : report) :
  overloaded_member x = Return c -> emitted s c = 0%nat.
Proof. unfold overloaded_member. lines_emitted. Qed.

Lemma underutilized_member_emitted (s : pystr) (x : json) (c : report) :
  underutilized_member x = Return c -> emitted s c = 0%nat.
Proof. unfold underutilized_member. lines_emitted. Qed.

Lemma bottleneck_lines_dict (x : json) (c : report) :
  bottleneck_lines x = Return c -> is_dict x = true.
Proof. unfold bottleneck_lines. lines_dict. Qed.

Lemma action_lines_dict (i : Z) (x : json) (c : report) :
  action_lines i x = Return c -> is_dict x = true.
Proof. unfold action_lines. lines_dict. Qed.

Lemma topic_lines_dict (i : Z) (x : json) (c : report) :
  topic_lines i x = Return c -> is_dict x = true.
Proof. unfold topic_lines. lines_dict. Qed.

Lemma sprint_head_emitted (s : pystr) (data summary : json) (r : report) :
  sprint_head data summary = Return r -> emitted s r = 0%nat.
Proof. unfold sprint_head. lines_emitted. Qed.

Lemma sprint_metrics_emitted (s : pystr) (flow team : json) (r : report) :
  sprint_metrics flow team = Return r -> emitted s r = 0%nat.
Proof. unfold sprint_metrics. lines_emitted. Qed.

Lemma sprint_achievements_emitted (s : pystr) (summary : json) (r : report) :
  sprint_achievements summary = Return r -> emitted s r = 0%nat.
Proof.
  unfold sprint_achievements. intros H.
  destruct (py_get_d summary (u "key_achievements") (JArr [])) as [l|];
    [|discriminate H].
  cbn [bind] in H. destruct (py_iter l) as [items|]; [|discriminate H].
  cbn [bind] in H. revert H. apply for_each_emitted.
  intros x c Hc. inversion Hc. reflexivity.
Qed.

Lemma sprint_risks_emitted (s : pystr) (summary : json) (r : report) :
  pystr_eqb SPRINT_RISKS_TITLE s = false ->
  sprint_risks summary = Return r -> emitted s r = 0%nat.
Proof.
  unfold sprint_risks. intros Hne H.
  destruct (py_get_d summary (u "critical_risks") (JArr [])) as [l|];
    [|discriminate H].
  cbn [bind] in H. destruct (py_iter l) as [items|]; [|discriminate H].
  cbn [bind] in H.
  destruct (for_each _ items) as [lines|] eqn:E; [|discriminate H].
  cbn [bind] in H. inversion H.
  rewrite emitted_cons. unfold chunk_is_lit. rewrite Hne.
  revert E. apply for_each_emitted. intros x c Hc. inversion Hc. reflexivity.
Qed.

Lemma sprint_overloaded_emitted (s : pystr) (workload : json) (r : report) :
  pystr_eqb SPRINT_OVERLOADED_TITLE s = false ->
  sprint_overloaded workload = Return r -> emitted s r = 0%nat.
Proof.
  unfold sprint_overloaded. intros Hne H.
  destruct (py_get workload (u "overloaded_members")) as [g|]; [|discriminate H].
  cbn [bind] in H. destruct (py_truthy g); [|inversion H; reflexivity].
  step H as members eqn Em. step H as items eqn Ei. step H as lines eqn El.
  inversion H. rewrite emitted_cons. unfold chunk_is_lit. rewrite Hne.
  revert El. apply for_each_emitted. apply overloaded_member_emitted.
Qed.

Lemma sprint_underutilized_emitted (s : pystr) (workload : json) (r : report) :
  pystr_eqb SPRINT_UNDERUSED_TITLE s = false ->
  sprint_underutilized workload = Return r -> emitted s r = 0%nat.
Proof.
  unfold sprint_underutilized. intros Hne H.
  destruct (py_get workload (u "underutilized_members")) as [g|];
    [|discriminate H].
  cbn [bind] in H. destruct (py_truthy g); [|inversion H; reflexivity].
  step H as members eqn Em. step H as items eqn Ei. step H as lines eqn El.
  inversion H. rewrite emitted_cons. unfold chunk_is_lit. rewrite Hne.
  revert El. apply for_each_emitted. apply underutilized_member_emitted.
Qed.
End SprintReport.


Section SprintTitles.
Context {rt : Runtime}.

(** How often a literal chunk [s] that is none of the unguarded titles
    occurs in a sprint report: once for each of the three guarded
    sections that carries it and whose list is truthy. *)
Lemma format_sprint_chunks_emitted (s : pystr) (data : json) (chunks : report) :
  format_sprint_chunks data = Return chunks ->
  pystr_eqb SPRINT_RISKS_TITLE s = false ->
  pystr_eqb SPRINT_OVERLOADED_TITLE s = false ->
  pystr_eqb SPRINT_UNDERUSED_TITLE s = false ->
  pystr_eqb SPRINT_IMPROVEMENTS_TITLE s = false ->
  pystr_eqb SPRINT_FOOTER s = false ->
  exists b a r : json,
    sprint_bottleneck_list data = Return b
    /\ sprint_action_list data = Return a
    /\ sprint_retro_list data = Return r
    /\ emitted s chunks
       = ((if py_truthy b
           then (if pystr_eqb SPRINT_BOTTLENECKS_TITLE s then 1 else 0) else 0)
          + (if py_truthy a
             then (if pystr_eqb SPRINT_ACTIONS_TITLE s then 1 else 0) else 0)
          + (if py_truthy r
             then (if pystr_eqb SPRINT_RETRO_TITLE s then 1 else 0) else 0))%nat
    /\ (py_truthy b = true -> exists (x : json) (xs : list json), b = JArr (x :: xs))
    /\ (py_truthy a = true -> exists (x : json) (xs : list json), a = JArr (x :: xs))
    /\ (py_truthy r = true -> exists (x : json) (xs : list json), r = JArr (x :: xs)).
Proof.
  intros H Hrisk Hover Hunder Himpr Hfoot.
  unfold format_sprint_chunks in H.
  step H as summary eqn E1. step H as flow eqn E2. step H as team eqn E3. step H as actions eqn E4.
  step H as head eqn E5. step H as ach eqn E6. step H as risks eqn E7. step H as metrics eqn E8.
  step H as workload eqn E9. step H as over eqn E10. step H as under eqn E11. step H as bott eqn E12.
  step H as imm eqn E13. step H as short eqn E14. step H as retro eqn E15.
  inversion H as [Hc]. clear H Hc.
  unfold sprint_bottlenecks in E12. step E12 as cf eqn Ecf. step E12 as b eqn Eb.
  unfold sprint_immediate in E13. step E13 as a eqn Ea.
  unfold sprint_short_term in E14. step E14 as st eqn Est.
  unfold sprint_retro in E15. step E15 as r eqn Er.
  exists b, a, r.
  split. { unfold sprint_bottleneck_list. rewrite E2. cbn [bind].
           rewrite Ecf. cbn [bind]. exact Eb. }
  split. { unfold sprint_action_list. rewrite E4. cbn [bind]. exact Ea. }
  split. { exact Er. }
  split.
  - assert (emitted s head = 0%nat) as H5
      by (eapply sprint_head_emitted; eassumption).
    assert (emitted s ach = 0%nat) as H6
      by (eapply sprint_achievements_emitted; exact E6).
    assert (emitted s risks = 0%nat) as H7
      by (eapply sprint_risks_emitted; [exact Hrisk|exact E7]).
    assert (emitted s metrics = 0%nat) as H8
      by (eapply sprint_metrics_emitted; exact E8).
    assert (emitted s over = 0%nat) as H10
      by (eapply sprint_overloaded_emitted; [exact Hover|exact E10]).
    assert (emitted s under = 0%nat) as H11
      by (eapply sprint_underutilized_emitted; [exact Hunder|exact E11]).
    assert (emitted s short = 0%nat) as H14.
    { eapply titled_section_other; [|exact Himpr|exact E14].
      intros items lines. apply for_each_from_emitted.
      apply improvement_lines_emitted. }
    assert (emitted s bott
            = if py_truthy b
              then (if pystr_eqb SPRINT_BOTTLENECKS_TITLE s then 1 else 0)
              else 0)%nat as H12.
    { eapply titled_section_emitted; [|exact E12].
      intros items lines. apply for_each_emitted.
      apply bottleneck_lines_emitted. }
    assert (emitted s imm
            = if py_truthy a
              then (if pystr_eqb SPRINT_ACTIONS_TITLE s then 1 else 0)
              else 0)%nat as H13.
    { eapply titled_section_emitted; [|exact E13].
      intros items lines. apply for_each_from_emitted.
      apply action_lines_emitted. }
    assert (emitted s retro
            = if py_truthy r
              then (if pystr_eqb SPRINT_RETRO_TITLE s then 1 else 0)
              else 0)%nat as H15.
    { eapply titled_section_emitted; [|exact E15].
      intros items lines. apply for_each_from_emitted.
      apply topic_lines_emitted. }
    rewrite !emitted_app, H5, H6, H7, H8, H10, H11, H12, H13, H14, H15.
    rewrite emitted_cons. unfold chunk_is_lit at 1. rewrite Hfoot.
    cbn [emitted filter List.length]. lia.
  - split; [|split]; intros Ht.
    + eapply titled_section_list; [|exact E12|exact Ht].
      intros items lines Hl x Hx.
      eapply for_each_In in Hl; [|exact Hx].
      destruct Hl as (c & Hc & _).
      eapply bottleneck_lines_dict; eassumption.
    + eapply titled_section_list; [|exact E13|exact Ht].
      intros items lines Hl x Hx.
      eapply for_each_from_In in Hl; [|exact Hx].
      destruct Hl as (j & c & Hc).
      eapply action_lines_dict; eassumption.
    + eapply titled_section_list; [|exact E15|exact Ht].
      intros items lines Hl x Hx.
      eapply for_each_from_In in Hl; [|exact Hx].
      destruct Hl as (j & c & Hc).
      eapply topic_lines_dict; eassumption.
Qed.
End SprintTitles.

(** ** Truncation *)

Lemma quot_is_truncation (num den : Z) :
  (0 < den)%Z -> is_truncation num den (Z.quot num den).
Proof.
  intros Hd. unfold is_truncation. split; [exact Hd|].
  assert (forall n : Z,
             (0 <= n)%Z ->
             (0 <= Z.quot n den
              /\ Z.quot n den * den <= n < (Z.quot n den + 1) * den)%Z) as Hpos.
  { intros n Hn.
    pose proof (Z.quot_rem' n den) as Hqr.
    pose proof (Z.rem_bound_pos n den Hn Hd) as Hr.
    pose proof (Z.quot_pos n den Hn Hd) as Hq. nia. }
  destruct (Z.le_gt_cases 0 num) as [Hn|Hn].
  - destruct (Hpos num Hn) as [Hq Hb].
    rewrite (Z.abs_eq (Z.quot num den)) by exact Hq.
    rewrite (Z.abs_eq num) by exact Hn. nia.
  - destruct (Hpos (- num)%Z ltac:(lia)) as [Hq Hb].
    rewrite Z.quot_opp_l in Hq, Hb by lia.
    rewrite (Z.abs_neq (Z.quot num den)) by lia.
    rewrite (Z.abs_neq num) by lia. nia.
Qed.

Lemma float_fraction_den_pos (x : float) (num den : Z) :
  float_fraction x = Some (num, den) -> (0 < den)%Z.
Proof.
  unfold float_fraction. destruct (Prim2SF x) as [s|s| |s m e]; try discriminate.
  - intros Hf. inversion Hf. lia.
  - destruct (Z.leb_spec 0 e) as [He|He]; intros Hf; inversion Hf; [lia|].
    apply Z.pow_pos_nonneg; lia.
Qed.

Lemma py_int_of_float_truncates (x : float) (q : Z) :
  py_int_of_float x = Return q ->
  exists num den : Z,
    float_fraction x = Some (num, den) /\ is_truncation num den q.
Proof.
  unfold py_int_of_float.
  destruct (float_fraction x) as [[num den]|] eqn:E.
  - intros H. exists num, den. split; [reflexivity|].
    assert (q = Z.quot num den) as ->.
    { destruct (Prim2SF x); try discriminate H; inversion H; reflexivity. }
    apply quot_is_truncation. eapply float_fraction_den_pos; eassumption.
  - unfold float_fraction in E.
    destruct (Prim2SF x); try discriminate E; discriminate.
Qed.

Lemma overload_percent_truncated (load_ratio : json) (percent : Z) :
  overload_percent load_ratio = Return percent ->
  truncated_percent load_ratio percent.
Proof.
  destruct load_ratio; simpl; try discriminate.
  - intros H. inversion H. reflexivity.
  - intros H. inversion H. reflexivity.
  - apply py_int_of_float_truncates.
Qed.

Section Reports.
Context {rt : Runtime}.

Lemma analysis_task_lines_emitted (i : Z) (x : json) (c : report) :
  analysis_task_lines i x = Return c ->
  emitted ANALYSIS_TASKS_TITLE c = 0%nat.
Proof.
  unfold analysis_task_lines. intros H.
  step H as st eqn E1. step H as title eqn E2. step H as st' eqn E3.
  step H as second eqn E4. inversion H as [Hc]. clear H Hc.
  destruct (py_eq_str st' (u "created")).
  - step E4 as y eqn E5. inversion E4. vm_compute. reflexivity.
  - step E4 as y eqn E5. inversion E4. vm_compute. reflexivity.
Qed.

Lemma analysis_task_lines_dict (i : Z) (x : json) (c : report) :
  analysis_task_lines i x = Return c -> is_dict x = true.
Proof. unfold analysis_task_lines. lines_dict. Qed.

Lemma format_analysis_chunks_emitted (data : json) (chunks : report) :
  format_analysis_chunks data = Return chunks ->
  exists tasks : json,
    py_get_d data (u "tasks") (JArr []) = Return tasks
    /\ emitted ANALYSIS_TASKS_TITLE chunks
       = (if py_truthy tasks then 1 else 0)%nat
    /\ (py_truthy tasks = true ->
        exists (x : json) (xs : list json), tasks = JArr (x :: xs)).
Proof.
  unfold format_analysis_chunks. intros H.
  step H as st eqn E1. step H as status eqn E2. step H as created eqn E3.
  step H as failed eqn E4. step H as tasks eqn E5. step H as section eqn E6.
  inversion H as [Hc]. clear H Hc. exists tasks. split; [reflexivity|].
  destruct (py_truthy tasks) eqn:Ht.
  - step E6 as items eqn E7. step E6 as lines eqn E8.
    inversion E6 as [Hs]. clear E6 Hs. split.
    + rewrite emitted_cons, emitted_app, !emitted_cons.
      rewrite (@for_each_from_emitted ANALYSIS_TASKS_TITLE analysis_task_lines
                 items analysis_task_lines_emitted 1%Z lines E8).
      vm_compute. reflexivity.
    + intros _. apply (truthy_iterable_of_dicts _ Ht E7).
      intros x Hx. eapply for_each_from_In in E8; [|exact Hx].
      destruct E8 as (j & c & Hc).
      eapply analysis_task_lines_dict; eassumption.
  - inversion E6. split; [vm_compute; reflexivity|discriminate].
Qed.

(** C5, as the code has it: the analysis report carries the tasks title
    once when [tasks] is a non-empty list and not at all when it is empty
    or absent (the title is under [if tasks:]); the sprint report carries
    each of its bottleneck, action and retrospective titles once when the
    corresponding list is non-empty and not at all otherwise.  A report
    rendered over a truthy value was rendered over a non-empty list. *)
Theorem section_titles_follow_their_lists :
  (forall (data : json) (chunks : report),
      format_analysis_chunks data = Return chunks ->
      exists tasks : json,
        py_get_d data (u "tasks") (JArr []) = Return tasks
        /\ emitted ANALYSIS_TASKS_TITLE chunks
           = (if py_truthy tasks then 1 else 0)%nat
        /\ (py_truthy tasks = true ->
            exists (x : json) (xs : list json), tasks = JArr (x :: xs)))
  /\ (forall (data : json) (chunks : report),
         format_sprint_chunks data = Return chunks ->
         exists b a r : json,
           sprint_bottleneck_list data = Return b
           /\ sprint_action_list data = Return a
           /\ sprint_retro_list data = Return r
           /\ emitted SPRINT_BOTTLENECKS_TITLE chunks
              = (if py_truthy b then 1 else 0)%nat
           /\ emitted SPRINT_ACTIONS_TITLE chunks
              = (if py_truthy a then 1 else 0)%nat
           /\ emitted SPRINT_RETRO_TITLE chunks
              = (if py_truthy r then 1 else 0)%nat
           /\ (py_truthy b = true ->
               exists (x : json) (xs : list json), b = JArr (x :: xs))
           /\ (py_truthy a = true ->
               exists (x : json) (xs : list json), a = JArr (x :: xs))
           /\ (py_truthy r = true ->
               exists (x : json) (xs : list json), r = JArr (x :: xs))).
Proof.
  split; [exact format_analysis_chunks_emitted|].
  intros data chunks H.
  destruct (@format_sprint_chunks_emitted rt SPRINT_BOTTLENECKS_TITLE data chunks H
              eq_refl eq_refl eq_refl eq_refl eq_refl)
    as (b & a & r & Hb & Ha & Hr & Eb & Lb & La & Lr).
  destruct (@format_sprint_chunks_emitted rt SPRINT_ACTIONS_TITLE data chunks H
              eq_refl eq_refl eq_refl eq_refl eq_refl)
    as (b' & a' & r' & Hb' & Ha' & Hr' & Ea & _).
  destruct (@format_sprint_chunks_emitted rt SPRINT_RETRO_TITLE data chunks H
              eq_refl eq_refl eq_refl eq_refl eq_refl)
    as (b'' & a'' & r'' & Hb'' & Ha'' & Hr'' & Er & _).
  rewrite Hb in Hb', Hb''. rewrite Ha in Ha', Ha''. rewrite Hr in Hr', Hr''.
  inversion Hb'; inversion Hb''; inversion Ha'; inversion Ha'';
    inversion Hr'; inversion Hr''; subst.
  exists b'', a'', r''. repeat (split; [assumption|]).
  split; [|split; [|split; [|repeat split; assumption]]].
  - rewrite Eb.
    change (pystr_eqb SPRINT_BOTTLENECKS_TITLE SPRINT_BOTTLENECKS_TITLE) with true.
    change (pystr_eqb SPRINT_ACTIONS_TITLE SPRINT_BOTTLENECKS_TITLE) with false.
    change (pystr_eqb SPRINT_RETRO_TITLE SPRINT_BOTTLENECKS_TITLE) with false.
    destruct (py_truthy b''), (py_truthy a''), (py_truthy r''); reflexivity.
  - rewrite Ea.
    change (pystr_eqb SPRINT_BOTTLENECKS_TITLE SPRINT_ACTIONS_TITLE) with false.
    change (pystr_eqb SPRINT_ACTIONS_TITLE SPRINT_ACTIONS_TITLE) with true.
    change (pystr_eqb SPRINT_RETRO_TITLE SPRINT_ACTIONS_TITLE) with false.
    destruct (py_truthy b''), (py_truthy a''), (py_truthy r''); reflexivity.
  - rewrite Er.
    change (pystr_eqb SPRINT_BOTTLENECKS_TITLE SPRINT_RETRO_TITLE) with false.
    change (pystr_eqb SPRINT_ACTIONS_TITLE SPRINT_RETRO_TITLE) with false.
    change (pystr_eqb SPRINT_RETRO_TITLE SPRINT_RETRO_TITLE) with true.
    destruct (py_truthy b''), (py_truthy a''), (py_truthy r''); reflexivity.
Qed.
End Reports.

Section Overload.
Context {rt : Runtime}.

Lemma overloaded_member_line (m : json) (c : report) :
  overloaded_member m = Return c ->
  exists (ratio : json) (percent : Z),
    py_get_d m (u "load_ratio") (JInt 1) = Return ratio
    /\ overload_percent ratio = Return percent
    /\ In (overload_line percent) c.
Proof.
  unfold overloaded_member. intros H.
  step H as name eqn E1. step H as role eqn E2. step H as current eqn E3.
  step H as recommended eqn E4. step H as ratio eqn E5.
  step H as percent eqn E6. inversion H as [Hc]. clear H Hc.
  exists ratio, percent. split; [reflexivity|]. split; [exact E6|].
  right. right. left. reflexivity.
Qed.

Lemma sprint_overloaded_lines (workload : json) (members : list json) (r : report) :
  sprint_overloaded workload = Return r ->
  py_get workload (u "overloaded_members") = Return (JArr members) ->
  forall m : json,
    In m members ->
    exists c : report,
      overloaded_member m = Return c /\ (forall y : chunk, In y c -> In y r).
Proof.
  intros H Hg m Hm. unfold sprint_overloaded in H. rewrite Hg in H.
  cbn [bind] in H.
  destruct members as [|m0 rest]; [destruct Hm|].
  cbn [py_truthy] in H.
  destruct workload as [| | | | | |fields]; try discriminate Hg.
  unfold py_get, py_get_d in Hg. inversion Hg as [Hd].
  unfold py_get_d in H.
  rewrite (@dict_get_default fields (u "overloaded_members") (JArr [])
             (JArr (m0 :: rest)) Hd ltac:(discriminate)) in H.
  cbn [bind py_iter] in H.
  destruct (for_each overloaded_member (m0 :: rest)) as [lines|] eqn:El;
    [|discriminate H].
  cbn [bind] in H. inversion H.
  destruct (for_each_In _ _ El m Hm) as (c & Hc & Hin).
  exists c. split; [exact Hc|]. intros y Hy. right. auto.
Qed.

(** C4, as the code has it: for every overloaded member of a rendered
    sprint report, the report carries the line [Перегрузка: p%] where
    [p = int((load_ratio - 1) * 100)]: the product cut to an integer
    toward zero (exact on an int ratio, the truncation of the binary64
    product on a float ratio), not rounded to the nearest. *)
Theorem overload_percent_is_truncated
  (data : json) (chunks : report) (members : list json) (m : json) :
  format_sprint_chunks data = Return chunks ->
  sprint_overloaded_list data = Return (JArr members) ->
  In m members ->
  exists (ratio : json) (percent : Z),
    py_get_d m (u "load_ratio") (JInt 1) = Return ratio
    /\ overload_percent ratio = Return percent
    /\ truncated_percent ratio percent
    /\ In (overload_line percent) chunks.
Proof.
  intros H Hl Hm.
  unfold format_sprint_chunks in H.
  step H as summary eqn E1. step H as flow eqn E2. step H as team eqn E3.
  step H as actions eqn E4. step H as head eqn E5. step H as ach eqn E6.
  step H as risks eqn E7. step H as metrics eqn E8.
  step H as workload eqn E9. step H as over eqn E10.
  step H as under eqn E11. step H as bott eqn E12. step H as imm eqn E13.
  step H as short eqn E14. step H as retro eqn E15.
  inversion H as [Hc]. clear H Hc.
  unfold sprint_overloaded_list in Hl. rewrite E3 in Hl. cbn [bind] in Hl.
  rewrite E9 in Hl. cbn [bind] in Hl.
  destruct (@sprint_overloaded_lines workload members over E10 Hl m Hm)
    as (c & Hc & Hin).
  destruct (@overloaded_member_line m c Hc) as (ratio & percent & Hr & Hp & Hline).
  exists ratio, percent. split; [exact Hr|]. split; [exact Hp|].
  split; [apply overload_percent_truncated; exact Hp|].
  do 4 (apply in_or_app; right). apply in_or_app; left. auto.
Qed.
End Overload.

(** C4 (as amended) on a member whose load ratio is 1.256. *)
Lemma overload_percent_of_anna :
  exists chunks : report,
    format_sprint_chunks (rt := demo_runtime (Return (completion DOC_EMPTY)))
      SPRINT_OVERLOAD = Return chunks
    /\ exists (ratio : json) (percent : Z),
         py_get_d MEMBER_ANNA (u "load_ratio") (JInt 1) = Return ratio
         /\ overload_percent ratio = Return percent
         /\ truncated_percent ratio percent
         /\ In (overload_line percent) chunks.
Proof.
  eexists. split; [vm_compute; reflexivity|].
  eapply (@overload_percent_is_truncated
            (demo_runtime (Return (completion DOC_EMPTY))) SPRINT_OVERLOAD _
            [MEMBER_ANNA] MEMBER_ANNA).
  - vm_compute. reflexivity.
  - vm_compute. reflexivity.
  - left. reflexivity.
Defined.

(** C4 as stated fails: for the load ratio 1.256 the report prints 25,
    where [round((1.256 - 1) * 100)] is 26. *)
Lemma overload_percent_is_not_rounded :
  exists chunks : report,
    format_sprint_chunks (rt := demo_runtime (Return (completion DOC_EMPTY)))
      SPRINT_OVERLOAD = Return chunks
    /\ sprint_overloaded_list SPRINT_OVERLOAD = Return (JArr [MEMBER_ANNA])
    /\ py_get_d MEMBER_ANNA (u "load_ratio") (JInt 1)
       = Return (JFloat 1.256%float)
    /\ spec_overload_percent (JFloat 1.256%float) = Return 26%Z
    /\ overload_percent (JFloat 1.256%float) = Return 25%Z
    /\ percent_lines chunks = [25%Z]
    /\ str_in (u "Перегрузка: 25%")
         (report_text (rt := demo_runtime (Return (completion DOC_EMPTY))) chunks)
       = true.
Proof.
  eexists. split; [vm_compute; reflexivity|].
  repeat split; vm_compute; reflexivity.
Qed.

(** C5 (as amended) on the analysis of the end-to-end scenario: the
    bottleneck title is there once, the two other guarded titles are not. *)
Lemma section_titles_of_review_bottleneck :
  exists chunks : report,
    format_sprint_chunks (rt := demo_runtime (Return (completion DOC_EMPTY)))
      SPRINT_REVIEW = Return chunks
    /\ emitted SPRINT_BOTTLENECKS_TITLE chunks = 1%nat
    /\ emitted SPRINT_ACTIONS_TITLE chunks = 0%nat
    /\ emitted SPRINT_RETRO_TITLE chunks = 0%nat.
Proof.
  eexists. split; [vm_compute; reflexivity|].
  match goal with
  | |- emitted _ ?c = _ /\ _ =>
      destruct (proj2 (section_titles_follow_their_lists
                         (rt := demo_runtime (Return (completion DOC_EMPTY))))
                  SPRINT_REVIEW c eq_refl)
        as (b & a & r & Hb & Ha & Hr & Eb & Ea & Er & _)
  end.
  vm_compute in Hb, Ha, Hr.
  inversion Hb; inversion Ha; inversion Hr; subst.
  rewrite Eb, Ea, Er. repeat split.
Defined.

(** C5 as stated fails: the analysis report of an envelope with no task
    (the warning path), and of a payload without [tasks], has no tasks
    title at all. *)
Lemma analysis_report_without_tasks_has_no_title :
  exists empty absent : report,
    format_analysis_chunks (rt := demo_runtime (Return (completion DOC_EMPTY)))
      WARNING_FIELDS = Return empty
    /\ emitted ANALYSIS_TASKS_TITLE empty = 0%nat
    /\ str_in (u "СОЗДАННЫЕ ЗАДАЧИ")
         (report_text (rt := demo_runtime (Return (completion DOC_EMPTY))) empty)
       = false
    /\ format_analysis_chunks (rt := demo_runtime (Return (completion DOC_EMPTY)))
         (JObj []) = Return absent
    /\ emitted ANALYSIS_TASKS_TITLE absent = 0%nat
    /\ str_in (u "СОЗДАННЫЕ ЗАДАЧИ")
         (report_text (rt := demo_runtime (Return (completion DOC_EMPTY))) absent)
       = false.
Proof.
  do 2 eexists.
  split; [vm_compute; reflexivity|].
  split; [vm_compute; reflexivity|].
  split; [vm_compute; reflexivity|].
  split; [vm_compute; reflexivity|].
  split; vm_compute; reflexivity.
Qed.

(** * Further properties *)

(** ** Strings: pieces, split and join, strip *)

Lemma startswith_app (p r : pystr) : startswith p (p ++ r) = true.
Proof.
  induction p as [|x p IH]; simpl; [reflexivity|].
  rewrite N.eqb_refl. exact IH.
Qed.

Lemma startswith_prefix (p s : pystr) :
  startswith p s = true -> exists r : pystr, s = p ++ r.
Proof.
  revert s. induction p as [|x p IH]; intros s H; simpl in H.
  - exists s. reflexivity.
  - destruct s as [|y s]; [discriminate H|].
    apply andb_true_iff in H. destruct H as [Hxy Hp].
    apply N.eqb_eq in Hxy. subst y.
    destruct (IH s Hp) as [r ->]. exists r. reflexivity.
Qed.

Lemma str_in_cons (sub : pystr) (c : char) (r : pystr) :
  str_in sub (c :: r) = startswith sub (c :: r) || str_in sub r.
Proof. reflexivity. Qed.

Lemma str_in_infix (sub s : pystr) : str_in sub s = true <-> infix sub s.
Proof.
  split.
  - induction s as [|c r IH]; intros H.
    + simpl in H. rewrite orb_false_r in H.
      destruct (startswith_prefix _ _ H) as [t Ht]. exists [], t. exact Ht.
    + rewrite str_in_cons in H. apply orb_true_iff in H. destruct H as [H|H].
      * destruct (startswith_prefix _ _ H) as [t Ht]. exists [], t. exact Ht.
      * destruct (IH H) as (a & b & ->). exists (c :: a), b. reflexivity.
  - intros (a & b & ->). induction a as [|c a IH].
    + simpl. destruct (sub ++ b) eqn:E.
      * simpl. rewrite <- E, startswith_app. reflexivity.
      * rewrite str_in_cons, <- E, startswith_app. reflexivity.
    + change ((c :: a) ++ sub ++ b) with (c :: (a ++ sub ++ b)).
      rewrite str_in_cons, IH. apply orb_true_r.
Qed.

Lemma infix_refl (s : pystr) : infix s s.
Proof. exists [], []. rewrite app_nil_r. reflexivity. Qed.

Lemma infix_trans (x y z : pystr) : infix x y -> infix y z -> infix x z.
Proof.
  intros (a & b & ->) (c & d & ->). exists (c ++ a), (b ++ d).
  rewrite <- !app_assoc. reflexivity.
Qed.

(** What does not occur in a text occurs in none of its pieces. *)
Lemma str_in_piece (sub x y : pystr) :
  infix x y -> str_in sub y = false -> str_in sub x = false.
Proof.
  intros Hxy Hy. destruct (str_in sub x) eqn:E; [|reflexivity].
  apply str_in_infix in E.
  assert (str_in sub y = true) as H
    by (apply str_in_infix; eapply infix_trans; eassumption).
  congruence.
Qed.

Lemma lstrip_suffix (s : pystr) : exists a : pystr, s = a ++ lstrip s.
Proof.
  induction s as [|c r IH]; [exists []; reflexivity|].
  simpl. destruct (is_space c).
  - destruct IH as [a Ha]. exists (c :: a). simpl. f_equal. exact Ha.
  - exists []. reflexivity.
Qed.

Lemma rstrip_prefix (s : pystr) : exists b : pystr, s = rstrip s ++ b.
Proof.
  unfold rstrip. destruct (lstrip_suffix (rev s)) as [a Ha].
  exists (rev a). rewrite <- rev_app_distr, <- Ha, rev_involutive. reflexivity.
Qed.

Lemma strip_infix (s : pystr) : infix (strip s) s.
Proof.
  unfold strip. destruct (lstrip_suffix s) as [a Ha].
  destruct (rstrip_prefix (lstrip s)) as [b Hb].
  exists a, b. rewrite <- Hb. exact Ha.
Qed.

Lemma lstrip_no_leading_space (s : pystr) : no_leading_space (lstrip s).
Proof.
  induction s as [|c r IH]; simpl; [exact I|].
  destruct (is_space c) eqn:E; [exact IH|exact E].
Qed.

Lemma lstrip_id (s : pystr) : no_leading_space s -> lstrip s = s.
Proof. destruct s as [|c r]; simpl; [reflexivity|]. intros ->. reflexivity. Qed.

Lemma lstrip_app_nonspace (a : pystr) (c : char) :
  is_space c = false -> lstrip (a ++ [c]) = lstrip a ++ [c].
Proof.
  intros Hc. induction a as [|x a IH]; simpl; [rewrite Hc; reflexivity|].
  destruct (is_space x); [exact IH|reflexivity].
Qed.

(** [rstrip] keeps a first character that is no whitespace. *)
Lemma rstrip_cons_nonspace (c : char) (r : pystr) :
  is_space c = false -> rstrip (c :: r) = c :: rstrip r.
Proof.
  intros Hc. unfold rstrip. simpl rev.
  rewrite lstrip_app_nonspace by exact Hc. rewrite rev_app_distr. reflexivity.
Qed.

Lemma rstrip_no_leading_space (s : pystr) :
  no_leading_space s -> no_leading_space (rstrip s).
Proof.
  destruct s as [|c r]; [intros _; exact I|]. simpl. intros Hc.
  rewrite rstrip_cons_nonspace by exact Hc. exact Hc.
Qed.

Lemma rstrip_idempotent (s : pystr) : rstrip (rstrip s) = rstrip s.
Proof.
  unfold rstrip. rewrite rev_involutive.
  rewrite lstrip_id by apply lstrip_no_leading_space. reflexivity.
Qed.

Lemma strip_idempotent (s : pystr) : strip (strip s) = strip s.
Proof.
  unfold strip.
  rewrite lstrip_id
    by (apply rstrip_no_leading_space, lstrip_no_leading_space).
  apply rstrip_idempotent.
Qed.

(** A text that neither starts nor ends with whitespace is its own strip. *)
Lemma strip_id (s : pystr) :
  no_leading_space s -> no_leading_space (rev s) -> strip s = s.
Proof.
  intros Hl Hr. unfold strip, rstrip.
  rewrite (lstrip_id s) by exact Hl. rewrite lstrip_id by exact Hr.
  apply rev_involutive.
Qed.

Lemma join_cons (sep l : pystr) (x : pystr) (ls : list pystr) :
  join sep (l :: x :: ls) = l ++ sep ++ join sep (x :: ls).
Proof. reflexivity. Qed.

Lemma split_on_nonempty (sep : char) (s : pystr) :
  exists (l : pystr) (ls : list pystr), split_on sep s = l :: ls.
Proof.
  destruct s as [|c r]; simpl; [eauto|].
  destruct (c =? sep)%N; [eauto|].
  destruct (split_on sep r); eauto.
Qed.

(** Joining what was split gives the text back. *)
Lemma join_split_on (sep : char) (s : pystr) :
  join [sep] (split_on sep s) = s.
Proof.
  induction s as [|c r IH]; [reflexivity|].
  destruct (split_on_nonempty sep r) as (l & ls & E).
  simpl. rewrite E in *. destruct (N.eqb_spec c sep) as [->|Hne].
  - rewrite join_cons, IH. reflexivity.
  - rewrite <- IH. destruct ls; reflexivity.
Qed.

Lemma join_pieces (sep : pystr) (ls : list pystr) (l : pystr) :
  In l ls -> infix l (join sep ls).
Proof.
  induction ls as [|x ls IH]; intros H; [destruct H|].
  destruct ls as [|y ls].
  - destruct H as [->|[]]. apply infix_refl.
  - rewrite join_cons. destruct H as [->|H].
    + exists [], (sep ++ join sep (y :: ls)). reflexivity.
    + destruct (IH H) as (a & b & Hab). exists (x ++ sep ++ a), b.
      rewrite Hab, <- !app_assoc. reflexivity.
Qed.

(** Every line of a text is a piece of it. *)
Lemma split_on_pieces (sep : char) (s l : pystr) :
  In l (split_on sep s) -> infix l s.
Proof.
  intros H. pose proof (@join_pieces [sep] _ _ H) as Hp.
  rewrite join_split_on in Hp. exact Hp.
Qed.

Lemma pystr_eqb_eq (a b : pystr) : pystr_eqb a b = true -> a = b.
Proof.
  revert b. induction a as [|x a IH]; intros [|y b] H; simpl in H;
    try discriminate H; [reflexivity|].
  apply andb_true_iff in H. destruct H as [Hxy Hab].
  apply N.eqb_eq in Hxy. rewrite (IH _ Hab), Hxy. reflexivity.
Qed.

Lemma startswith_str_in (p s : pystr) :
  startswith p s = true -> str_in p s = true.
Proof.
  intros H. apply str_in_infix. destruct (startswith_prefix _ _ H) as [r ->].
  exists [], r. reflexivity.
Qed.

Lemma split_on_snoc (sep : char) (s l : pystr) :
  ~ In sep l -> split_on sep (s ++ sep :: l) = split_on sep s ++ [l].
Proof.
  intros Hl. induction s as [|c r IH]; simpl.
  - rewrite N.eqb_refl, (split_on_line sep l Hl). reflexivity.
  - rewrite IH. destruct (c =? sep)%N; [reflexivity|].
    destruct (split_on_nonempty sep r) as (l0 & ls & ->). reflexivity.
Qed.

(** ** extract_json_from_markdown: what it keeps and what it removes *)

Lemma cut_comment_without (line : pystr) :
  str_in COMMENT line = false -> cut_comment line = line.
Proof. intros H. unfold cut_comment. rewrite H. reflexivity. Qed.

Lemma map_cut_comment_without (ls : list pystr) :
  (forall l : pystr, In l ls -> str_in COMMENT l = false) ->
  List.map cut_comment ls = ls.
Proof.
  induction ls as [|l ls IH]; intros H; [reflexivity|].
  simpl. rewrite cut_comment_without by (apply H; left; reflexivity).
  rewrite IH by (intros x Hx; apply H; right; exact Hx). reflexivity.
Qed.

(** Lines without fence marker are all kept. *)
Lemma unfenced_lines_without_fence (text : pystr) :
  str_in FENCE text = false ->
  unfenced_lines text = split_on 10%N (strip text).
Proof.
  intros Hf. unfold unfenced_lines.
  assert (forall l : pystr,
             In l (split_on 10%N (strip text)) -> str_in FENCE (strip l) = false)
    as Hl.
  { intros l Hin. apply (@str_in_piece FENCE (strip l) text); [|exact Hf].
    eapply infix_trans; [apply strip_infix|].
    eapply infix_trans; [eapply split_on_pieces; exact Hin|apply strip_infix]. }
  destruct (split_on_nonempty 10%N (strip text)) as (l0 & ls & E).
  rewrite E in *.
  assert (drop_first_fence (l0 :: ls) = l0 :: ls) as ->.
  { unfold drop_first_fence.
    destruct (startswith FENCE (strip l0)) eqn:Es; [|reflexivity].
    apply startswith_str_in in Es.
    rewrite (Hl l0 (or_introl eq_refl)) in Es. discriminate Es. }
  unfold drop_last_fence.
  destruct (pystr_eqb (strip (last (l0 :: ls) [])) FENCE) eqn:Ee; [|reflexivity].
  apply pystr_eqb_eq in Ee.
  assert (In (last (l0 :: ls) []) (l0 :: ls)) as Hin.
  { destruct (exists_last (l := l0 :: ls) ltac:(discriminate)) as (xs & x & Hx).
    rewrite Hx, last_last. apply in_or_app. right. left. reflexivity. }
  pose proof (Hl _ Hin) as Hn. rewrite Ee in Hn. discriminate Hn.
Qed.

Lemma extract_json_text_plain (t : pystr) :
  str_in FENCE t = false -> str_in COMMENT t = false ->
  extract_json_text t = strip t.
Proof.
  intros Hf Hc. rewrite extract_json_text_lines.
  rewrite (unfenced_lines_without_fence t Hf).
  destruct (split_on_nonempty 10%N (strip t)) as (l0 & ls & E).
  rewrite E, <- E.
  rewrite map_cut_comment_without.
  - unfold NL. rewrite join_split_on. apply strip_idempotent.
  - intros l Hin. apply (@str_in_piece COMMENT l t); [|exact Hc].
    eapply infix_trans; [eapply split_on_pieces; exact Hin|apply strip_infix].
Qed.

(** X1: a text with no fence marker and no [//] is only stripped, and
    the extractor is idempotent on it. *)
Theorem extract_plain_text (text : pystr) :
  str_in FENCE text = false ->
  str_in COMMENT text = false ->
  extract_json_text text = strip text
  /\ extract_json_text (extract_json_text text) = extract_json_text text.
Proof.
  intros Hf Hc. split; [exact (extract_json_text_plain text Hf Hc)|].
  rewrite (extract_json_text_plain text Hf Hc). rewrite extract_json_text_plain.
  - apply strip_idempotent.
  - exact (str_in_piece FENCE (strip_infix text) Hf).
  - exact (str_in_piece COMMENT (strip_infix text) Hc).
Qed.





Lemma fenced_strip (tag body : pystr) :
  strip (fenced tag body) = fenced tag body.
Proof.
  apply strip_id.
  - reflexivity.
  - unfold fenced. rewrite !rev_app_distr. reflexivity.
Qed.

Lemma fenced_lines (tag body : pystr) :
  ~ In 10%N tag ->
  split_on 10%N (fenced tag body)
  = (FENCE ++ tag) :: split_on 10%N body ++ [FENCE].
Proof.
  intros Ht. unfold fenced, NL.
  change (FENCE ++ tag ++ [10%N] ++ body ++ [10%N] ++ FENCE)
    with (FENCE ++ tag ++ 10%N :: body ++ 10%N :: FENCE).
  rewrite app_assoc. rewrite split_on_app.
  - rewrite split_on_snoc; [reflexivity|].
    intros H. repeat (destruct H as [H|H]; [discriminate H|]). exact H.
  - intros H. apply in_app_or in H. destruct H as [H|H]; [|exact (Ht H)].
    repeat (destruct H as [H|H]; [discriminate H|]). exact H.
Qed.

(** X2: a fenced block, with or without a language tag after the
    opening fence, whose body has no [//], comes out as its body,
    stripped. *)
Theorem extract_fenced_block (tag body : pystr) :
  ~ In 10%N tag ->
  str_in COMMENT body = false ->
  extract_json_text (fenced tag body) = strip body.
Proof.
  intros Ht Hc. rewrite extract_json_text_lines.
  assert (unfenced_lines (fenced tag body) = split_on 10%N body) as ->.
  { unfold unfenced_lines. rewrite fenced_strip, (@fenced_lines tag body Ht).
    assert (drop_first_fence ((FENCE ++ tag) :: split_on 10%N body ++ [FENCE])
            = split_on 10%N body ++ [FENCE]) as ->.
    { unfold drop_first_fence.
      assert (startswith FENCE (strip (FENCE ++ tag)) = true) as ->;
        [|reflexivity].
      unfold strip. rewrite lstrip_id by reflexivity.
      unfold FENCE. cbn [app].
      rewrite !rstrip_cons_nonspace by reflexivity. reflexivity. }
    destruct (split_on_nonempty 10%N body) as (l0 & ls & ->).
    unfold drop_last_fence. cbn [app].
    change (l0 :: ls ++ [FENCE]) with ((l0 :: ls) ++ [FENCE]).
    rewrite last_last, removelast_last. reflexivity. }
  destruct (split_on_nonempty 10%N body) as (l0 & ls & E).
  rewrite E, <- E. rewrite map_cut_comment_without.
  - unfold NL. rewrite join_split_on. reflexivity.
  - intros l Hin. apply (@str_in_piece COMMENT l body); [|exact Hc].
    eapply split_on_pieces; exact Hin.
Qed.

Lemma cut_comment_cons (c : char) (r : pystr) :
  cut_comment (c :: r)
  = if startswith COMMENT (c :: r) then [] else c :: cut_comment r.
Proof.
  unfold cut_comment. rewrite str_in_cons.
  cbn [str_find]. destruct (startswith COMMENT (c :: r)) eqn:Es.
  - reflexivity.
  - cbn [orb]. destruct (str_in COMMENT r) eqn:Er; [|reflexivity].
    destruct (str_find_spec _ _ Er) as (n & Hn & _). rewrite Hn.
    destruct (Z.ltb_spec (Z.of_nat n) 0) as [Hlt|Hge]; [lia|].
    unfold slice_to.
    destruct (Z.ltb_spec (Z.of_nat n + 1) 0) as [Hlt'|_]; [lia|].
    destruct (Z.ltb_spec (Z.of_nat n) 0) as [Hlt'|_]; [lia|].
    replace (Z.to_nat (Z.of_nat n + 1)) with (S n) by lia.
    rewrite Nat2Z.id. reflexivity.
Qed.

(** What is left of a line holds no [//]. *)
Lemma cut_comment_clean (line : pystr) :
  str_in COMMENT (cut_comment line) = false.
Proof.
  induction line as [|c r IH]; [reflexivity|].
  rewrite cut_comment_cons.
  destruct (startswith COMMENT (c :: r)) eqn:Es; [reflexivity|].
  rewrite str_in_cons, IH, orb_false_r.
  destruct r as [|y r']; [exact Es|].
  rewrite cut_comment_cons in *.
  destruct (startswith COMMENT (y :: r')).
  - unfold COMMENT. simpl. apply andb_false_r.
  - unfold COMMENT in *. simpl in *. exact Es.
Qed.

Lemma str_in_comment_lines (a b : pystr) :
  str_in COMMENT (a ++ 10%N :: b) = str_in COMMENT a || str_in COMMENT b.
Proof.
  induction a as [|x a IH].
  - reflexivity.
  - change ((x :: a) ++ 10%N :: b) with (x :: (a ++ 10%N :: b)).
    rewrite !str_in_cons, IH, orb_assoc. f_equal. f_equal.
    destruct a as [|y a]; [|reflexivity].
    unfold COMMENT. simpl. rewrite !andb_false_r. reflexivity.
Qed.

Lemma join_clean (ls : list pystr) :
  (forall l : pystr, In l ls -> str_in COMMENT l = false) ->
  str_in COMMENT (join NL ls) = false.
Proof.
  induction ls as [|l ls IH]; intros H; [reflexivity|].
  destruct ls as [|x ls].
  - apply H. left. reflexivity.
  - rewrite join_cons. unfold NL at 1.
    change (l ++ [10%N] ++ join NL (x :: ls))
      with (l ++ 10%N :: join NL (x :: ls)).
    rewrite str_in_comment_lines, (H l (or_introl eq_refl)), IH; [reflexivity|].
    intros y Hy. apply H. right. exact Hy.
Qed.

(** X3: whatever the input, the extracted text holds no [//] at all:
    every URL with a scheme in a JSON string is cut. *)
Theorem extract_leaves_no_comment (text : pystr) :
  str_in COMMENT (extract_json_text text) = false.
Proof.
  rewrite extract_json_text_lines.
  eapply str_in_piece; [apply strip_infix|].
  apply join_clean. intros l Hl. apply in_map_iff in Hl.
  destruct Hl as (x & <- & _). apply cut_comment_clean.
Qed.

(** X4: the extracted text neither starts nor ends with whitespace, so
    stripping it again changes nothing. *)
Theorem extract_is_stripped (text : pystr) :
  no_leading_space (extract_json_text text)
  /\ no_leading_space (rev (extract_json_text text))
  /\ strip (extract_json_text text) = extract_json_text text.
Proof.
  rewrite extract_json_text_lines.
  match goal with |- context [strip ?s] => generalize s end. intros s.
  split; [|split].
  - unfold strip. apply rstrip_no_leading_space, lstrip_no_leading_space.
  - unfold strip, rstrip. rewrite rev_involutive. apply lstrip_no_leading_space.
  - apply strip_idempotent.
Qed.

(** ** What the program sends, and what it leaves alone *)

Lemma sends_refl (P : request -> Prop) (w : World) : sends P w w.
Proof.
  split; [reflexivity|]. split; [reflexivity|].
  exists []. rewrite app_nil_r. split; [reflexivity|constructor].
Qed.

Lemma sends_trans (P : request -> Prop) (w1 w2 w3 : World) :
  sends P w1 w2 -> sends P w2 w3 -> sends P w1 w3.
Proof.
  intros (E1 & C1 & m1 & S1 & F1) (E2 & C2 & m2 & S2 & F2).
  split; [congruence|]. split; [congruence|].
  exists (m1 ++ m2). split; [rewrite S2, S1, app_assoc; reflexivity|].
  apply Forall_app. split; assumption.
Qed.

Lemma sends_weaken (P Q : request -> Prop) (w w' : World) :
  (forall q : request, P q -> Q q) -> sends P w w' -> sends Q w w'.
Proof.
  intros H (E & C & m & S & F). split; [exact E|]. split; [exact C|].
  exists m. split; [exact S|]. eapply Forall_impl; [exact H|exact F].
Qed.

Lemma only_sends_lift {A : Type} (P : request -> Prop) (m : result A) :
  only_sends P (lift m).
Proof. intros w w' r H. inversion H. apply sends_refl. Qed.

Lemma only_sends_ret {A : Type} (P : request -> Prop) (a : A) :
  only_sends P (io_ret a).
Proof. intros w w' r H. inversion H. apply sends_refl. Qed.

Lemma only_sends_bind {A B : Type} (P : request -> Prop)
  (m : io A) (k : A -> io B) :
  only_sends P m -> (forall a : A, only_sends P (k a)) ->
  only_sends P (io_bind m k).
Proof.
  intros Hm Hk w w' r H. unfold io_bind in H.
  destruct (m w) as [w1 [a|e]] eqn:E.
  - eapply sends_trans; [eapply Hm; exact E|eapply Hk; exact H].
  - inversion H; subst. eapply Hm; exact E.
Qed.

Lemma only_sends_try_except {A : Type} (P : request -> Prop)
  (m : io A) (h : exn -> io A) :
  only_sends P m -> (forall e : exn, only_sends P (h e)) ->
  only_sends P (try_except m h).
Proof.
  intros Hm Hh w w' r H. unfold try_except in H.
  destruct (m w) as [w1 [a|e]] eqn:E.
  - inversion H; subst. eapply Hm; exact E.
  - eapply sends_trans; [eapply Hm; exact E|eapply Hh; exact H].
Qed.

Lemma only_sends_try_except_decode {A : Type} (P : request -> Prop)
  (m : io A) (h : exn -> io A) :
  only_sends P m -> (forall e : exn, only_sends P (h e)) ->
  only_sends P (try_except_decode m h).
Proof.
  intros Hm Hh w w' r H. unfold try_except_decode in H.
  destruct (m w) as [w1 [a|e]] eqn:E.
  - inversion H; subst. eapply Hm; exact E.
  - destruct (exn_class_eqb (exn_kind e) JSONDecodeError).
    + eapply sends_trans; [eapply Hm; exact E|eapply Hh; exact H].
    + inversion H; subst. eapply Hm; exact E.
Qed.

Section Requests.
Context {rt : Runtime}.

Lemma http_post_sends (P : request -> Prop) (q : request) :
  P q -> only_sends P (http_post q).
Proof.
  intros Hq w w' r H. unfold http_post in H. inversion H; subst.
  split; [reflexivity|]. split; [reflexivity|].
  exists [q]. split; [reflexivity|]. constructor; [exact Hq|constructor].
Qed.

Lemma create_yougile_task_sends (task : json) (column : pystr) :
  only_sends is_task_request (create_yougile_task task column).
Proof.
  intros w w' r H. unfold create_yougile_task in H.
  destruct (environ_get w (u "YOUGILE_API_KEY")) as [| | | |[|c s]| |];
    try (inversion H; apply sends_refl).
  unfold io_bind, lift at 1 in H.
  destruct (task_payload task column) as [payload|e];
    [|inversion H; apply sends_refl].
  destruct (http_post
              (mkRequest (YOUGILE_API_BASE ++ u "/tasks") (c :: s) payload) w)
    as [w1 [created|e]] eqn:Ep.
  - assert (w' = w1) as ->.
    { unfold lift, io_ret in H.
      destruct (py_get created (u "id")); inversion H; reflexivity. }
    eapply http_post_sends; [|exact Ep].
    unfold is_task_request, TASKS_URL. cbn [req_url]. reflexivity.
  - inversion H; subst. eapply http_post_sends; [|exact Ep].
    unfold is_task_request, TASKS_URL. cbn [req_url]. reflexivity.
Qed.

Lemma create_one_sends (column : pystr) (task : json) :
  only_sends is_task_request (create_one column task).
Proof.
  unfold create_one. apply only_sends_try_except.
  - unfold try_create. apply only_sends_bind.
    + apply create_yougile_task_sends.
    + intros y. apply only_sends_lift.
  - intros e. apply only_sends_lift.
Qed.

Lemma tasks_loop_sends (column : pystr) (tasks : list json) :
  forall acc : list json,
    only_sends is_task_request (tasks_loop column tasks acc).
Proof.
  induction tasks as [|task rest IH]; intros acc; cbn [tasks_loop].
  - apply only_sends_ret.
  - apply only_sends_bind; [apply create_one_sends|]. intros record. apply IH.
Qed.

Lemma epics_loop_sends (column : pystr) (epics : list json) :
  forall acc : list json,
    only_sends is_task_request (epics_loop column epics acc).
Proof.
  induction epics as [|epic rest IH]; intros acc; cbn [epics_loop].
  - apply only_sends_ret.
  - apply only_sends_bind; [apply only_sends_lift|]. intros tasks.
    apply only_sends_bind; [apply tasks_loop_sends|]. intros acc'. apply IH.
Qed.

(** The task-creation flow sends task requests and nothing else. *)
Lemma process_analysis_request_sends (gpt_response : json) :
  only_sends is_task_request (process_analysis_request gpt_response).
Proof.
  intros w w' r H. unfold process_analysis_request in H.
  revert H. generalize (environ_get w (u "YOUGILE_COLUMN_ID")). intros column.
  revert w w' r.
  change (only_sends is_task_request
            (try_except_decode
               (clean_json <~ lift (extract_json_from_markdown gpt_response) ;;
                parsed_response <~ lift (json_loads clean_json) ;;
                match column with
                | JStr ((_ :: _) as column0) =>
                    epics <~ lift (l <- py_get_d parsed_response (u "epics")
                                          (JArr []) ;;
                                   py_iter l) ;;
                    created_tasks <~ epics_loop column0 epics [] ;;
                    lift (success_envelope parsed_response created_tasks)
                | _ => lift (warning_envelope parsed_response)
                end)
               (fun e =>
                  lift (decode_error_envelope (JStr (u "analysis"))
                          gpt_response e)))).
  apply only_sends_try_except_decode; [|intros e; apply only_sends_lift].
  apply only_sends_bind; [apply only_sends_lift|]. intros clean.
  apply only_sends_bind; [apply only_sends_lift|]. intros parsed.
  destruct column as [| | | |[|c s]| |]; try apply only_sends_lift.
  apply only_sends_bind; [apply only_sends_lift|]. intros epics.
  apply only_sends_bind; [apply epics_loop_sends|]. intros created.
  apply only_sends_lift.
Qed.

(** The generic report flow is pure: it leaves the world as it is. *)
Lemma process_other_request_pure (gpt_response request_type : json)
  (w w' : World) (r : result json) :
  process_other_request gpt_response request_type w = (w', r) -> w' = w.
Proof.
  unfold process_other_request, try_except_decode, lift. intros H.
  match type of H with
  | context [bind ?m ?k] => destruct (bind m k) as [a|e]
  end.
  - inversion H. reflexivity.
  - destruct (exn_class_eqb (exn_kind e) JSONDecodeError);
      inversion H; reflexivity.
Qed.

(** [call_yandex_gpt] sends one completion request when both keys are
    set, whatever the answer, and none otherwise. *)
Lemma call_yandex_gpt_sends (prompt : pystr) (w w' : World) (r : result json) :
  call_yandex_gpt prompt w = (w', r) ->
  environ w' = environ w
  /\ PROMPTS w' = PROMPTS w
  /\ ((w' = w /\ exists e : exn, r = Raise e /\ exn_kind e = ValueError)
      \/ exists key folder : pystr,
           environ w (u "YANDEX_API_KEY") = Some key
           /\ environ w (u "YANDEX_FOLDER_ID") = Some folder
           /\ sent w' = sent w ++ [gpt_request key folder prompt]).
Proof.
  unfold call_yandex_gpt, environ_get. intros H.
  destruct (environ w (u "YANDEX_API_KEY")) as [[|c s]|] eqn:Ek;
    try (inversion H; subst; repeat split; left; split;
         [reflexivity|eexists; split; reflexivity]).
  destruct (environ w (u "YANDEX_FOLDER_ID")) as [[|c' s']|] eqn:Ef;
    try (inversion H; subst; repeat split; left; split;
         [reflexivity|eexists; split; reflexivity]).
  unfold io_bind, http_post, lift in H.
  destruct (requests_post (sent w) (gpt_request (c :: s) (c' :: s') prompt));
    inversion H; subst; cbn [environ PROMPTS sent];
    (split; [reflexivity|]); (split; [reflexivity|]);
    right; exists (c :: s), (c' :: s'); repeat split.
Qed.

(** [get_prompt] touches the prompt cache only, and only when it holds
    nothing yet. *)
Lemma get_prompt_world (key : pystr) (w w' : World) (r : result json) :
  get_prompt key w = (w', r) ->
  environ w' = environ w
  /\ sent w' = sent w
  /\ (py_truthy (PROMPTS w) = true -> w' = w).
Proof.
  unfold get_prompt, io_bind. intros H.
  destruct (py_truthy (PROMPTS w)) eqn:Et.
  - unfold io_ret in H. inversion H. repeat split.
  - unfold load_prompts in H. destruct read_prompts_file as [p|e].
    + inversion H. repeat split. discriminate.
    + inversion H. repeat split.
Qed.
End Requests.

Lemma io_bind_cases {A B : Type} (m : io A) (k : A -> io B)
  (w w' : World) (r : result B) :
  io_bind m k w = (w', r) ->
  (exists (w1 : World) (a : A), m w = (w1, Return a) /\ k a w1 = (w', r))
  \/ (exists e : exn, m w = (w', Raise e) /\ r = Raise e).
Proof.
  unfold io_bind. destruct (m w) as [w1 [a|e]]; intros H.
  - left. eauto.
  - right. inversion H. eauto.
Qed.

Lemma lift_cases {A : Type} (m : result A) (w w' : World) (r : result A) :
  lift m w = (w', r) -> w' = w /\ r = m.
Proof. unfold lift. intros H. inversion H. auto. Qed.

Lemma request_history_refl (w : World) : request_history w w [] [].
Proof.
  unfold request_history. rewrite app_nil_r.
  repeat split; auto.
Qed.

Lemma request_history_gpt (w w' : World) (q : request) (tasks : list request) :
  environ w' = environ w -> PROMPTS w' = PROMPTS w ->
  sent w' = sent w ++ [q] ++ tasks ->
  is_gpt_request q -> Forall is_task_request tasks ->
  request_history w w' [q] tasks.
Proof.
  intros E P S G T. unfold request_history.
  split; [exact E|]. split; [intros _; exact P|]. split; [exact S|].
  split; [simpl; lia|]. split; [constructor; [exact G|constructor]|].
  split; [exact T|discriminate].
Qed.

Section MainRequests.
Context {rt : Runtime}.

Lemma main_body_requests (input_data : json) (w w' : World) (r : result reply) :
  main_body input_data w = (w', r) ->
  exists gpt tasks : list request,
    request_history w w' gpt tasks
    /\ (forall t : json,
           py_get_d input_data (u "type") (JStr (u "analysis")) = Return t ->
           py_eq_str t (u "analysis") = false -> tasks = []).
Proof.
  unfold main_body. intros H.
  assert (exists gpt tasks : list request,
             request_history w w gpt tasks
             /\ (forall t : json,
                    py_get_d input_data (u "type") (JStr (u "analysis"))
                    = Return t ->
                    py_eq_str t (u "analysis") = false -> tasks = [])) as Hstay
    by (exists [], []; split; [apply request_history_refl|reflexivity]).
  apply io_bind_cases in H.
  destruct H as [(w1 & t & H1 & H)|(e & H1 & ->)];
    apply lift_cases in H1; destruct H1 as [-> H1]; [|exact Hstay].
  apply io_bind_cases in H.
  destruct H as [(w2 & text & H2 & H)|(e & H2 & ->)];
    apply lift_cases in H2; destruct H2 as [-> H2]; [|exact Hstay].
  destruct (negb (py_truthy text)); [inversion H; subst; exact Hstay|].
  apply io_bind_cases in H.
  destruct H as [(w3 & key & H3 & H)|(e & H3 & ->)];
    apply lift_cases in H3; destruct H3 as [-> H3]; [|exact Hstay].
  clear Hstay.
  assert (forall w1 : World,
             environ w1 = environ w -> sent w1 = sent w ->
             (py_truthy (PROMPTS w) = true -> w1 = w) ->
             forall gpt tasks : list request,
               request_history w1 w' gpt tasks ->
               PROMPTS w' = PROMPTS w1 ->
               request_history w w' gpt tasks) as Hfrom.
  { intros w1 He Hs Hc gpt tasks (E & _ & S & L & G & T & N) Hp.
    unfold request_history. rewrite E, S, He, Hs.
    repeat split; auto. intros Ht. rewrite Hp, (Hc Ht). reflexivity. }
  apply io_bind_cases in H.
  destruct H as [(w4 & prompt & H4 & H)|(e & H4 & ->)];
    apply get_prompt_world in H4; destruct H4 as (E4 & S4 & C4).
  2:{ exists [], []. split; [|reflexivity].
      eapply Hfrom; eauto using request_history_refl. }
  destruct (negb (py_truthy prompt)).
  { inversion H; subst. exists [], []. split; [|reflexivity].
    eapply Hfrom; eauto using request_history_refl. }
  apply io_bind_cases in H.
  destruct H as [(w4' & composed & Hc & H)|(e & Hc & ->)];
    apply lift_cases in Hc; destruct Hc as [-> Hc].
  2:{ exists [], []. split; [|reflexivity].
      apply (Hfrom w4 E4 S4 C4); [apply request_history_refl|reflexivity]. }
  apply io_bind_cases in H.
  destruct H as [(w5 & g & H5 & H)|(e & H5 & ->)];
    apply call_yandex_gpt_sends in H5;
    destruct H5 as (E5 & P5 & [(-> & e' & He' & _)|(k & f & _ & _ & S5)]).
  - discriminate He'.
  - (* the completion returned: the flow runs from [w5] *)
    assert (is_gpt_request (gpt_request k f composed)) as Hg
      by (unfold is_gpt_request, gpt_request; cbn [req_url]; reflexivity).
    apply io_bind_cases in H.
    assert (exists w6 : World,
               w' = w6
               /\ (exists r6 : result json, route t g w5 = (w6, r6))) as Hr.
    { destruct H as [(w6 & envelope & Hr & H)|(e & Hr & _)].
      - inversion H; subst. eauto.
      - eauto. }
    clear H. destruct Hr as (w6 & -> & r6 & Hr).
    unfold route in Hr. destruct (py_eq_str t (u "analysis")) eqn:Ea.
    + apply process_analysis_request_sends in Hr.
      destruct Hr as (E6 & P6 & tasks & S6 & F6).
      exists [gpt_request k f composed], tasks. split.
      * apply (Hfrom w4 E4 S4 C4); [|congruence].
        apply request_history_gpt; try congruence; try assumption.
        rewrite S6, S5, <- app_assoc. reflexivity.
      * intros t' Ht' Hn. rewrite <- H1 in Ht'. inversion Ht'; subst. congruence.
    + apply process_other_request_pure in Hr. subst w6.
      exists [gpt_request k f composed], []. split.
      * apply (Hfrom w4 E4 S4 C4); [|congruence].
        apply request_history_gpt; try congruence; try assumption.
        constructor.
      * reflexivity.
  - exists [], []. split; [|reflexivity].
    apply (Hfrom w4 E4 S4 C4); [apply request_history_refl|reflexivity].
  - exists [gpt_request k f composed], []. split; [|reflexivity].
    apply (Hfrom w4 E4 S4 C4); [|congruence].
    apply request_history_gpt; try congruence; try assumption.
    + unfold is_gpt_request, gpt_request; cbn [req_url]; reflexivity.
    + constructor.
Qed.
End MainRequests.

Section MainHistory.
Context {rt : Runtime}.

(** X5: whatever the request and whatever the remote services answer,
    [main] leaves the environment alone, does not reload a loaded prompt
    table, and sends at most one completion request followed by task
    requests only; it sends no task request without a completion request
    before it, and none at all when the request type is not [analysis]. *)
Theorem main_request_history (input_data : json) (w : World) :
  exists gpt tasks : list request,
    request_history w (fst (main input_data w)) gpt tasks
    /\ (forall t : json,
           py_get_d input_data (u "type") (JStr (u "analysis")) = Return t ->
           py_eq_str t (u "analysis") = false -> tasks = []).
Proof.
  unfold main, main_reply, io_bind, try_except.
  destruct (main_body input_data w) as [w1 r] eqn:H.
  apply main_body_requests in H.
  destruct r as [a|e]; exact H.
Qed.

(** X6: the entry point adds one step of its own, the log line that
    formats the request before [main] is called.  On every event whose
    normalised request that line can format, it answers with status code
    200 and, as body, exactly what [main] returns on the normalised
    event, and it leaves the world as [main] leaves it; on an event whose
    request the line cannot format, [main] is not called, the world is
    unchanged and the answer is status code 500 with the error envelope
    that carries the text of the exception. *)
Theorem handler_is_main_on_event_input (event : json) (w : World) :
  match py_str (event_input event) with
  | Return _ =>
      exists (w' : World) (body : pystr),
        main (event_input event) w = (w', Return body)
        /\ handler event w = (w', Return (http_response 200 body))
  | Raise e =>
      handler event w
      = (w, Return (http_response 500
                      (json_dumps (error_envelope (exn_str e)))))
  end.
Proof.
  destruct (py_str (event_input event)) as [logged|e] eqn:Hl.
  - destruct (main_returns (event_input event) w) as (w' & r & Hm & _).
    exists w', (dumps_reply r). split; [exact Hm|].
    exact (handler_after_log event w Hl Hm).
  - exact (handler_log_raises event w Hl).
Qed.
End MainHistory.

(** ** The batch, entry by entry *)

Section BatchEntries.
Context {rt : Runtime}.
Variable column : pystr.

Lemma tasks_loop_app (a b : list json) :
  forall (acc : list json) (w : World),
    tasks_loop column (a ++ b) acc w
    = io_bind (tasks_loop column a acc) (tasks_loop column b) w.
Proof.
  induction a as [|t a IH]; intros acc w; [reflexivity|].
  cbn [app tasks_loop]. unfold io_bind.
  destruct (create_one column t w) as [w1 [r|e]]; [|reflexivity].
  rewrite IH. reflexivity.
Qed.

(** The two nested loops visit the entries of [epics[].tasks[]] as one
    list. *)
Lemma epics_loop_flat (epics : list json) :
  forall (acc entries : list json) (w : World),
    for_each (fun epic => l <- py_get_d epic (u "tasks") (JArr []) ;; py_iter l)
             epics = Return entries ->
    epics_loop column epics acc w = tasks_loop column entries acc w.
Proof.
  induction epics as [|epic rest IH]; intros acc entries w He.
  - inversion He; subst. reflexivity.
  - cbn [for_each] in He.
    destruct (l <- py_get_d epic (u "tasks") (JArr []) ;; py_iter l)
      as [tasks|] eqn:Et; [|discriminate He].
    cbn [bind] in He.
    destruct (for_each _ rest) as [more|] eqn:Er; [|discriminate He].
    cbn [bind] in He. inversion He; subst. clear He.
    cbn [epics_loop]. unfold io_bind at 1, lift at 1. rewrite Et.
    rewrite tasks_loop_app. unfold io_bind.
    destruct (tasks_loop column tasks acc w) as [w1 [acc1|e]]; [|reflexivity].
    apply IH. reflexivity.
Qed.

(** An entry that is not a dict: [task.get] raises inside the handler of
    the inner [try], so the round raises, whatever the key. *)
Lemma create_one_non_dict (bad : json) (w : World) :
  is_dict bad = false ->
  exists e : exn,
    create_one column bad w = (w, Raise e) /\ exn_kind e = AttributeError.
Proof.
  intros Hb.
  unfold create_one, try_except, try_create, io_bind, create_yougile_task,
    environ_get, lift.
  destruct bad; try discriminate Hb;
    destruct (environ w (u "YOUGILE_API_KEY")) as [[|c0 s0]|];
    eexists; split; reflexivity.
Qed.

Lemma create_one_without_key (fields : list (pystr * json)) (w : World) :
  py_truthy (environ_get w (u "YOUGILE_API_KEY")) = false ->
  create_one column (JObj fields) w
  = (w, failed_record (JObj fields) NO_YOUGILE_KEY).
Proof.
  unfold create_one, try_except, try_create, io_bind, create_yougile_task,
    environ_get, lift.
  destruct (environ w (u "YOUGILE_API_KEY")) as [[|c s]|]; intros H;
    try discriminate H; reflexivity.
Qed.

Lemma tasks_loop_without_key (tasks : list json) :
  forall (acc : list json) (w : World),
    py_truthy (environ_get w (u "YOUGILE_API_KEY")) = false ->
    forallb is_dict tasks = true ->
    exists records : list json,
      tasks_loop column tasks acc w = (w, Return (acc ++ records))
      /\ Forall2 (fun task record =>
                    failed_record task NO_YOUGILE_KEY = Return record)
                 tasks records
      /\ forallb is_dict records = true
      /\ count_status (u "created") records = Return 0%Z
      /\ count_status (u "failed") records
         = Return (Z.of_nat (List.length tasks)).
Proof.
  induction tasks as [|task rest IH]; intros acc w Hk Hd.
  - exists []. rewrite app_nil_r. repeat split. constructor.
  - simpl in Hd. apply andb_true_iff in Hd. destruct Hd as [Ht Hrest].
    destruct task as [| | | | | |fields]; try discriminate Ht.
    destruct (IH (acc ++ [JObj [(u "task_id", dict_get fields (u "task_id") JNull);
                               (u "title", dict_get fields (u "title") JNull);
                               (u "status", JStr (u "failed"));
                               (u "error", JStr (exn_str NO_YOUGILE_KEY))]])
                 w Hk Hrest)
      as (records & Hloop & H2 & Hdict & Hc & Hf).
    eexists (_ :: records). split; [|split; [|split; [|split]]].
    + cbn [tasks_loop]. unfold io_bind at 1.
      rewrite (create_one_without_key fields w Hk).
      cbn [failed_record py_get py_get_d bind].
      rewrite Hloop, <- app_assoc. reflexivity.
    + constructor; [reflexivity|exact H2].
    + cbn [forallb is_dict]. exact Hdict.
    + cbn [count_status]. rewrite Hc. reflexivity.
    + cbn [count_status]. rewrite Hf.
      change (Return (Z.of_nat (List.length rest) + 1)%Z
              = Return (Z.of_nat (S (List.length rest)))).
      f_equal. lia.
Qed.

(** The records of a batch over dict entries stand for the entries, in
    their order. *)
Lemma tasks_loop_entries (tasks : list json) :
  forall (acc : list json) (w : World),
    forallb is_dict tasks = true ->
    exists records : list json,
      tasks_loop column tasks acc w
      = (creations_world column tasks w, Return (acc ++ records))
      /\ Forall2 record_of_entry tasks records.
Proof.
  induction tasks as [|task rest IH]; intros acc w Hd.
  - exists []. rewrite app_nil_r. split; [reflexivity|constructor].
  - simpl in Hd. apply andb_true_iff in Hd. destruct Hd as [Ht Hrest].
    destruct task as [| | | | | |fields]; try discriminate Ht.
    pose proof (create_one_dict column fields w) as Hone.
    destruct (create_yougile_task (JObj fields) column w) as [w1 y] eqn:Ey.
    cbn [fst snd] in Hone.
    match type of Hone with
    | _ = (_, Return ?r) =>
        destruct (IH (acc ++ [r]) w1 Hrest) as (records & Hloop & H2);
        exists (r :: records)
    end.
    split.
    + cbn [tasks_loop creations_world]. unfold io_bind at 1.
      rewrite Hone, Ey. cbn [fst]. rewrite Hloop, <- app_assoc. reflexivity.
    + constructor; [|exact H2].
      destruct y as [y|e]; split; reflexivity.
Qed.
End BatchEntries.

Section BatchFlow.
Context {rt : Runtime}.

(** With the analysis parsed and a column configured, the flow is the
    batch over the entries followed by the success envelope. *)
Lemma process_analysis_request_batch
  (raw column : pystr) (parsed : json) (entries : list json) (w : World) :
  json_loads (extract_json_text raw) = Return parsed ->
  environ w (u "YOUGILE_COLUMN_ID") = Some column ->
  column <> [] ->
  task_entries parsed = Return entries ->
  process_analysis_request (JStr raw) w
  = try_except_decode
      (created_tasks <~ tasks_loop column entries [] ;;
       lift (success_envelope parsed created_tasks))
      (fun e => lift (decode_error_envelope (JStr (u "analysis")) (JStr raw) e))
      w.
Proof.
  intros Hl Henv Hcol He. unfold task_entries in He.
  destruct (py_get_d parsed (u "epics") (JArr [])) as [l|] eqn:E;
    [|discriminate He].
  cbn [bind] in He.
  destruct (py_iter l) as [epics|] eqn:E0; [|discriminate He].
  cbn [bind] in He.
  unfold process_analysis_request, try_except_decode, io_bind, lift,
    extract_json_from_markdown, environ_get.
  rewrite Hl, Henv. destruct column as [|c s]; [congruence|].
  rewrite E. cbn [bind]. rewrite E0.
  rewrite (epics_loop_flat (c :: s) epics [] w He). reflexivity.
Qed.

(** X7: the flow does not check [YOUGILE_API_KEY] before the batch.  With
    a column configured but no key, every one of the N entries is recorded
    as [failed] with the text of the missing-key error, no request is sent
    and the world is unchanged, and the envelope still says [success],
    with [tasks_created = 0] and [tasks_failed = N]. *)
Theorem missing_api_key_fails_every_task
  (raw column : pystr) (parsed : json) (entries : list json) (w : World) :
  json_loads (extract_json_text raw) = Return parsed ->
  environ w (u "YOUGILE_COLUMN_ID") = Some column ->
  column <> [] ->
  py_truthy (environ_get w (u "YOUGILE_API_KEY")) = false ->
  task_entries parsed = Return entries ->
  forallb is_dict entries = true ->
  exists (records : list json) (text : pystr),
    process_analysis_request (JStr raw) w
    = (w,
       Return
         (JObj [(u "status", JStr (u "success"));
                (u "request_type", JStr (u "analysis"));
                (u "tasks_created", JInt 0);
                (u "tasks_failed", JInt (Z.of_nat (List.length entries)));
                (u "tasks", JArr records);
                (u "gpt_analysis", parsed);
                (u "human_readable_report", JStr text)]))
    /\ Forall2 (fun task record =>
                  failed_record task NO_YOUGILE_KEY = Return record)
               entries records.
Proof.
  intros Hl Henv Hcol Hk He Hd.
  rewrite (process_analysis_request_batch raw w Hl Henv Hcol He).
  destruct (tasks_loop_without_key column entries [] w Hk Hd)
    as (records & Hloop & H2 & Hdict & Hc & Hf).
  destruct (@success_envelope_returns rt parsed records _ _ Hc Hf Hdict)
    as [text Ht].
  exists records, text. split; [|exact H2].
  unfold try_except_decode, io_bind, lift. rewrite Hloop. cbn [app].
  rewrite Ht. reflexivity.
Qed.

(** X8: an entry of [epics[].tasks[]] that is not a dict aborts the
    flow: the entries before it have been submitted, the entry itself and
    those after it are not, and the flow raises [AttributeError] instead
    of returning an envelope. *)
Theorem non_dict_entry_aborts_the_batch
  (raw column : pystr) (parsed bad : json) (before after : list json)
  (w : World) :
  json_loads (extract_json_text raw) = Return parsed ->
  environ w (u "YOUGILE_COLUMN_ID") = Some column ->
  column <> [] ->
  task_entries parsed = Return (before ++ bad :: after) ->
  forallb is_dict before = true ->
  is_dict bad = false ->
  exists e : exn,
    process_analysis_request (JStr raw) w
    = (creations_world column before w, Raise e)
    /\ exn_kind e = AttributeError.
Proof.
  intros Hl Henv Hcol He Hd Hb.
  rewrite (process_analysis_request_batch raw w Hl Henv Hcol He).
  destruct (tasks_loop_dicts column before [] w Hd) as (records & Hloop & _).
  destruct (create_one_non_dict column bad (creations_world column before w) Hb)
    as (e & Hone & Hkind).
  exists e. split; [|exact Hkind].
  unfold try_except_decode. unfold io_bind at 1.
  rewrite tasks_loop_app. unfold io_bind at 1. rewrite Hloop.
  cbn [tasks_loop]. unfold io_bind at 1. rewrite Hone.
  rewrite Hkind. reflexivity.
Qed.

(** X9: the records of the returned envelope stand for the entries one
    for one and in their order: the k-th record carries the [task_id] and
    the [title] of the k-th entry of [epics[].tasks[]], whether its
    creation succeeded or not. *)
Theorem records_follow_the_entries
  (raw column : pystr) (parsed : json) (entries : list json) (w : World) :
  json_loads (extract_json_text raw) = Return parsed ->
  environ w (u "YOUGILE_COLUMN_ID") = Some column ->
  column <> [] ->
  task_entries parsed = Return entries ->
  forallb is_dict entries = true ->
  exists (envelope : json) (records : list json),
    process_analysis_request (JStr raw) w
    = (creations_world column entries w, Return envelope)
    /\ py_get envelope (u "tasks") = Return (JArr records)
    /\ Forall2 record_of_entry entries records.
Proof.
  intros Hl Henv Hcol He Hd.
  rewrite (process_analysis_request_batch raw w Hl Henv Hcol He).
  destruct (tasks_loop_entries column entries [] w Hd)
    as (records & Hloop & H2).
  destruct (tasks_loop_dicts column entries [] w Hd)
    as (records' & Hloop' & Hb).
  rewrite Hloop in Hloop'. inversion Hloop' as [Hr]. cbn [app] in Hr.
  subst records'. destruct Hb as (_ & Hdict & Hf & Hc & _).
  destruct (@success_envelope_returns rt parsed records _ _ Hc Hf Hdict)
    as [text Ht].
  eexists. exists records. split; [|split; [|exact H2]].
  - unfold try_except_decode, io_bind, lift. rewrite Hloop. cbn [app].
    rewrite Ht. reflexivity.
  - reflexivity.
Qed.
End BatchFlow.

Section BatchRequests.
Context {rt : Runtime}.
Variable column : pystr.

(** With the key set, a dict entry costs exactly one request, whatever
    the service answers. *)
Lemma create_yougile_task_request
  (fields : list (pystr * json)) (key : pystr) (w : World) :
  environ w (u "YOUGILE_API_KEY") = Some key ->
  key <> [] ->
  exists payload : json,
    task_payload (JObj fields) column = Return payload
    /\ fst (create_yougile_task (JObj fields) column w)
       = mkWorld (environ w) (PROMPTS w)
           (sent w ++ [mkRequest TASKS_URL key payload]).
Proof.
  intros Hk Hne. destruct key as [|c s]; [congruence|].
  assert (exists payload : json,
             task_payload (JObj fields) column = Return payload)
    as [payload Hp].
  { unfold task_payload. cbn [py_get_d py_get bind]. eexists. reflexivity. }
  exists payload. split; [exact Hp|].
  unfold create_yougile_task, environ_get, TASKS_URL. rewrite Hk.
  unfold io_bind, lift, http_post. rewrite Hp.
  match goal with
  | |- context [requests_post ?l ?q] => destruct (requests_post l q) as [y|e]
  end; [|reflexivity].
  destruct (py_get y (u "id")); reflexivity.
Qed.

Lemma creations_world_requests (key : pystr) (entries : list json) :
  forall w : World,
    environ w (u "YOUGILE_API_KEY") = Some key ->
    key <> [] ->
    forallb is_dict entries = true ->
    exists payloads : list json,
      Forall2 (fun task payload => task_payload task column = Return payload)
              entries payloads
      /\ creations_world column entries w
         = mkWorld (environ w) (PROMPTS w)
             (sent w ++ List.map (mkRequest TASKS_URL key) payloads).
Proof.
  induction entries as [|task rest IH]; intros w Hk Hne Hd.
  - exists []. split; [constructor|].
    cbn [creations_world List.map]. rewrite app_nil_r. destruct w; reflexivity.
  - simpl in Hd. apply andb_true_iff in Hd. destruct Hd as [Ht Hrest].
    destruct task as [| | | | | |fields]; try discriminate Ht.
    destruct (create_yougile_task_request fields w Hk Hne)
      as (payload & Hp & Hw).
    cbn [creations_world]. rewrite Hw.
    match goal with
    | |- context [creations_world column rest ?w1] =>
        destruct (IH w1 Hk Hne Hrest) as (payloads & H2 & Hrec)
    end.
    exists (payload :: payloads). split; [constructor; assumption|].
    rewrite Hrec. cbn [environ PROMPTS sent List.map].
    rewrite <- app_assoc. reflexivity.
Qed.
End BatchRequests.

Section BatchRequestsFlow.
Context {rt : Runtime}.

(** X10: with a column and a key configured, the flow sends exactly one
    task request per entry of [epics[].tasks[]], in the order of the
    entries and whatever the service answers to the earlier ones: each
    goes to the tasks endpoint under the configured key and carries the
    payload built from its entry.  Nothing else of the world changes. *)
Theorem one_task_request_per_entry
  (raw column key : pystr) (parsed : json) (entries : list json) (w : World) :
  json_loads (extract_json_text raw) = Return parsed ->
  environ w (u "YOUGILE_COLUMN_ID") = Some column ->
  column <> [] ->
  environ w (u "YOUGILE_API_KEY") = Some key ->
  key <> [] ->
  task_entries parsed = Return entries ->
  forallb is_dict entries = true ->
  exists payloads : list json,
    Forall2 (fun task payload => task_payload task column = Return payload)
            entries payloads
    /\ fst (process_analysis_request (JStr raw) w)
       = mkWorld (environ w) (PROMPTS w)
           (sent w ++ List.map (mkRequest TASKS_URL key) payloads).
Proof.
  intros Hl Henv Hcol Hk Hne He Hd.
  rewrite (process_analysis_request_batch raw w Hl Henv Hcol He).
  destruct (creations_world_requests column entries w Hk Hne Hd)
    as (payloads & H2 & Hw).
  exists payloads. split; [exact H2|]. rewrite <- Hw.
  destruct (tasks_loop_dicts column entries [] w Hd)
    as (records & Hloop & _ & Hdict & Hf & Hc & _).
  destruct (@success_envelope_returns rt parsed records _ _ Hc Hf Hdict)
    as [text Ht].
  unfold try_except_decode, io_bind, lift. rewrite Hloop. cbn [app].
  rewrite Ht. reflexivity.
Qed.
End BatchRequestsFlow.

(** ** The generic report flow *)

Section GenericFlow.
Context {rt : Runtime}.


(** X12: a sprint report needs a JSON object.  When the decoded
    response of a [sprint] or [sprint_analytics] request is any other
    JSON value, the generic flow raises [AttributeError] (the renderer
    calls [data.get]) instead of returning an envelope; the world is
    unchanged. *)
Theorem sprint_flow_needs_a_dict
  (raw : pystr) (request_type parsed : json) (w : World) :
  json_loads (extract_json_text raw) = Return parsed ->
  py_eq_str request_type (u "sprint_analytics")
  || py_eq_str request_type (u "sprint") = true ->
  is_dict parsed = false ->
  exists e : exn,
    process_other_request (JStr raw) request_type w = (w, Raise e)
    /\ exn_kind e = AttributeError.
Proof.
  intros Hl Ht Hd.
  unfold process_other_request, try_except_decode, lift,
    extract_json_from_markdown.
  cbn [bind]. rewrite Hl. cbn [bind].
  unfold format_human_readable_report. rewrite Ht.
  unfold format_sprint_report, format_sprint_chunks.
  destruct parsed; try discriminate Hd;
    cbn [py_get_d no_attribute bind exn_kind exn_class_eqb];
    eexists; split; reflexivity.
Qed.
End GenericFlow.

(** ** The dispatcher on requests it cannot serve *)

Section Dispatcher.
Context {rt : Runtime}.

Lemma dict_get_absent (fields : list (pystr * json)) (key : pystr) :
  forall default : json,
    dict_has fields key = false -> dict_get fields key default = default.
Proof.
  induction fields as [|[k v] rest IH]; intros default H; [reflexivity|].
  cbn [dict_has] in H. apply orb_false_iff in H. destruct H as [Hk Hrest].
  cbn [dict_get]. rewrite Hk. apply IH. exact Hrest.
Qed.

(** X13: when the prompt table has no usable prompt under the resolved
    key, [main] answers with the error envelope that names the resolved
    key and goes no further: no completion request and no task request is
    sent, the world being the one the prompt lookup left. *)
Theorem missing_prompt_stops_the_request
  (input_data request_type input_text prompt : json) (key : pystr)
  (w w1 : World) :
  py_get_d input_data (u "type") (JStr (u "analysis")) = Return request_type ->
  py_get_d input_data (u "text") (JStr []) = Return input_text ->
  py_truthy input_text = true ->
  resolve_prompt_key request_type = Return key ->
  get_prompt key w = (w1, Return prompt) ->
  py_truthy prompt = false ->
  main input_data w
  = (w1,
     Return (json_dumps
               (error_envelope (u "Промпт '" ++ key ++ u "' не найден"))))
  /\ sent w1 = sent w.
Proof.
  intros Ht Hx Htx Hk Hg Hp. split.
  - unfold main, main_reply, try_except, main_body, io_bind, lift.
    rewrite Ht, Hx, Htx. cbn [negb]. rewrite Hk, Hg, Hp. reflexivity.
  - apply get_prompt_world in Hg. apply Hg.
Qed.

(** X14: a request without a [type] is served exactly as the same
    request with [type] set to [analysis]. *)
Theorem absent_type_is_analysis (fields : list (pystr * json)) (w : World) :
  dict_has fields (u "type") = false ->
  main (JObj fields) w
  = main (JObj ((u "type", JStr (u "analysis")) :: fields)) w.
Proof.
  intros H. unfold main, main_reply, try_except, main_body.
  cbn [py_get_d dict_get].
  rewrite dict_get_absent by exact H.
  replace (pystr_eqb (u "type") (u "type")) with true by (vm_compute; reflexivity).
  replace (pystr_eqb (u "type") (u "text")) with false by (vm_compute; reflexivity).
  reflexivity.
Qed.

(** X15: a request that is not a JSON object, or whose [type] is a list
    or a dict, is answered with an error envelope that carries the text
    of the exception; nothing is read or sent, the world is unchanged. *)
Theorem malformed_request_is_an_error_envelope :
  (forall (input_data : json) (w : World),
      is_dict input_data = false ->
      main input_data w
      = (w,
         Return (json_dumps
                   (error_envelope
                      (u "Ошибка: " ++ u "'" ++ py_type_name input_data
                         ++ u "' object has no attribute '" ++ u "get"
                         ++ u "'")))))
  /\ (forall (fields : list (pystr * json)) (w : World),
         py_hashable (dict_get fields (u "type") (JStr (u "analysis"))) = false ->
         py_truthy (dict_get fields (u "text") (JStr [])) = true ->
         main (JObj fields) w
         = (w,
            Return (json_dumps
                      (error_envelope
                         (u "Ошибка: " ++ u "unhashable type: '"
                            ++ py_type_name
                                 (dict_get fields (u "type")
                                    (JStr (u "analysis")))
                            ++ u "'"))))).
Proof.
  split.
  - intros input_data w H.
    unfold main, main_reply, try_except, main_body, io_bind, lift.
    destruct input_data; try discriminate H; reflexivity.
  - intros fields w Hh Ht.
    unfold main, main_reply, try_except, main_body, io_bind, lift.
    cbn [py_get_d]. rewrite Ht. cbn [negb].
    unfold resolve_prompt_key.
    destruct (dict_get fields (u "type") (JStr (u "analysis")));
      try discriminate Hh; reflexivity.
Qed.
End Dispatcher.

Section EntryPoint.
Context {rt : Runtime}.

(** X16: how the entry point reads its event.  A [body] that is a
    string but not JSON is taken as the text of a request without type,
    the other fields of the event being ignored; and an event that is
    neither a dict nor a string is served as the empty request, which is
    answered with the missing-text error without touching the world. *)
Theorem handler_normalises_the_event :
  (forall (fields : list (pystr * json)) (s : pystr) (e : exn) (w : World),
      dict_has fields (u "body") = true ->
      dict_get fields (u "body") JNull = JStr s ->
      json_loads s = Raise e ->
      handler (JObj fields) w = handler (JObj [(u "text", JStr s)]) w)
  /\ (forall (event : json) (w : World),
         is_dict event = false ->
         (forall s : pystr, event <> JStr s) ->
         handler event w
         = (w,
            Return (http_response 200
                      (json_dumps
                         (error_envelope (u "Отсутствует текст запроса")))))).
Proof.
  split.
  - intros fields s e w Hb Hs Hl. unfold handler, event_input.
    rewrite Hb, Hs. unfold loads_or_text. rewrite Hl.
    replace (dict_has [(u "text", JStr s)] (u "body")) with false
      by (vm_compute; reflexivity).
    reflexivity.
  - intros event w Hd Hs.
    assert (event_input event = JObj []) as Hi.
    { destruct event; try discriminate Hd; try reflexivity.
      exfalso. eapply Hs. reflexivity. }
    unfold handler, try_except, io_bind, lift. rewrite Hi.
    cbn [py_str].
    rewrite (@main_without_text rt w [] eq_refl). reflexivity.
Qed.
End EntryPoint.

Section AnalysisFlowShape.
Context {rt : Runtime}.

(** X17: with a column configured, the task flow needs a JSON object.
    When the decoded response is any other JSON value, the flow raises
    [AttributeError] (it calls [parsed_response.get]) instead of
    returning an envelope, and sends nothing. *)
Theorem analysis_flow_needs_a_dict
  (raw column : pystr) (parsed : json) (w : World) :
  json_loads (extract_json_text raw) = Return parsed ->
  environ w (u "YOUGILE_COLUMN_ID") = Some column ->
  column <> [] ->
  is_dict parsed = false ->
  exists e : exn,
    process_analysis_request (JStr raw) w = (w, Raise e)
    /\ exn_kind e = AttributeError.
Proof.
  intros Hl Henv Hcol Hd.
  unfold process_analysis_request, try_except_decode, io_bind, lift,
    extract_json_from_markdown, environ_get.
  rewrite Hl, Henv. destruct column as [|c s]; [congruence|].
  destruct parsed; try discriminate Hd;
    cbn [py_get_d no_attribute bind exn_kind exn_class_eqb];
    eexists; split; reflexivity.
Qed.
End AnalysisFlowShape.

(** ** The analysis report against the counters of its envelope *)

Section ReportCounters.
Context {rt : Runtime}.

Lemma icon_lines_app (icon : pystr) (a b : report) :
  icon_lines icon (a ++ b) = (icon_lines icon a + icon_lines icon b)%nat.
Proof. unfold icon_lines. rewrite filter_app, length_app. reflexivity. Qed.

Lemma icon_lines_cons (icon : pystr) (c : chunk) (r : report) :
  icon_lines icon (c :: r)
  = ((if has_icon icon c then 1 else 0) + icon_lines icon r)%nat.
Proof.
  unfold icon_lines. cbn [List.filter].
  destruct (has_icon icon c); reflexivity.
Qed.

(** The lines of the records: as many [created] icons as records whose
    status is [created], and a [failed] icon on each of the others. *)
Lemma analysis_lines_icons (records : list json) :
  forall (i c : Z) (lines : report),
    for_each_from i analysis_task_lines records = Return lines ->
    count_status (u "created") records = Return c ->
    Z.of_nat (icon_lines ICON_CREATED lines) = c
    /\ (icon_lines ICON_CREATED lines + icon_lines ICON_FAILED lines
        = List.length records)%nat.
Proof.
  induction records as [|t rest IH]; intros i c lines Hl Hc.
  - inversion Hl; subst. inversion Hc; subst. split; reflexivity.
  - cbn [for_each_from] in Hl. cbn [count_status] in Hc.
    destruct t as [| | | | | |fields]; try discriminate Hc.
    cbn [py_item] in Hc.
    destruct (dict_has fields (u "status")); [|discriminate Hc].
    cbn [bind] in Hc.
    destruct (count_status (u "created") rest) as [n|] eqn:En;
      [|discriminate Hc].
    cbn [bind] in Hc. inversion Hc as [Hc']. clear Hc.
    destruct (for_each_from (i + 1) analysis_task_lines rest) as [more|] eqn:Em.
    2:{ destruct (analysis_task_lines i (JObj fields)); discriminate Hl. }
    destruct (IH (i + 1)%Z n more Em eq_refl) as [IH1 IH2].
    unfold analysis_task_lines in Hl. cbn [py_get py_get_d bind] in Hl.
    destruct (py_eq_str (dict_get fields (u "status") JNull) (u "created"));
      cbn [bind] in Hl; inversion Hl as [Hlines]; clear Hl;
      cbn [app]; rewrite !icon_lines_cons;
      cbn [has_icon task_line_icon List.length];
      change (pystr_eqb (u "✅") ICON_CREATED) with true;
      change (pystr_eqb (u "✅") ICON_FAILED) with false;
      change (pystr_eqb (u "❌") ICON_CREATED) with false;
      change (pystr_eqb (u "❌") ICON_FAILED) with true;
      split; lia.
Qed.
End ReportCounters.

Section ReportCountersFlow.
Context {rt : Runtime}.

Lemma format_analysis_chunks_icons
  (fields : list (pystr * json)) (records : list json) (c : Z)
  (chunks : report) :
  format_analysis_chunks (JObj fields) = Return chunks ->
  dict_get fields (u "tasks") (JArr []) = JArr records ->
  count_status (u "created") records = Return c ->
  Z.of_nat (icon_lines ICON_CREATED chunks) = c
  /\ (icon_lines ICON_CREATED chunks + icon_lines ICON_FAILED chunks
      = List.length records)%nat.
Proof.
  unfold format_analysis_chunks. intros H Ht Hc.
  step H as st eqn E1. step H as status eqn E2. step H as created eqn E3.
  step H as failed eqn E4. step H as tasks eqn E5. step H as section eqn E6.
  inversion H as [Hch]. clear H Hch.
  cbn [py_get_d] in E5. rewrite Ht in E5. inversion E5; subst tasks. clear E5.
  rewrite (icon_lines_cons ICON_CREATED), (icon_lines_cons ICON_FAILED).
  rewrite (icon_lines_app ICON_CREATED), (icon_lines_app ICON_FAILED).
  rewrite (icon_lines_cons ICON_CREATED), (icon_lines_cons ICON_FAILED).
  cbn [has_icon task_line_icon].
  change (icon_lines ICON_CREATED []) with 0%nat.
  change (icon_lines ICON_FAILED []) with 0%nat.
  destruct records as [|r rest].
  - inversion E6; subst. inversion Hc; subst. split; reflexivity.
  - cbn [py_truthy py_iter bind] in E6.
    step E6 as lines eqn E8. inversion E6 as [Hs]. clear E6 Hs.
    rewrite !(icon_lines_cons ICON_CREATED), !(icon_lines_cons ICON_FAILED).
    cbn [has_icon task_line_icon].
    destruct (@analysis_lines_icons (r :: rest) 1%Z c lines E8 Hc) as [H1 H2].
    split; lia.
Qed.

(** X18: the report of the task flow agrees with the counters of its
    envelope.  In the envelope the flow returns over dict entries,
    [human_readable_report] is the analysis report rendered over the
    other fields, and that report has exactly [tasks_created] task lines
    with the created icon and [tasks_failed] with the failure icon. *)
Theorem report_agrees_with_counters
  (raw column : pystr) (parsed : json) (entries : list json) (w : World) :
  json_loads (extract_json_text raw) = Return parsed ->
  environ w (u "YOUGILE_COLUMN_ID") = Some column ->
  column <> [] ->
  task_entries parsed = Return entries ->
  forallb is_dict entries = true ->
  exists (created failed : nat) (records : list json) (chunks : report),
    process_analysis_request (JStr raw) w
    = (creations_world column entries w,
       Return
         (JObj [(u "status", JStr (u "success"));
                (u "request_type", JStr (u "analysis"));
                (u "tasks_created", JInt (Z.of_nat created));
                (u "tasks_failed", JInt (Z.of_nat failed));
                (u "tasks", JArr records);
                (u "gpt_analysis", parsed);
                (u "human_readable_report", JStr (report_text chunks))]))
    /\ format_analysis_chunks
         (JObj [(u "status", JStr (u "success"));
                (u "request_type", JStr (u "analysis"));
                (u "tasks_created", JInt (Z.of_nat created));
                (u "tasks_failed", JInt (Z.of_nat failed));
                (u "tasks", JArr records);
                (u "gpt_analysis", parsed)])
       = Return chunks
    /\ icon_lines ICON_CREATED chunks = created
    /\ icon_lines ICON_FAILED chunks = failed.
Proof.
  intros Hl Henv Hcol He Hd.
  rewrite (process_analysis_request_batch raw w Hl Henv Hcol He).
  destruct (tasks_loop_dicts column entries [] w Hd)
    as (records & Hloop & Hlen & Hdict & Hf & Hc & Hk).
  set (K := creation_failures column entries w) in *.
  set (N := List.length entries) in *.
  assert ((Z.of_nat N - Z.of_nat K)%Z = Z.of_nat (N - K)) as HNK by lia.
  rewrite HNK in Hc.
  destruct (@format_analysis_chunks_returns rt
              [(u "status", JStr (u "success"));
               (u "request_type", JStr (u "analysis"));
               (u "tasks_created", JInt (Z.of_nat (N - K)));
               (u "tasks_failed", JInt (Z.of_nat K));
               (u "tasks", JArr records);
               (u "gpt_analysis", parsed)]
              (u "success") records eq_refl eq_refl Hdict) as [chunks Hch].
  exists (N - K)%nat, K, records, chunks.
  destruct (@format_analysis_chunks_icons _ records _ chunks Hch eq_refl Hc)
    as [H1 H2].
  split; [|split; [exact Hch|split; lia]].
  unfold try_except_decode, io_bind, lift. rewrite Hloop. cbn [app].
  unfold success_envelope. rewrite Hc, Hf. cbn [bind].
  unfold with_report.
  match goal with
  | |- context [format_human_readable_report (JObj ?f) _] =>
      change (format_human_readable_report (JObj f) (JStr (u "analysis")))
        with (format_analysis_report (JObj f))
  end.
  unfold format_analysis_report. rewrite Hch. reflexivity.
Qed.
End ReportCountersFlow.

(** ** The completion call *)

Section Completion.
Context {rt : Runtime}.

Lemma call_yandex_gpt_with_keys (prompt key folder : pystr) (w : World) :
  environ w (u "YANDEX_API_KEY") = Some key -> key <> [] ->
  environ w (u "YANDEX_FOLDER_ID") = Some folder -> folder <> [] ->
  fst (call_yandex_gpt prompt w)
  = mkWorld (environ w) (PROMPTS w)
      (sent w ++ [gpt_request key folder prompt]).
Proof.
  intros Hk Hkn Hf Hfn. unfold call_yandex_gpt, environ_get.
  rewrite Hk, Hf. destruct key as [|c s]; [congruence|].
  destruct folder as [|c' s']; [congruence|].
  unfold io_bind, http_post, lift.
  match goal with
  | |- context [requests_post ?l ?q] => destruct (requests_post l q)
  end; reflexivity.
Qed.

Lemma call_yandex_gpt_without_keys (prompt : pystr) (w : World) :
  py_truthy (environ_get w (u "YANDEX_API_KEY"))
  && py_truthy (environ_get w (u "YANDEX_FOLDER_ID")) = false ->
  call_yandex_gpt prompt w
  = (w,
     Raise (mkExn ValueError
              (if py_truthy (environ_get w (u "YANDEX_API_KEY"))
               then u "Отсутствует YANDEX_FOLDER_ID"
               else u "Отсутствует YANDEX_API_KEY"))).
Proof.
  unfold call_yandex_gpt, environ_get.
  destruct (environ w (u "YANDEX_API_KEY")) as [[|c s]|];
    destruct (environ w (u "YANDEX_FOLDER_ID")) as [[|c' s']|];
    cbn [py_truthy andb]; intros H;
    first [discriminate H | reflexivity].
Qed.

(** X19: what [main] sends to the completion service.  For a request
    with a text, a prompt under the resolved key and both completion
    credentials configured: when the prompt and the text can be
    formatted, the first request [main] sends is the completion request
    under the configured key and folder whose single user message is the
    prompt followed by the text of the request; every later request is a
    task request, and there is none unless the type is [analysis].  When
    one of them cannot be formatted, the f-string raises inside the [try]:
    [main] answers with the error envelope that carries the text of the
    exception and sends nothing. *)
Theorem main_sends_the_prompt_with_the_text
  (fields : list (pystr * json)) (prompt_key key folder : pystr)
  (prompt : json) (w w1 : World) :
  py_truthy (dict_get fields (u "text") (JStr [])) = true ->
  resolve_prompt_key (dict_get fields (u "type") (JStr (u "analysis")))
  = Return prompt_key ->
  get_prompt prompt_key w = (w1, Return prompt) ->
  py_truthy prompt = true ->
  environ w (u "YANDEX_API_KEY") = Some key -> key <> [] ->
  environ w (u "YANDEX_FOLDER_ID") = Some folder -> folder <> [] ->
  (forall p t : pystr,
      py_str prompt = Return p ->
      py_str (dict_get fields (u "text") (JStr [])) = Return t ->
      exists tasks : list request,
        sent (fst (main (JObj fields) w))
        = sent w
            ++ gpt_request key folder
                 (p ++ NL ++ NL ++ u "Запрос:" ++ NL ++ t ++ NL ++ u "Ответ:")
            :: tasks
        /\ Forall is_task_request tasks
        /\ (py_eq_str (dict_get fields (u "type") (JStr (u "analysis")))
              (u "analysis") = false -> tasks = []))
  /\ (forall e : exn,
         full_prompt prompt (dict_get fields (u "text") (JStr [])) = Raise e ->
         main (JObj fields) w
         = (w1,
            Return (json_dumps (error_envelope (u "Ошибка: " ++ exn_str e))))
         /\ sent w1 = sent w).
Proof.
  intros Ht Hr Hp Hpt Hk Hkn Hf Hfn.
  pose proof (get_prompt_world _ _ Hp) as (E1 & S1 & _).
  split.
  2:{ intros e He. split; [|exact S1].
      exact (main_body_without_prompt_text w fields Ht Hr Hp Hpt He). }
  intros p t Hps Hts.
  assert (full_prompt prompt (dict_get fields (u "text") (JStr []))
          = Return (p ++ NL ++ NL ++ u "Запрос:" ++ NL ++ t ++ NL ++ u "Ответ:"))
    as Hfull.
  { unfold full_prompt. rewrite Hps, Hts. reflexivity. }
  revert Hfull.
  generalize (p ++ NL ++ NL ++ u "Запрос:" ++ NL ++ t ++ NL ++ u "Ответ:").
  intros composed Hfull.
  rewrite <- E1 in Hk, Hf.
  pose proof (call_yandex_gpt_with_keys composed w1 Hk Hkn Hf Hfn) as Hw.
  destruct (call_yandex_gpt composed w1) as [w2 g] eqn:Hg.
  cbn [fst] in Hw.
  unfold main, main_reply, try_except, io_bind.
  rewrite (main_body_after_completion w fields Ht Hr Hp Hpt Hfull Hg).
  destruct g as [gpt_response|e].
  - unfold io_bind, route.
    destruct (py_eq_str (dict_get fields (u "type") (JStr (u "analysis")))
                (u "analysis")) eqn:Ea.
    + destruct (process_analysis_request gpt_response w2) as [w3 r] eqn:Hpr.
      apply process_analysis_request_sends in Hpr.
      destruct Hpr as (_ & _ & tasks & S3 & F3).
      exists tasks. split; [|split; [exact F3|discriminate]].
      destruct r; cbn [fst io_ret]; rewrite S3, Hw; cbn [sent];
        rewrite S1, <- app_assoc; reflexivity.
    + destruct (process_other_request gpt_response
                  (dict_get fields (u "type") (JStr (u "analysis"))) w2)
        as [w3 r] eqn:Hpr.
      apply process_other_request_pure in Hpr. subst w3.
      exists []. split; [|split; [constructor|reflexivity]].
      destruct r; cbn [fst io_ret]; rewrite Hw; cbn [sent]; rewrite S1;
        reflexivity.
  - exists []. split; [|split; [constructor|reflexivity]].
    cbn [fst io_ret]. rewrite Hw. cbn [sent]. rewrite S1. reflexivity.
Qed.

(** X20: the completion credentials are checked after the prompt
    lookup and before anything is sent.  With [YANDEX_API_KEY] or
    [YANDEX_FOLDER_ID] unset or empty, a request that has a text and a
    prompt is answered with an error envelope and no request is sent: the
    envelope names the missing variable (the key first), unless the
    prompt and the text cannot be formatted, in which case the f-string
    of line 556 has raised first and the envelope carries that error. *)
Theorem missing_completion_credentials_stop_the_request
  (fields : list (pystr * json)) (prompt_key : pystr)
  (prompt : json) (w w1 : World) :
  py_truthy (dict_get fields (u "text") (JStr [])) = true ->
  resolve_prompt_key (dict_get fields (u "type") (JStr (u "analysis")))
  = Return prompt_key ->
  get_prompt prompt_key w = (w1, Return prompt) ->
  py_truthy prompt = true ->
  py_truthy (environ_get w (u "YANDEX_API_KEY"))
  && py_truthy (environ_get w (u "YANDEX_FOLDER_ID")) = false ->
  main (JObj fields) w
  = (w1,
     Return (json_dumps
               (error_envelope
                  (u "Ошибка: "
                     ++ match full_prompt prompt
                                (dict_get fields (u "text") (JStr [])) with
                        | Return _ =>
                            if py_truthy (environ_get w (u "YANDEX_API_KEY"))
                            then u "Отсутствует YANDEX_FOLDER_ID"
                            else u "Отсутствует YANDEX_API_KEY"
                        | Raise e => exn_str e
                        end))))
  /\ sent w1 = sent w.
Proof.
  intros Ht Hr Hp Hpt Hk.
  pose proof (get_prompt_world _ _ Hp) as (E1 & S1 & _).
  split; [|exact S1].
  destruct (full_prompt prompt (dict_get fields (u "text") (JStr [])))
    as [composed|e] eqn:Hfull.
  2:{ exact (main_body_without_prompt_text w fields Ht Hr Hp Hpt Hfull). }
  assert (environ_get w1 (u "YANDEX_API_KEY")
          = environ_get w (u "YANDEX_API_KEY")) as Ek
    by (unfold environ_get; rewrite E1; reflexivity).
  assert (environ_get w1 (u "YANDEX_FOLDER_ID")
          = environ_get w (u "YANDEX_FOLDER_ID")) as Ef
    by (unfold environ_get; rewrite E1; reflexivity).
  rewrite <- Ek, <- Ef in Hk.
  pose proof (call_yandex_gpt_without_keys composed w1 Hk) as Hg.
  unfold main, main_reply, try_except, io_bind.
  rewrite (main_body_after_completion w fields Ht Hr Hp Hpt Hfull Hg).
  rewrite Ek. reflexivity.
Qed.

(** X21: the prompt file is read on demand, inside [main]'s [try].
    With an empty prompt table and a prompt file that cannot be read, a
    request that has a text is answered with the error envelope that
    carries the text of the read error; nothing is sent and the world is
    unchanged. *)
Theorem unreadable_prompt_file_is_an_error
  (fields : list (pystr * json)) (prompt_key : pystr) (e : exn) (w : World) :
  py_truthy (dict_get fields (u "text") (JStr [])) = true ->
  resolve_prompt_key (dict_get fields (u "type") (JStr (u "analysis")))
  = Return prompt_key ->
  py_truthy (PROMPTS w) = false ->
  read_prompts_file = Raise e ->
  main (JObj fields) w
  = (w, Return (json_dumps (error_envelope (u "Ошибка: " ++ exn_str e)))).
Proof.
  intros Ht Hr Hc He.
  unfold main, main_reply, try_except, main_body, io_bind, lift.
  cbn [py_get_d]. rewrite Ht, Hr. cbn [negb].
  unfold get_prompt, io_bind, load_prompts. rewrite Hc, He. reflexivity.
Qed.
End Completion.

(** ** Two values the code takes on trust *)

Section Trusted.
Context {rt : Runtime}.

(** X22: the sprint report upper-cases [overall_status] without
    checking it.  When the summary carries an [overall_status] that is
    not a string ([null], a number), the renderer raises
    [AttributeError] for [upper] and no report is produced. *)
Theorem sprint_status_must_be_text
  (fields meta summary : list (pystr * json)) (status : json) :
  dict_get fields (u "analysis_metadata") (JObj []) = JObj meta ->
  dict_get fields (u "executive_summary") (JObj []) = JObj summary ->
  dict_get summary (u "overall_status") (JStr (u "не определён")) = status ->
  (forall s : pystr, status <> JStr s) ->
  format_sprint_report (JObj fields)
  = Raise (mkExn AttributeError
             (u "'" ++ py_type_name status ++ u "' object has no attribute '"
                ++ u "upper" ++ u "'")).
Proof.
  intros Hm Hs Hst Hn.
  unfold format_sprint_report, format_sprint_chunks, sprint_head.
  cbn [py_get_d bind]. rewrite Hm, Hs. cbn [py_get_d bind]. rewrite Hst.
  destruct status; try reflexivity.
  exfalso. eapply Hn. reflexivity.
Qed.

Lemma py_get_non_dict (v : json) (key : pystr) :
  is_dict v = false ->
  py_get v key
  = Raise (mkExn AttributeError
             (u "'" ++ py_type_name v ++ u "' object has no attribute '"
                ++ u "get" ++ u "'")).
Proof. destruct v; try discriminate; reflexivity. Qed.

(** With the key set, [create_yougile_task] on a dict entry sends its
    request and returns the answer if it has [get]. *)
Lemma create_yougile_task_answer
  (column key : pystr) (fields : list (pystr * json)) (payload : json)
  (w : World) :
  environ w (u "YOUGILE_API_KEY") = Some key ->
  key <> [] ->
  task_payload (JObj fields) column = Return payload ->
  create_yougile_task (JObj fields) column w
  = (mkWorld (environ w) (PROMPTS w)
       (sent w ++ [mkRequest TASKS_URL key payload]),
     created <- requests_post (sent w) (mkRequest TASKS_URL key payload) ;;
     _ <- py_get created (u "id") ;;
     Return created).
Proof.
  intros Hk Hkn Hp. destruct key as [|c s]; [congruence|].
  unfold create_yougile_task, environ_get, TASKS_URL. rewrite Hk.
  unfold io_bind, lift, http_post. rewrite Hp.
  match goal with
  | |- context [requests_post ?l ?q] => destruct (requests_post l q) as [y|e]
  end; [|reflexivity].
  cbn [bind]. destruct (py_get y (u "id")); reflexivity.
Qed.

(** X23: a task is recorded as created only if the service answers
    with a JSON object.  When the task request succeeds but its answer is
    any other JSON value, the round has sent the request and records the
    entry as [failed], with the text of the [AttributeError] for [get]. *)
Theorem odd_creation_answer_is_recorded_as_failed
  (column key : pystr) (fields : list (pystr * json)) (payload answer : json)
  (w : World) :
  environ w (u "YOUGILE_API_KEY") = Some key ->
  key <> [] ->
  task_payload (JObj fields) column = Return payload ->
  requests_post (sent w) (mkRequest TASKS_URL key payload) = Return answer ->
  is_dict answer = false ->
  create_one column (JObj fields) w
  = (mkWorld (environ w) (PROMPTS w)
       (sent w ++ [mkRequest TASKS_URL key payload]),
     Return (JObj [(u "task_id", dict_get fields (u "task_id") JNull);
                   (u "title", dict_get fields (u "title") JNull);
                   (u "status", JStr (u "failed"));
                   (u "error",
                    JStr (u "'" ++ py_type_name answer
                            ++ u "' object has no attribute '" ++ u "get"
                            ++ u "'"))])).
Proof.
  intros Hk Hkn Hp Hpost Hd.
  unfold create_one, try_except, try_create, io_bind.
  rewrite (@create_yougile_task_answer column key fields payload w Hk Hkn Hp).
  rewrite Hpost. cbn [bind]. rewrite (@py_get_non_dict answer (u "id") Hd).
  cbn [bind]. unfold lift. reflexivity.
Qed.
End Trusted.

(** ** The further properties on concrete inputs *)

(** X1 on the bare document. *)
Lemma extract_plain_text_on_a1 :
  extract_json_text DOC_A1 = strip DOC_A1
  /\ extract_json_text (extract_json_text DOC_A1) = extract_json_text DOC_A1.
Proof.
  apply (@extract_plain_text DOC_A1); vm_compute; reflexivity.
Defined.

(** X2 on the document in a [json] fence. *)
Lemma extract_fenced_block_on_a1 :
  extract_json_text (fenced (u "json") DOC_A1) = strip DOC_A1.
Proof.
  apply (@extract_fenced_block (u "json") DOC_A1).
  - vm_compute. intros H. repeat (destruct H as [H|H]; [discriminate H|]).
    exact H.
  - vm_compute. reflexivity.
Defined.

(** X7 on the two entries, in a process that has a column and no key. *)
Lemma missing_api_key_on_two_entries :
  exists (records : list json) (text : pystr),
    process_analysis_request (rt := demo_runtime (Return (completion DOC_EPICS)))
      (JStr DOC_EPICS) (world_of COLUMN_ONLY)
    = (world_of COLUMN_ONLY,
       Return
         (JObj [(u "status", JStr (u "success"));
                (u "request_type", JStr (u "analysis"));
                (u "tasks_created", JInt 0);
                (u "tasks_failed", JInt 2);
                (u "tasks", JArr records);
                (u "gpt_analysis", EPICS);
                (u "human_readable_report", JStr text)]))
    /\ Forall2 (fun task record =>
                  failed_record task NO_YOUGILE_KEY = Return record)
               [TASK_OK; TASK_BAD] records.
Proof.
  refine (@missing_api_key_fails_every_task
            (demo_runtime (Return (completion DOC_EPICS)))
            DOC_EPICS (u "col") EPICS [TASK_OK; TASK_BAD]
            (world_of COLUMN_ONLY) _ _ _ _ _ _).
  - vm_compute. reflexivity.
  - vm_compute. reflexivity.
  - discriminate.
  - vm_compute. reflexivity.
  - vm_compute. reflexivity.
  - vm_compute. reflexivity.
Defined.

(** X8 on the analysis whose second entry is a string: the first entry
    has been submitted, the flow raises. *)
Lemma non_dict_entry_on_mixed_entries :
  exists e : exn,
    process_analysis_request
      (rt := runtime_with more_documents (Return demo_prompts)
               (demo_post (Return (completion DOC_MIXED))))
      (JStr DOC_MIXED) (demo_world (Some (u "col")))
    = (creations_world
         (rt := runtime_with more_documents (Return demo_prompts)
                  (demo_post (Return (completion DOC_MIXED))))
         (u "col") [TASK_OK] (demo_world (Some (u "col"))),
       Raise e)
    /\ exn_kind e = AttributeError.
Proof.
  refine (@non_dict_entry_aborts_the_batch
            (runtime_with more_documents (Return demo_prompts)
               (demo_post (Return (completion DOC_MIXED))))
            DOC_MIXED (u "col") MIXED (JStr (u "oops")) [TASK_OK] [TASK_BAD]
            (demo_world (Some (u "col"))) _ _ _ _ _ _).
  - vm_compute. reflexivity.
  - vm_compute. reflexivity.
  - discriminate.
  - vm_compute. reflexivity.
  - vm_compute. reflexivity.
  - vm_compute. reflexivity.
Defined.

(** X9 on the two entries. *)
Lemma records_follow_the_two_entries :
  exists (envelope : json) (records : list json),
    process_analysis_request (rt := demo_runtime (Return (completion DOC_EPICS)))
      (JStr DOC_EPICS) (demo_world (Some (u "col")))
    = (creations_world (rt := demo_runtime (Return (completion DOC_EPICS)))
         (u "col") [TASK_OK; TASK_BAD] (demo_world (Some (u "col"))),
       Return envelope)
    /\ py_get envelope (u "tasks") = Return (JArr records)
    /\ Forall2 record_of_entry [TASK_OK; TASK_BAD] records.
Proof.
  refine (@records_follow_the_entries
            (demo_runtime (Return (completion DOC_EPICS)))
            DOC_EPICS (u "col") EPICS [TASK_OK; TASK_BAD]
            (demo_world (Some (u "col"))) _ _ _ _ _).
  - vm_compute. reflexivity.
  - vm_compute. reflexivity.
  - discriminate.
  - vm_compute. reflexivity.
  - vm_compute. reflexivity.
Defined.

(** X10 on the two entries: two task requests, though the second is
    refused. *)
Lemma one_task_request_for_each_of_two_entries :
  exists payloads : list json,
    Forall2 (fun task payload => task_payload task (u "col") = Return payload)
            [TASK_OK; TASK_BAD] payloads
    /\ fst (process_analysis_request
              (rt := demo_runtime (Return (completion DOC_EPICS)))
              (JStr DOC_EPICS) (demo_world (Some (u "col"))))
       = mkWorld (environ (demo_world (Some (u "col"))))
           (PROMPTS (demo_world (Some (u "col"))))
           (sent (demo_world (Some (u "col")))
              ++ List.map (mkRequest TASKS_URL (u "ykey")) payloads).
Proof.
  refine (@one_task_request_per_entry
            (demo_runtime (Return (completion DOC_EPICS)))
            DOC_EPICS (u "col") (u "ykey") EPICS [TASK_OK; TASK_BAD]
            (demo_world (Some (u "col"))) _ _ _ _ _ _ _).
  - vm_compute. reflexivity.
  - vm_compute. reflexivity.
  - discriminate.
  - vm_compute. reflexivity.
  - discriminate.
  - vm_compute. reflexivity.
  - vm_compute. reflexivity.
Defined.


(** X12 on a sprint response that is a JSON list. *)
Lemma sprint_flow_on_a_list :
  exists e : exn,
    process_other_request
      (rt := runtime_with more_documents (Return demo_prompts)
               (demo_post (Return (completion DOC_LIST))))
      (JStr DOC_LIST) (JStr (u "sprint")) (demo_world None)
    = (demo_world None, Raise e)
    /\ exn_kind e = AttributeError.
Proof.
  refine (@sprint_flow_needs_a_dict
            (runtime_with more_documents (Return demo_prompts)
               (demo_post (Return (completion DOC_LIST))))
            DOC_LIST (JStr (u "sprint")) (JArr [JInt 1]) (demo_world None)
            _ _ _).
  - vm_compute. reflexivity.
  - vm_compute. reflexivity.
  - vm_compute. reflexivity.
Defined.

(** X13 on a [governance] request: the demo prompt file has no
    [governance] prompt. *)
Lemma missing_prompt_on_governance :
  main (rt := demo_runtime (Return (completion DOC_A1)))
    (demo_request (u "governance")) (demo_world None)
  = (mkWorld (demo_environ None) demo_prompts [],
     Return (demo_dumps
               (error_envelope
                  (u "Промпт '" ++ u "governance" ++ u "' не найден"))))
  /\ sent (mkWorld (demo_environ None) demo_prompts [])
     = sent (demo_world None).
Proof.
  refine (@missing_prompt_stops_the_request
            (demo_runtime (Return (completion DOC_A1)))
            (demo_request (u "governance")) (JStr (u "governance"))
            (JStr (u "x")) (JStr []) (u "governance")
            (demo_world None) (mkWorld (demo_environ None) demo_prompts [])
            _ _ _ _ _ _).
  - vm_compute. reflexivity.
  - vm_compute. reflexivity.
  - vm_compute. reflexivity.
  - vm_compute. reflexivity.
  - vm_compute. reflexivity.
  - vm_compute. reflexivity.
Defined.

(** X14 on the request [{"text": "x"}]. *)
Lemma absent_type_on_text_only :
  main (rt := demo_runtime (Return (completion DOC_EPICS)))
    (JObj [(u "text", JStr (u "x"))]) (demo_world (Some (u "col")))
  = main (rt := demo_runtime (Return (completion DOC_EPICS)))
      (JObj [(u "type", JStr (u "analysis")); (u "text", JStr (u "x"))])
      (demo_world (Some (u "col"))).
Proof.
  refine (@absent_type_is_analysis
            (demo_runtime (Return (completion DOC_EPICS)))
            [(u "text", JStr (u "x"))] (demo_world (Some (u "col"))) _).
  vm_compute. reflexivity.
Defined.

(** X15 on a request that is a list, and on one whose type is a list. *)
Lemma malformed_requests_of_lists :
  main (rt := demo_runtime (Return (completion DOC_A1)))
    (JArr []) (demo_world None)
  = (demo_world None,
     Return (demo_dumps
               (error_envelope
                  (u "Ошибка: " ++ u "'" ++ py_type_name (JArr [])
                     ++ u "' object has no attribute '" ++ u "get"
                     ++ u "'"))))
  /\ main (rt := demo_runtime (Return (completion DOC_A1)))
       (JObj [(u "type", JArr []); (u "text", JStr (u "x"))])
       (demo_world None)
     = (demo_world None,
        Return (demo_dumps
                  (error_envelope
                     (u "Ошибка: " ++ u "unhashable type: '"
                        ++ py_type_name
                             (dict_get
                                [(u "type", JArr []); (u "text", JStr (u "x"))]
                                (u "type") (JStr (u "analysis")))
                        ++ u "'")))).
Proof.
  split.
  - refine (proj1 (@malformed_request_is_an_error_envelope
                     (demo_runtime (Return (completion DOC_A1))))
              (JArr []) (demo_world None) _).
    vm_compute. reflexivity.
  - refine (proj2 (@malformed_request_is_an_error_envelope
                     (demo_runtime (Return (completion DOC_A1))))
              [(u "type", JArr []); (u "text", JStr (u "x"))]
              (demo_world None) _ _).
    + vm_compute. reflexivity.
    + vm_compute. reflexivity.
Defined.

(** X16 on an event whose body is plain text, and on a number. *)
Lemma handler_on_plain_text_and_on_a_number :
  handler (rt := demo_runtime (Return (completion DOC_A1)))
    (JObj [(u "path", JStr (u "/")); (u "body", JStr (u "hello"))])
    (demo_world None)
  = handler (rt := demo_runtime (Return (completion DOC_A1)))
      (JObj [(u "text", JStr (u "hello"))]) (demo_world None)
  /\ handler (rt := demo_runtime (Return (completion DOC_A1)))
       (JInt 1) (demo_world None)
     = (demo_world None,
        Return (http_response 200
                  (demo_dumps
                     (error_envelope (u "Отсутствует текст запроса"))))).
Proof.
  split.
  - refine (proj1 (@handler_normalises_the_event
                     (demo_runtime (Return (completion DOC_A1))))
              [(u "path", JStr (u "/")); (u "body", JStr (u "hello"))]
              (u "hello")
              (mkExn JSONDecodeError
                 (u "Expecting value: line 1 column 1 (char 0)"))
              (demo_world None) _ _ _).
    + vm_compute. reflexivity.
    + vm_compute. reflexivity.
    + vm_compute. reflexivity.
  - refine (proj2 (@handler_normalises_the_event
                     (demo_runtime (Return (completion DOC_A1))))
              (JInt 1) (demo_world None) _ _).
    + reflexivity.
    + intros s. discriminate.
Defined.

(** X17 on an analysis response that is a JSON list. *)
Lemma analysis_flow_on_a_list :
  exists e : exn,
    process_analysis_request
      (rt := runtime_with more_documents (Return demo_prompts)
               (demo_post (Return (completion DOC_LIST))))
      (JStr DOC_LIST) (demo_world (Some (u "col")))
    = (demo_world (Some (u "col")), Raise e)
    /\ exn_kind e = AttributeError.
Proof.
  refine (@analysis_flow_needs_a_dict
            (runtime_with more_documents (Return demo_prompts)
               (demo_post (Return (completion DOC_LIST))))
            DOC_LIST (u "col") (JArr [JInt 1]) (demo_world (Some (u "col")))
            _ _ _ _).
  - vm_compute. reflexivity.
  - vm_compute. reflexivity.
  - discriminate.
  - vm_compute. reflexivity.
Defined.

(** X18 on the two entries: one line with each icon. *)
Lemma report_agrees_on_two_entries :
  exists (created failed : nat) (records : list json) (chunks : report),
    process_analysis_request (rt := demo_runtime (Return (completion DOC_EPICS)))
      (JStr DOC_EPICS) (demo_world (Some (u "col")))
    = (creations_world (rt := demo_runtime (Return (completion DOC_EPICS)))
         (u "col") [TASK_OK; TASK_BAD] (demo_world (Some (u "col"))),
       Return
         (JObj [(u "status", JStr (u "success"));
                (u "request_type", JStr (u "analysis"));
                (u "tasks_created", JInt (Z.of_nat created));
                (u "tasks_failed", JInt (Z.of_nat failed));
                (u "tasks", JArr records);
                (u "gpt_analysis", EPICS);
                (u "human_readable_report",
                 JStr (report_text
                         (rt := demo_runtime (Return (completion DOC_EPICS)))
                         chunks))]))
    /\ format_analysis_chunks
         (rt := demo_runtime (Return (completion DOC_EPICS)))
         (JObj [(u "status", JStr (u "success"));
                (u "request_type", JStr (u "analysis"));
                (u "tasks_created", JInt (Z.of_nat created));
                (u "tasks_failed", JInt (Z.of_nat failed));
                (u "tasks", JArr records);
                (u "gpt_analysis", EPICS)])
       = Return chunks
    /\ icon_lines ICON_CREATED chunks = created
    /\ icon_lines ICON_FAILED chunks = failed.
Proof.
  refine (@report_agrees_with_counters
            (demo_runtime (Return (completion DOC_EPICS)))
            DOC_EPICS (u "col") EPICS [TASK_OK; TASK_BAD]
            (demo_world (Some (u "col"))) _ _ _ _ _).
  - vm_compute. reflexivity.
  - vm_compute. reflexivity.
  - discriminate.
  - vm_compute. reflexivity.
  - vm_compute. reflexivity.
Defined.

(** X19 on a sprint request with the text [x], and on one whose text
    is the integer 10^4300 (4301 digits). *)
Lemma main_sends_the_sprint_prompt :
  (exists tasks : list request,
      sent (fst (main (rt := demo_runtime (Return (completion DOC_A1)))
                   (JObj [(u "type", JStr (u "sprint")); (u "text", JStr (u "x"))])
                   (demo_world None)))
      = sent (demo_world None)
          ++ gpt_request (u "key") (u "folder")
               (u "Проанализируй спринт." ++ NL ++ NL ++ u "Запрос:" ++ NL
                  ++ u "x" ++ NL ++ u "Ответ:")
          :: tasks
      /\ Forall is_task_request tasks
      /\ (py_eq_str
            (dict_get [(u "type", JStr (u "sprint")); (u "text", JStr (u "x"))]
               (u "type") (JStr (u "analysis")))
            (u "analysis") = false -> tasks = []))
  /\ (main (rt := demo_runtime (Return (completion DOC_A1)))
         (JObj [(u "type", JStr (u "sprint")); (u "text", JInt INT_STR_LIMIT)])
         (demo_world None)
       = (mkWorld (demo_environ None) demo_prompts [],
          Return (demo_dumps
                    (error_envelope (u "Ошибка: " ++ exn_str INT_TOO_LONG))))
       /\ sent (mkWorld (demo_environ None) demo_prompts [])
          = sent (demo_world None)).
Proof.
  split.
  - refine (proj1 (@main_sends_the_prompt_with_the_text
                     (demo_runtime (Return (completion DOC_A1)))
                     [(u "type", JStr (u "sprint")); (u "text", JStr (u "x"))]
                     (u "sprint_analytics") (u "key") (u "folder")
                     (JStr (u "Проанализируй спринт."))
                     (demo_world None)
                     (mkWorld (demo_environ None) demo_prompts [])
                     _ _ _ _ _ _ _ _)
              (u "Проанализируй спринт.") (u "x") _ _).
    + vm_compute. reflexivity.
    + vm_compute. reflexivity.
    + vm_compute. reflexivity.
    + vm_compute. reflexivity.
    + vm_compute. reflexivity.
    + discriminate.
    + vm_compute. reflexivity.
    + discriminate.
    + vm_compute. reflexivity.
    + vm_compute. reflexivity.
  - refine (proj2 (@main_sends_the_prompt_with_the_text
                     (demo_runtime (Return (completion DOC_A1)))
                     [(u "type", JStr (u "sprint"));
                      (u "text", JInt INT_STR_LIMIT)]
                     (u "sprint_analytics") (u "key") (u "folder")
                     (JStr (u "Проанализируй спринт."))
                     (demo_world None)
                     (mkWorld (demo_environ None) demo_prompts [])
                     _ _ _ _ _ _ _ _)
              INT_TOO_LONG _).
    + vm_compute. reflexivity.
    + vm_compute. reflexivity.
    + vm_compute. reflexivity.
    + vm_compute. reflexivity.
    + vm_compute. reflexivity.
    + discriminate.
    + vm_compute. reflexivity.
    + discriminate.
    + vm_compute. reflexivity.
Defined.

(** X20 in a process without the completion key. *)
Lemma missing_completion_key_on_sprint :
  main (rt := demo_runtime (Return (completion DOC_A1)))
    (JObj [(u "type", JStr (u "sprint")); (u "text", JStr (u "x"))])
    (world_of FOLDER_ONLY)
  = (mkWorld (environ_of FOLDER_ONLY) demo_prompts [],
     Return (demo_dumps
               (error_envelope
                  (u "Ошибка: "
                     ++ match full_prompt
                                (rt := demo_runtime (Return (completion DOC_A1)))
                                (JStr (u "Проанализируй спринт."))
                                (dict_get [(u "type", JStr (u "sprint"));
                                           (u "text", JStr (u "x"))]
                                   (u "text") (JStr [])) with
                        | Return _ =>
                            if py_truthy
                                 (environ_get (world_of FOLDER_ONLY)
                                    (u "YANDEX_API_KEY"))
                            then u "Отсутствует YANDEX_FOLDER_ID"
                            else u "Отсутствует YANDEX_API_KEY"
                        | Raise e => exn_str e
                        end))))
  /\ sent (mkWorld (environ_of FOLDER_ONLY) demo_prompts [])
     = sent (world_of FOLDER_ONLY).
Proof.
  refine (@missing_completion_credentials_stop_the_request
            (demo_runtime (Return (completion DOC_A1)))
            [(u "type", JStr (u "sprint")); (u "text", JStr (u "x"))]
            (u "sprint_analytics") (JStr (u "Проанализируй спринт."))
            (world_of FOLDER_ONLY)
            (mkWorld (environ_of FOLDER_ONLY) demo_prompts [])
            _ _ _ _ _).
  - vm_compute. reflexivity.
  - vm_compute. reflexivity.
  - vm_compute. reflexivity.
  - vm_compute. reflexivity.
  - vm_compute. reflexivity.
Defined.

(** X21 with no prompt file. *)
Lemma unreadable_prompt_file_on_analysis :
  main (rt := runtime_with more_documents (Raise NO_PROMPT_FILE)
                (demo_post (Return (completion DOC_LIST))))
    (JObj [(u "type", JStr (u "analysis")); (u "text", JStr (u "x"))])
    (demo_world None)
  = (demo_world None,
     Return (demo_dumps
               (error_envelope (u "Ошибка: " ++ exn_str NO_PROMPT_FILE)))).
Proof.
  refine (@unreadable_prompt_file_is_an_error
            (runtime_with more_documents (Raise NO_PROMPT_FILE)
               (demo_post (Return (completion DOC_LIST))))
            [(u "type", JStr (u "analysis")); (u "text", JStr (u "x"))]
            (u "analysis") NO_PROMPT_FILE (demo_world None) _ _ _ _).
  - vm_compute. reflexivity.
  - vm_compute. reflexivity.
  - vm_compute. reflexivity.
  - vm_compute. reflexivity.
Defined.

(** X22 on a summary whose status is [null]. *)
Lemma sprint_status_null :
  format_sprint_report (rt := demo_runtime (Return (completion DOC_A1)))
    (JObj SPRINT_NULL_STATUS)
  = Raise (mkExn AttributeError
             (u "'" ++ py_type_name JNull ++ u "' object has no attribute '"
                ++ u "upper" ++ u "'")).
Proof.
  refine (@sprint_status_must_be_text
            (demo_runtime (Return (completion DOC_A1)))
            SPRINT_NULL_STATUS [] [(u "overall_status", JNull)] JNull
            _ _ _ _).
  - vm_compute. reflexivity.
  - vm_compute. reflexivity.
  - vm_compute. reflexivity.
  - intros s. discriminate.
Defined.

(** X23 with a task service that answers with a list. *)
Lemma list_answer_is_recorded_as_failed :
  create_one (rt := runtime_with more_documents (Return demo_prompts) list_post)
    (u "col") (JObj [(u "task_id", JInt 1); (u "title", JStr (u "ok"))])
    (demo_world (Some (u "col")))
  = (mkWorld (environ (demo_world (Some (u "col"))))
       (PROMPTS (demo_world (Some (u "col"))))
       (sent (demo_world (Some (u "col")))
          ++ [mkRequest TASKS_URL (u "ykey")
                (JObj [(u "title", JStr (u "ok"));
                       (u "description", JStr []);
                       (u "columnId", JStr (u "col"))])]),
     Return (JObj [(u "task_id",
                    dict_get [(u "task_id", JInt 1); (u "title", JStr (u "ok"))]
                      (u "task_id") JNull);
                   (u "title",
                    dict_get [(u "task_id", JInt 1); (u "title", JStr (u "ok"))]
                      (u "title") JNull);
                   (u "status", JStr (u "failed"));
                   (u "error",
                    JStr (u "'" ++ py_type_name (JArr [])
                            ++ u "' object has no attribute '" ++ u "get"
                            ++ u "'"))])).
Proof.
  refine (@odd_creation_answer_is_recorded_as_failed
            (runtime_with more_documents (Return demo_prompts) list_post)
            (u "col") (u "ykey")
            [(u "task_id", JInt 1); (u "title", JStr (u "ok"))]
            (JObj [(u "title", JStr (u "ok"));
                   (u "description", JStr []);
                   (u "columnId", JStr (u "col"))])
            (JArr []) (demo_world (Some (u "col"))) _ _ _ _ _).
  - vm_compute. reflexivity.
  - discriminate.
  - vm_compute. reflexivity.
  - vm_compute. reflexivity.
  - vm_compute. reflexivity.
Defined.

(** X6 on a request that holds an integer of 4301 digits: the log line
    raises, the answer is 500 and [main] is not reached. *)
Lemma handler_on_a_huge_integer :
  handler (rt := demo_runtime (Return (completion DOC_A1)))
    HUGE_EVENT (demo_world None)
  = (demo_world None,
     Return (http_response 500
               (demo_dumps (error_envelope (exn_str INT_TOO_LONG))))).
Proof.
  pose proof (@handler_is_main_on_event_input
                (demo_runtime (Return (completion DOC_A1)))
                HUGE_EVENT (demo_world None)) as H.
  replace (py_str (rt := demo_runtime (Return (completion DOC_A1)))
             (event_input (rt := demo_runtime (Return (completion DOC_A1)))
                HUGE_EVENT))
    with (@Raise pystr INT_TOO_LONG) in H by (vm_compute; reflexivity).
  exact H.
Defined.
